(** * Fossilize: pipeline-state hashing, recording, replay and the replay supervisor

    A shallow embedding of
      - [src/vulkan_pipeline_cache.cpp] (namespace [VPC]: [Hashing],
        [ScratchAllocator], [StateRecorder], [StateReplayer]) and
      - [src/cli/fossilize_replay_windows.hpp] ([ProcessProgress] and the
        master process loop),
    followed by the properties established about them.

    Conventions.
      - C++ unsigned integers are [Z] with the wrap-around written out
        ([wrap32], [wrap64]); [size_t] is 64 bits wide.
      - A [float] is carried as its 32-bit pattern (the hasher
        bit-reinterprets it, the serializer passes it through).
      - A pointer to an array is a [list]; a pointer that may be null is an
        [option]; the element count field that travels with the pointer is
        kept as its own field, as in the Vulkan structs.
      - Calls that can throw, trip an assertion or run into undefined
        behaviour return a [result]. *)

From Stdlib Require Import ZArith List String Ascii Bool Lia.
From stdpp Require Import base option list gmap strings.

Local Open Scope Z_scope.

(** ** Integer widths *)

Definition wrap32 (z : Z) : Z := z mod 2 ^ 32.
Definition wrap64 (z : Z) : Z := z mod 2 ^ 64.
Arguments wrap32 : simpl never.
Arguments wrap64 : simpl never.

(** ** Outcome of a call

    [Throw] is a C++ exception ([std::logic_error], [std::runtime_error]).
    [Fault] is a failed [RAPIDJSON_ASSERT] (rapidjson's default maps it to
    [assert]) or C++ undefined behaviour such as an out-of-bounds read: the
    call does not return normally and no [catch] intercepts it. *)

Inductive result (A : Type) : Type :=
  | Ok (a : A)
  | Throw (what : string)
  | Fault.
Arguments Ok {A} a.
Arguments Throw {A} what.
Arguments Fault {A}.

#[global] Instance result_ret : MRet result := fun A a => Ok a.
#[global] Instance result_bind : MBind result := fun A B k r =>
  match r with
  | Ok a => k a
  | Throw w => Throw w
  | Fault => Fault
  end.
#[global] Instance result_fmap : FMap result := fun A B f r =>
  match r with
  | Ok a => Ok (f a)
  | Throw w => Throw w
  | Fault => Fault
  end.

(** An array read [p[i]]: past the end of the storage it is undefined. *)
Definition read {A} (p : list A) (i : nat) : result A :=
  match p !! i with
  | Some a => Ok a
  | None => Fault
  end.

(** [for (i = 0; i < n; i++) body(i)], collecting what each round yields. *)
Fixpoint for_each {A B} (f : A -> result (list B)) (l : list A) : result (list B) :=
  match l with
  | [] => Ok []
  | a :: l' =>
      match f a with
      | Ok bs =>
          match for_each f l' with
          | Ok bs' => Ok (bs ++ bs')
          | Throw w => Throw w
          | Fault => Fault
          end
      | Throw w => Throw w
      | Fault => Fault
      end
  end.

Definition for_range {B} (n : Z) (f : nat -> result (list B)) : result (list B) :=
  for_each f (seq 0 (Z.to_nat n)).

(** * ScratchAllocator ([vulkan_pipeline_cache.cpp], lines 894-935) *)

Module ScratchAllocator.

(** Modelled from the spec: [struct Block] is declared in
    [vulkan_pipeline_cache.hpp], which is not among the sources; the spec
    (3, Lifecycle) calls the allocator a bump allocator. A block is its
    storage [blob], its [size] and the bump [offset], which starts at 0.
    The constructor (lines 894-898) takes [blob] from [new uint8_t[size]],
    which throws rather than returning null, so [blob] is set in every
    block it builds. *)
Record Block : Type := mkBlock {
  blob : bool;
  offset : Z;
  size : Z
}.

Definition Block_new (sz : Z) : Block :=
  {| blob := true; offset := 0; size := sz |}.

(** A returned [void *]: null, or an address inside the blob of block
    number [block] at byte [at_offset]. Blobs are taken to start at an
    address aligned for every request. *)
Inductive pointer : Type :=
  | nullptr
  | address (block : nat) (at_offset : Z).

Definition add_block (blocks : list Block) (minimum_size : Z) : list Block :=
  let minimum_size := if minimum_size <? 64 * 1024 then 64 * 1024 else minimum_size in
  blocks ++ [Block_new minimum_size].

(** [~alignment] on a 64-bit [size_t]. *)
Definition size_t_not (a : Z) : Z := 2 ^ 64 - 1 - a.

(** [allocate_raw] calls itself after [add_block]; [fuel] bounds the depth
    of that recursion and [None] means the bound was reached. *)
Fixpoint allocate_raw (fuel : nat) (blocks : list Block) (sz alignment : Z)
  : option (pointer * list Block) :=
  match fuel with
  | O => None
  | S fuel' =>
      let blocks :=
        match blocks with
        | [] => add_block blocks (wrap64 (sz + alignment))
        | _ => blocks
        end in
      match last blocks with
      | None => None
      | Some block =>
          if negb (blob block) then Some (nullptr, blocks)
          else
            let offset' := Z.land (wrap64 (offset block + alignment - 1)) (size_t_not alignment) in
            let required_size := wrap64 (offset' + sz) in
            if required_size <=? sz then
              Some (address (length blocks - 1) offset',
                    <[(length blocks - 1)%nat := {| blob := blob block; offset := required_size; size := size block |}]> blocks)
            else
              allocate_raw fuel' (add_block blocks (wrap64 (sz + alignment))) sz alignment
      end
  end.

End ScratchAllocator.

(** * The replay supervisor ([cli/fossilize_replay_windows.hpp]) *)

Module Supervisor.

(** ** The C library's number scanners

    [strtol] and [strtoull] as ISO C defines them: leading white space, an
    optional sign, for base 0 the prefix decides the base ([0x]/[0X] then a
    hexadecimal digit: 16; a leading [0]: 8; otherwise 10), then the longest
    run of digits of the base; no digits gives 0; a value out of range is
    clamped. On Windows [long] is 32 bits wide and [unsigned long long] 64. *)

Definition LONG_MAX : Z := 2 ^ 31 - 1.
Definition LONG_MIN : Z := - 2 ^ 31.
Definition ULLONG_MAX : Z := 2 ^ 64 - 1.

Definition isspace (c : ascii) : bool :=
  let n := Z.of_nat (nat_of_ascii c) in
  (n =? 32) || ((9 <=? n) && (n <=? 13)).

Definition digit_value (c : ascii) : option Z :=
  let n := Z.of_nat (nat_of_ascii c) in
  if (48 <=? n) && (n <=? 57) then Some (n - 48)
  else if (97 <=? n) && (n <=? 122) then Some (n - 97 + 10)
  else if (65 <=? n) && (n <=? 90) then Some (n - 65 + 10)
  else None.

Definition is_digit_of (base : Z) (c : ascii) : bool :=
  match digit_value c with
  | Some d => d <? base
  | None => false
  end.

Fixpoint skip_space (s : string) : string :=
  match s with
  | String c s' => if isspace c then skip_space s' else s
  | EmptyString => s
  end.

Fixpoint scan_digits (base acc : Z) (s : string) : Z :=
  match s with
  | String c s' =>
      match digit_value c with
      | Some d => if d <? base then scan_digits base (acc * base + d) s' else acc
      | None => acc
      end
  | EmptyString => acc
  end.

Definition scan_sign (s : string) : bool * string :=
  match s with
  | String "-"%char s' => (true, s')
  | String "+"%char s' => (false, s')
  | _ => (false, s)
  end.

Definition has_hex_prefix (s : string) : option string :=
  match s with
  | String "0"%char (String x (String h rest)) =>
      if ((x =? "x")%char || (x =? "X")%char) && is_digit_of 16 h
      then Some (String h rest) else None
  | _ => None
  end.

Definition scan_base (base : Z) (s : string) : Z * string :=
  if base =? 0 then
    match has_hex_prefix s with
    | Some s' => (16, s')
    | None =>
        match s with
        | String "0"%char _ => (8, s)
        | _ => (10, s)
        end
    end
  else if base =? 16 then
    match has_hex_prefix s with
    | Some s' => (16, s')
    | None => (16, s)
    end
  else (base, s).

(** Sign and magnitude of the scanned number, before clamping. *)
Definition scan_number (s : string) (base : Z) : bool * Z :=
  let '(neg, s) := scan_sign (skip_space s) in
  let '(base, s) := scan_base base s in
  (neg, scan_digits base 0 s).

Definition strtol (s : string) (base : Z) : Z :=
  let '(neg, m) := scan_number s base in
  if neg then Z.max (- m) LONG_MIN else Z.min m LONG_MAX.

Definition strtoull (s : string) (base : Z) : Z :=
  let '(neg, m) := scan_number s base in
  if ULLONG_MAX <? m then ULLONG_MAX
  else if neg then wrap64 (- m) else m.

(** [cmd + n] on a NUL-terminated string. *)
Fixpoint advance (n : nat) (s : string) : string :=
  match n, s with
  | O, _ => s
  | S n', String _ s' => advance n' s'
  | S _, EmptyString => EmptyString
  end.

(** [strncmp(cmd, lit, strlen(lit)) == 0]. *)
Definition starts_with (lit cmd : string) : bool := String.prefix lit cmd.

(** ** Shared state *)

Definition HANDLE : Type := Z.

(** Modelled from the spec: [SharedControlBlock] and
    [shared_control_block_write] are declared in
    [fossilize_external_replayer.hpp], which is not among the sources; spec
    4.5 lists the relaxed-atomic [u32] counters and the ring buffer of
    messages. Kept here: the three counters and the messages written. *)
Record SharedControlBlock : Type := mkControlBlock {
  banned_modules : Z;
  clean_process_deaths : Z;
  dirty_process_deaths : Z;
  ring_buffer : list string
}.

(** [namespace Global], the part the supervisor's bookkeeping touches. *)
Record Global : Type := mkGlobal {
  faulty_spirv_modules : gset Z;
  active_processes : Z;
  control_block : option SharedControlBlock
}.

Record ProcessProgress : Type := mkProcessProgress {
  start_graphics_index : Z;
  start_compute_index : Z;
  end_graphics_index : Z;
  end_compute_index : Z;
  process : option HANDLE;
  crash_file_handle : option HANDLE;   (* [None] is INVALID_HANDLE_VALUE *)
  timer_handle : option HANDLE;
  pipe_event : option HANDLE;
  compute_progress : Z;
  graphics_progress : Z;
  index : Z
}.

(** A default-constructed [ProcessProgress]. *)
Definition ProcessProgress_new : ProcessProgress :=
  {| start_graphics_index := 0; start_compute_index := 0;
     end_graphics_index := 2 ^ 32 - 1; end_compute_index := 2 ^ 32 - 1;
     process := None; crash_file_handle := None; timer_handle := None;
     pipe_event := None; compute_progress := -1; graphics_progress := -1;
     index := 0 |}.

Definition set_graphics_progress (v : Z) (p : ProcessProgress) : ProcessProgress :=
  {| start_graphics_index := start_graphics_index p; start_compute_index := start_compute_index p;
     end_graphics_index := end_graphics_index p; end_compute_index := end_compute_index p;
     process := process p; crash_file_handle := crash_file_handle p;
     timer_handle := timer_handle p; pipe_event := pipe_event p;
     compute_progress := compute_progress p; graphics_progress := v; index := index p |}.

Definition set_compute_progress (v : Z) (p : ProcessProgress) : ProcessProgress :=
  {| start_graphics_index := start_graphics_index p; start_compute_index := start_compute_index p;
     end_graphics_index := end_graphics_index p; end_compute_index := end_compute_index p;
     process := process p; crash_file_handle := crash_file_handle p;
     timer_handle := timer_handle p; pipe_event := pipe_event p;
     compute_progress := v; graphics_progress := graphics_progress p; index := index p |}.

Definition set_timer_handle (t : option HANDLE) (p : ProcessProgress) : ProcessProgress :=
  {| start_graphics_index := start_graphics_index p; start_compute_index := start_compute_index p;
     end_graphics_index := end_graphics_index p; end_compute_index := end_compute_index p;
     process := process p; crash_file_handle := crash_file_handle p;
     timer_handle := t; pipe_event := pipe_event p;
     compute_progress := compute_progress p; graphics_progress := graphics_progress p;
     index := index p |}.

(** [MODULE]: the hash joins the blacklist; with a control block attached
    the counter is bumped and the raw message enqueued (the shared mutex is
    taken to be acquired). *)
Definition record_faulty_module (hash : Z) (cmd : string) (g : Global) : Global :=
  {| faulty_spirv_modules := {[hash]} ∪ faulty_spirv_modules g;
     active_processes := active_processes g;
     control_block :=
       match control_block g with
       | Some cb =>
           Some {| banned_modules := wrap32 (banned_modules cb + 1);
                   clean_process_deaths := clean_process_deaths cb;
                   dirty_process_deaths := dirty_process_deaths cb;
                   ring_buffer := ring_buffer cb ++ [cmd] |}
       | None => None
       end |}.

(** [ProcessProgress::parse]. [new_timer] is what [CreateWaitableTimer]
    hands back ([None] when it fails). *)
Definition parse (new_timer : option HANDLE) (cmd : string)
  (st : ProcessProgress * Global) : ProcessProgress * Global :=
  let '(p, g) := st in
  if starts_with "CRASH" cmd then
    (set_timer_handle new_timer p, g)
  else if starts_with "GRAPHICS" cmd then
    (set_graphics_progress (strtol (advance 8 cmd) 0) p, g)
  else if starts_with "COMPUTE" cmd then
    (set_compute_progress (strtol (advance 7 cmd) 0) p, g)
  else if starts_with "MODULE" cmd then
    (p, record_faulty_module (strtoull (advance 6 cmd) 16) cmd g)
  else
    (p, g).

(** ** Reading the worker's pipe *)

(** What [GetOverlappedResult] reports for the read in flight. *)
Inductive pipe_read : Type :=
  | ReadFailed
  | ReadDone (msg : string).

Definition sizeof_async_pipe_buffer : Z := 1024.

(** [ProcessProgress::process_once]; [kick_ok] is the outcome of the next
    [kick_overlapped_io]. [ResetEvent] is taken to succeed. *)
Definition process_once (new_timer : option HANDLE) (rd : pipe_read) (kick_ok : bool)
  (st : ProcessProgress * Global) : bool * (ProcessProgress * Global) :=
  match crash_file_handle (fst st) with
  | None => (false, st)
  | Some _ =>
      match rd with
      | ReadFailed => (false, st)
      | ReadDone msg =>
          if Z.of_nat (String.length msg) <? sizeof_async_pipe_buffer
          then (kick_ok, parse new_timer msg st)
          else (false, st)
      end
  end.

(** [while (process_once());] once the worker is gone: [pending] are the
    messages still in the pipe, each read and each re-kick succeeds until
    the pipe is empty, then the read fails. *)
Fixpoint flush_messages (new_timer : option HANDLE) (pending : list string)
  (st : ProcessProgress * Global) : ProcessProgress * Global :=
  match pending with
  | [] => snd (process_once new_timer ReadFailed true st)
  | msg :: rest =>
      let '(more, st') := process_once new_timer (ReadDone msg) true st in
      if more then flush_messages new_timer rest st' else st'
  end.

(** ** Reaping a worker *)

(** What the operating system reports when the child is reaped. *)
Inductive reaped : Type :=
  | WaitFailed                (* WaitForSingleObject did not return WAIT_OBJECT_0 *)
  | NoExitCode                (* GetExitCodeProcess failed: [code] stays 0 *)
  | ExitCode (code : Z).

Definition close_handles (p : ProcessProgress) : ProcessProgress :=
  {| start_graphics_index := start_graphics_index p; start_compute_index := start_compute_index p;
     end_graphics_index := end_graphics_index p; end_compute_index := end_compute_index p;
     process := process p; crash_file_handle := None;
     timer_handle := None; pipe_event := None;
     compute_progress := compute_progress p; graphics_progress := graphics_progress p;
     index := index p |}.

Definition set_process (h : option HANDLE) (p : ProcessProgress) : ProcessProgress :=
  {| start_graphics_index := start_graphics_index p; start_compute_index := start_compute_index p;
     end_graphics_index := end_graphics_index p; end_compute_index := end_compute_index p;
     process := h; crash_file_handle := crash_file_handle p;
     timer_handle := timer_handle p; pipe_event := pipe_event p;
     compute_progress := compute_progress p; graphics_progress := graphics_progress p;
     index := index p |}.

Definition set_start (sg sc : Z) (p : ProcessProgress) : ProcessProgress :=
  {| start_graphics_index := sg; start_compute_index := sc;
     end_graphics_index := end_graphics_index p; end_compute_index := end_compute_index p;
     process := process p; crash_file_handle := crash_file_handle p;
     timer_handle := timer_handle p; pipe_event := pipe_event p;
     compute_progress := compute_progress p; graphics_progress := graphics_progress p;
     index := index p |}.

Definition set_active_processes (n : Z) (g : Global) : Global :=
  {| faulty_spirv_modules := faulty_spirv_modules g;
     active_processes := n;
     control_block := control_block g |}.

Definition add_dirty_process_death (g : Global) : Global :=
  {| faulty_spirv_modules := faulty_spirv_modules g;
     active_processes := active_processes g;
     control_block :=
       match control_block g with
       | Some cb =>
           Some {| banned_modules := banned_modules cb;
                   clean_process_deaths := clean_process_deaths cb;
                   dirty_process_deaths := wrap32 (dirty_process_deaths cb + 1);
                   ring_buffer := ring_buffer cb |}
       | None => None
       end |}.

Definition add_clean_process_death (g : Global) : Global :=
  {| faulty_spirv_modules := faulty_spirv_modules g;
     active_processes := active_processes g;
     control_block :=
       match control_block g with
       | Some cb =>
           Some {| banned_modules := banned_modules cb;
                   clean_process_deaths := wrap32 (clean_process_deaths cb + 1);
                   dirty_process_deaths := dirty_process_deaths cb;
                   ring_buffer := ring_buffer cb |}
       | None => None
       end |}.

(** The tail of [process_shutdown], from [if (code == 0)] on. *)
Definition after_reap (code : Z) (st : ProcessProgress * Global)
  : bool * (ProcessProgress * Global) :=
  let '(p, g) := st in
  if code =? 0 then (false, (p, g))
  else if (graphics_progress p <? 0) || (compute_progress p <? 0) then
    (false, (p, add_dirty_process_death g))
  else
    let g := add_clean_process_death g in
    let p := set_start (wrap32 (graphics_progress p)) (wrap32 (compute_progress p)) p in
    if (end_graphics_index p <=? start_graphics_index p)
       && (end_compute_index p <=? start_compute_index p)
    then (false, (p, g))
    else (true, (p, g)).

(** [ProcessProgress::process_shutdown]. The result [true] asks the caller
    to start the worker again. *)
Definition process_shutdown (new_timer : option HANDLE) (pending : list string) (r : reaped)
  (st : ProcessProgress * Global) : bool * (ProcessProgress * Global) :=
  let '(p, g) := flush_messages new_timer pending st in
  let p := close_handles p in
  match process p with
  | Some _ =>
      match r with
      | WaitFailed => (false, (p, g))
      | NoExitCode =>
          after_reap 0 (set_process None p, set_active_processes (wrap32 (active_processes g - 1)) g)
      | ExitCode code =>
          after_reap code (set_process None p, set_active_processes (wrap32 (active_processes g - 1)) g)
      end
  | None => after_reap 0 (p, g)
  end.

(** ** Starting a worker *)

(** What a started worker is given: the two ranges on its command line and
    the hashes written to its standard input by
    [send_faulty_modules_and_close]. *)
Record ChildLaunch : Type := mkChildLaunch {
  graphics_pipeline_range : Z * Z;
  compute_pipeline_range : Z * Z;
  ignored_modules : gset Z
}.

(** How far the operating-system calls of [start_child_process] get. *)
Inductive spawn_os : Type :=
  | CreateFailed                                   (* a pipe, handle or CreateProcessA call fails *)
  | EventFailed (proc pipe : HANDLE)               (* CreateEvent fails *)
  | KickFailed (proc pipe event : HANDLE)          (* kick_overlapped_io fails *)
  | Started (proc pipe event : HANDLE).

Definition reset_progress (p : ProcessProgress) : ProcessProgress :=
  set_graphics_progress (-1) (set_compute_progress (-1) p).

Definition attach_child (proc pipe : HANDLE) (event : option HANDLE) (p : ProcessProgress)
  : ProcessProgress :=
  {| start_graphics_index := start_graphics_index p; start_compute_index := start_compute_index p;
     end_graphics_index := end_graphics_index p; end_compute_index := end_compute_index p;
     process := Some proc; crash_file_handle := Some pipe;
     timer_handle := timer_handle p; pipe_event := event;
     compute_progress := compute_progress p; graphics_progress := graphics_progress p;
     index := index p |}.

(** [ProcessProgress::start_child_process]. *)
Definition start_child_process (os : spawn_os) (st : ProcessProgress * Global)
  : bool * (ProcessProgress * Global) * option ChildLaunch :=
  let '(p, g) := st in
  let p := reset_progress p in
  if (end_graphics_index p <=? start_graphics_index p)
     && (end_compute_index p <=? start_compute_index p)
  then (true, (p, g), None)
  else
    let launch :=
      {| graphics_pipeline_range := (start_graphics_index p, end_graphics_index p);
         compute_pipeline_range := (start_compute_index p, end_compute_index p);
         ignored_modules := faulty_spirv_modules g |} in
    let g' := set_active_processes (wrap32 (active_processes g + 1)) g in
    match os with
    | CreateFailed => (false, (p, g), None)
    | EventFailed proc pipe => (false, (attach_child proc pipe None p, g'), Some launch)
    | KickFailed proc pipe event => (false, (attach_child proc pipe (Some event) p, g'), Some launch)
    | Started proc pipe event => (true, (attach_child proc pipe (Some event) p, g'), Some launch)
    end.

(** ** The master's reaction to a signalled process handle
    ([run_master_process], lines 676-684): [process_shutdown() &&
    !start_child_process()] ends the master with [EXIT_FAILURE]. The first
    component is [false] in that case. *)
Definition on_process_exit (new_timer : option HANDLE) (pending : list string) (r : reaped)
  (os : spawn_os) (st : ProcessProgress * Global)
  : bool * (ProcessProgress * Global) * option ChildLaunch :=
  let '(again, st1) := process_shutdown new_timer pending r st in
  if again then start_child_process os st1
  else (true, st1, None).

(** The reaction to a signalled timer (lines 690-705): the worker is
    terminated with exit code 3, then takes the exit path. *)
Definition on_timer_expiry (new_timer : option HANDLE) (pending : list string)
  (terminate_ok : bool) (r : reaped) (os : spawn_os) (st : ProcessProgress * Global)
  : bool * (ProcessProgress * Global) * option ChildLaunch :=
  if terminate_ok then on_process_exit new_timer pending r os st
  else (false, st, None).

End Supervisor.

(** * Vulkan create-info structures

    The fields the code reads, with the names of [vulkan_core.h]; where two
    structures share a field name the structure's initials are prefixed.
    Handles ([VkSampler], [VkPipeline], ...) are 64-bit values and
    [VK_NULL_HANDLE] is 0. Enumerators carry the values [vulkan_core.h]
    gives them. *)

Definition Hash : Type := Z.
Definition VK_NULL_HANDLE : Z := 0.

Definition VK_DESCRIPTOR_TYPE_SAMPLER : Z := 0.
Definition VK_DESCRIPTOR_TYPE_COMBINED_IMAGE_SAMPLER : Z := 1.

Definition VK_DYNAMIC_STATE_VIEWPORT : Z := 0.
Definition VK_DYNAMIC_STATE_SCISSOR : Z := 1.
Definition VK_DYNAMIC_STATE_LINE_WIDTH : Z := 2.
Definition VK_DYNAMIC_STATE_DEPTH_BIAS : Z := 3.
Definition VK_DYNAMIC_STATE_BLEND_CONSTANTS : Z := 4.
Definition VK_DYNAMIC_STATE_DEPTH_BOUNDS : Z := 5.
Definition VK_DYNAMIC_STATE_STENCIL_COMPARE_MASK : Z := 6.
Definition VK_DYNAMIC_STATE_STENCIL_WRITE_MASK : Z := 7.
Definition VK_DYNAMIC_STATE_STENCIL_REFERENCE : Z := 8.

Definition VK_BLEND_FACTOR_CONSTANT_COLOR : Z := 10.
Definition VK_BLEND_FACTOR_ONE_MINUS_CONSTANT_COLOR : Z := 11.
Definition VK_BLEND_FACTOR_CONSTANT_ALPHA : Z := 12.
Definition VK_BLEND_FACTOR_ONE_MINUS_CONSTANT_ALPHA : Z := 13.

Definition VK_IMAGE_LAYOUT_UNDEFINED : Z := 0.

Record VkSamplerCreateInfo : Type := mkSampler {
  s_flags : Z;
  magFilter : Z;
  minFilter : Z;
  mipmapMode : Z;
  addressModeU : Z;
  addressModeV : Z;
  addressModeW : Z;
  mipLodBias : Z;
  anisotropyEnable : Z;
  maxAnisotropy : Z;
  compareEnable : Z;
  s_compareOp : Z;
  minLod : Z;
  maxLod : Z;
  borderColor : Z;
  unnormalizedCoordinates : Z
}.

Record VkDescriptorSetLayoutBinding : Type := mkBinding {
  b_binding : Z;
  descriptorType : Z;
  descriptorCount : Z;
  b_stageFlags : Z;
  pImmutableSamplers : option (list Z)
}.

Record VkDescriptorSetLayoutCreateInfo : Type := mkSetLayout {
  dsl_flags : Z;
  bindingCount : Z;
  pBindings : list VkDescriptorSetLayoutBinding
}.

Record VkPushConstantRange : Type := mkPushConstantRange {
  pc_stageFlags : Z;
  pc_offset : Z;
  pc_size : Z
}.

Record VkPipelineLayoutCreateInfo : Type := mkPipelineLayout {
  pl_flags : Z;
  setLayoutCount : Z;
  pSetLayouts : list Z;
  pushConstantRangeCount : Z;
  pPushConstantRanges : list VkPushConstantRange
}.

Record VkShaderModuleCreateInfo : Type := mkShaderModule {
  sm_flags : Z;
  codeSize : Z;
  pCode : list Z          (* the code, as bytes *)
}.

Record VkAttachmentDescription : Type := mkAttachmentDescription {
  att_flags : Z;
  att_format : Z;
  samples : Z;
  loadOp : Z;
  storeOp : Z;
  stencilLoadOp : Z;
  stencilStoreOp : Z;
  initialLayout : Z;
  finalLayout : Z
}.

Record VkSubpassDependency : Type := mkSubpassDependency {
  srcSubpass : Z;
  dstSubpass : Z;
  srcStageMask : Z;
  dstStageMask : Z;
  srcAccessMask : Z;
  dstAccessMask : Z;
  dependencyFlags : Z
}.

Record VkAttachmentReference : Type := mkAttachmentReference {
  attachment : Z;
  ref_layout : Z
}.

Record VkSubpassDescription : Type := mkSubpass {
  sp_flags : Z;
  pipelineBindPoint : Z;
  inputAttachmentCount : Z;
  pInputAttachments : option (list VkAttachmentReference);
  colorAttachmentCount : Z;
  pColorAttachments : option (list VkAttachmentReference);
  pResolveAttachments : option (list VkAttachmentReference);
  pDepthStencilAttachment : option VkAttachmentReference;
  preserveAttachmentCount : Z;
  pPreserveAttachments : option (list Z)
}.

Record VkRenderPassCreateInfo : Type := mkRenderPass {
  rp_flags : Z;
  attachmentCount : Z;
  pAttachments : list VkAttachmentDescription;
  subpassCount : Z;
  pSubpasses : list VkSubpassDescription;
  dependencyCount : Z;
  pDependencies : list VkSubpassDependency
}.

Record VkSpecializationMapEntry : Type := mkMapEntry {
  constantID : Z;
  me_offset : Z;
  me_size : Z
}.

Record VkSpecializationInfo : Type := mkSpecializationInfo {
  mapEntryCount : Z;
  pMapEntries : list VkSpecializationMapEntry;
  dataSize : Z;
  pData : list Z
}.

Record VkPipelineShaderStageCreateInfo : Type := mkStage {
  st_flags : Z;
  st_stage : Z;
  module : Z;
  pName : string;
  pSpecializationInfo : option VkSpecializationInfo
}.

Record VkComputePipelineCreateInfo : Type := mkComputePipeline {
  cp_flags : Z;
  cp_stage : VkPipelineShaderStageCreateInfo;
  cp_layout : Z;
  cp_basePipelineHandle : Z;
  cp_basePipelineIndex : Z
}.

Record VkVertexInputBindingDescription : Type := mkVertexBinding {
  vb_binding : Z;
  stride : Z;
  inputRate : Z
}.

Record VkVertexInputAttributeDescription : Type := mkVertexAttribute {
  location : Z;
  va_binding : Z;
  va_format : Z;
  va_offset : Z
}.

Record VkPipelineVertexInputStateCreateInfo : Type := mkVertexInput {
  vi_flags : Z;
  vertexBindingDescriptionCount : Z;
  pVertexBindingDescriptions : list VkVertexInputBindingDescription;
  vertexAttributeDescriptionCount : Z;
  pVertexAttributeDescriptions : list VkVertexInputAttributeDescription
}.

Record VkPipelineInputAssemblyStateCreateInfo : Type := mkInputAssembly {
  ia_flags : Z;
  topology : Z;
  primitiveRestartEnable : Z
}.

Record VkPipelineTessellationStateCreateInfo : Type := mkTessellation {
  ts_flags : Z;
  patchControlPoints : Z
}.

Record VkViewport : Type := mkViewport {
  vp_x : Z;
  vp_y : Z;
  vp_width : Z;
  vp_height : Z;
  minDepth : Z;
  maxDepth : Z
}.

Record VkRect2D : Type := mkRect2D {
  offset_x : Z;
  offset_y : Z;
  extent_width : Z;
  extent_height : Z
}.

Record VkPipelineViewportStateCreateInfo : Type := mkViewportState {
  vps_flags : Z;
  viewportCount : Z;
  pViewports : option (list VkViewport);
  scissorCount : Z;
  pScissors : option (list VkRect2D)
}.

Record VkPipelineRasterizationStateCreateInfo : Type := mkRasterization {
  rs_flags : Z;
  depthClampEnable : Z;
  rasterizerDiscardEnable : Z;
  polygonMode : Z;
  cullMode : Z;
  frontFace : Z;
  depthBiasEnable : Z;
  depthBiasConstantFactor : Z;
  depthBiasClamp : Z;
  depthBiasSlopeFactor : Z;
  lineWidth : Z
}.

Record VkPipelineMultisampleStateCreateInfo : Type := mkMultisample {
  ms_flags : Z;
  rasterizationSamples : Z;
  sampleShadingEnable : Z;
  minSampleShading : Z;
  pSampleMask : option (list Z);
  alphaToCoverageEnable : Z;
  alphaToOneEnable : Z
}.

Record VkStencilOpState : Type := mkStencilOp {
  failOp : Z;
  passOp : Z;
  depthFailOp : Z;
  compareOp : Z;
  compareMask : Z;
  writeMask : Z;
  reference : Z
}.

Record VkPipelineDepthStencilStateCreateInfo : Type := mkDepthStencil {
  ds_flags : Z;
  depthTestEnable : Z;
  depthWriteEnable : Z;
  depthCompareOp : Z;
  depthBoundsTestEnable : Z;
  stencilTestEnable : Z;
  front : VkStencilOpState;
  back : VkStencilOpState;
  minDepthBounds : Z;
  maxDepthBounds : Z
}.

Record VkPipelineColorBlendAttachmentState : Type := mkBlendAttachment {
  blendEnable : Z;
  srcColorBlendFactor : Z;
  dstColorBlendFactor : Z;
  colorBlendOp : Z;
  srcAlphaBlendFactor : Z;
  dstAlphaBlendFactor : Z;
  alphaBlendOp : Z;
  colorWriteMask : Z
}.

Record VkPipelineColorBlendStateCreateInfo : Type := mkColorBlend {
  cb_flags : Z;
  logicOpEnable : Z;
  logicOp : Z;
  cb_attachmentCount : Z;
  cb_pAttachments : list VkPipelineColorBlendAttachmentState;
  blendConstants : Z * Z * Z * Z   (* float[4] *)
}.

Record VkPipelineDynamicStateCreateInfo : Type := mkDynamicState {
  dyn_flags : Z;
  dynamicStateCount : Z;
  pDynamicStates : list Z
}.

Record VkGraphicsPipelineCreateInfo : Type := mkGraphicsPipeline {
  gp_flags : Z;
  stageCount : Z;
  pStages : list VkPipelineShaderStageCreateInfo;
  pVertexInputState : option VkPipelineVertexInputStateCreateInfo;
  pInputAssemblyState : option VkPipelineInputAssemblyStateCreateInfo;
  pTessellationState : option VkPipelineTessellationStateCreateInfo;
  pViewportState : option VkPipelineViewportStateCreateInfo;
  pRasterizationState : option VkPipelineRasterizationStateCreateInfo;
  pMultisampleState : option VkPipelineMultisampleStateCreateInfo;
  pDepthStencilState : option VkPipelineDepthStencilStateCreateInfo;
  pColorBlendState : option VkPipelineColorBlendStateCreateInfo;
  pDynamicState : option VkPipelineDynamicStateCreateInfo;
  gp_layout : Z;
  renderPass : Z;
  subpass : Z;
  basePipelineHandle : Z;
  basePipelineIndex : Z
}.

(** * StateRecorder: the registries and the handle tables *)

Record StateRecorder : Type := mkStateRecorder {
  samplers : list (Hash * VkSamplerCreateInfo);
  descriptor_sets : list (Hash * VkDescriptorSetLayoutCreateInfo);
  pipeline_layouts : list (Hash * VkPipelineLayoutCreateInfo);
  shader_modules : list (Hash * VkShaderModuleCreateInfo);
  render_passes : list (Hash * VkRenderPassCreateInfo);
  compute_pipelines : list (Hash * VkComputePipelineCreateInfo);
  graphics_pipelines : list (Hash * VkGraphicsPipelineCreateInfo);
  sampler_to_index : gmap Z nat;
  descriptor_set_layout_to_index : gmap Z nat;
  pipeline_layout_to_index : gmap Z nat;
  shader_module_to_index : gmap Z nat;
  render_pass_to_index : gmap Z nat;
  compute_pipeline_to_index : gmap Z nat;
  graphics_pipeline_to_index : gmap Z nat
}.

(** The shape shared by the seven [get_hash_for_<kind>]: look the handle up,
    throw when it was never registered, else read the registry entry. *)
Definition get_hash_for {Info : Type} (to_index : gmap Z nat) (registry : list (Hash * Info))
  (handle : Z) : result Hash :=
  match to_index !! handle with
  | None => Throw "Handle is not registered."
  | Some i => fst <$> read registry i
  end.

Definition get_hash_for_compute_pipeline_handle (r : StateRecorder) :=
  get_hash_for (compute_pipeline_to_index r) (compute_pipelines r).
Definition get_hash_for_graphics_pipeline_handle (r : StateRecorder) :=
  get_hash_for (graphics_pipeline_to_index r) (graphics_pipelines r).
Definition get_hash_for_sampler (r : StateRecorder) :=
  get_hash_for (sampler_to_index r) (samplers r).
Definition get_hash_for_shader_module (r : StateRecorder) :=
  get_hash_for (shader_module_to_index r) (shader_modules r).
Definition get_hash_for_pipeline_layout (r : StateRecorder) :=
  get_hash_for (pipeline_layout_to_index r) (pipeline_layouts r).
Definition get_hash_for_descriptor_set_layout (r : StateRecorder) :=
  get_hash_for (descriptor_set_layout_to_index r) (descriptor_sets r).
Definition get_hash_for_render_pass (r : StateRecorder) :=
  get_hash_for (render_pass_to_index r) (render_passes r).

(** * Hashing ([vulkan_pipeline_cache.cpp], namespace [Hashing]) *)

Module Hashing.

(** What one call on the [Hasher] feeds it: [h.u32(v)], [h.u64(v)],
    [h.s32(v)], [h.f32(v)], [h.string(s)], [h.data(p, size)]. *)
Inductive Token : Type :=
  | h_u32 (v : Z)
  | h_u64 (v : Z)
  | h_s32 (v : Z)
  | h_f32 (bits : Z)
  | h_string (s : string)
  | h_data (bytes : list Z).

(** [p[0] .. p[n-1]], read in order. *)
Definition read_n {A} (n : Z) (p : list A) : result (list A) :=
  for_range n (fun i => x ← read p i; Ok [x]).

(** Lines 79-90. [dataSize] and the [size] of a map entry are [size_t];
    [h.u32] takes the low 32 bits. *)
Definition hash_specialization_info (spec : VkSpecializationInfo) : result (list Token) :=
  bytes ← read_n (dataSize spec) (pData spec);
  entries ← for_range (mapEntryCount spec) (fun i =>
    e ← read (pMapEntries spec) i;
    Ok [h_u32 (me_offset e); h_u32 (wrap32 (me_size e)); h_u32 (constantID e)]);
  Ok ([h_data bytes; h_u32 (wrap32 (dataSize spec)); h_u32 (mapEntryCount spec)] ++ entries).

(** ** The blocks of [compute_hash_graphics_pipeline], in source order *)

(** Lines 109-161. The loop feeds every listed state and its [switch] sets
    one of nine booleans; [seen] is the list of states the loop read and
    [dynamic seen label] the boolean that the [case label:] arm sets. *)
Definition dynamic (seen : list Z) (label : Z) : bool :=
  existsb (Z.eqb label) seen.

Definition hash_dynamic_state (st : option VkPipelineDynamicStateCreateInfo)
  : result (list Z * list Token) :=
  match st with
  | Some state =>
      seen ← read_n (dynamicStateCount state) (pDynamicStates state);
      Ok (seen, [h_u32 (dynamicStateCount state); h_u32 (dyn_flags state)] ++ map h_u32 seen)
  | None => Ok ([], [h_u32 0])
  end.

(** Lines 163-209. *)
Definition hash_depth_stencil_state (seen : list Z)
  (st : option VkPipelineDepthStencilStateCreateInfo) : list Token :=
  match st with
  | Some ds =>
      [h_u32 (ds_flags ds); h_u32 (depthBoundsTestEnable ds); h_u32 (depthCompareOp ds);
       h_u32 (depthTestEnable ds); h_u32 (depthWriteEnable ds);
       h_u32 (compareOp (front ds)); h_u32 (depthFailOp (front ds));
       h_u32 (failOp (front ds)); h_u32 (passOp (front ds));
       h_u32 (compareOp (back ds)); h_u32 (depthFailOp (back ds));
       h_u32 (failOp (back ds)); h_u32 (passOp (back ds));
       h_u32 (stencilTestEnable ds)]
      ++ (if negb (dynamic seen VK_DYNAMIC_STATE_DEPTH_BOUNDS) && negb (depthBoundsTestEnable ds =? 0)
          then [h_f32 (minDepthBounds ds); h_f32 (maxDepthBounds ds)] else [])
      ++ (if negb (stencilTestEnable ds =? 0) then
            (if negb (dynamic seen VK_DYNAMIC_STATE_STENCIL_COMPARE_MASK)
             then [h_u32 (compareMask (front ds)); h_u32 (compareMask (back ds))] else [])
            ++ (if negb (dynamic seen VK_DYNAMIC_STATE_STENCIL_REFERENCE)
                then [h_u32 (reference (front ds)); h_u32 (reference (back ds))] else [])
            ++ (if negb (dynamic seen VK_DYNAMIC_STATE_STENCIL_WRITE_MASK)
                then [h_u32 (writeMask (front ds)); h_u32 (writeMask (back ds))] else [])
          else [])
  | None => [h_u32 0]
  end.

(** Lines 211-219. *)
Definition hash_input_assembly_state
  (st : option VkPipelineInputAssemblyStateCreateInfo) : list Token :=
  match st with
  | Some ia => [h_u32 (ia_flags ia); h_u32 (primitiveRestartEnable ia); h_u32 (topology ia)]
  | None => [h_u32 0]
  end.

(** Lines 221-243. *)
Definition hash_rasterization_state (seen : list Z)
  (st : option VkPipelineRasterizationStateCreateInfo) : list Token :=
  match st with
  | Some rs =>
      [h_u32 (rs_flags rs); h_u32 (cullMode rs); h_u32 (depthClampEnable rs);
       h_u32 (frontFace rs); h_u32 (rasterizerDiscardEnable rs); h_u32 (polygonMode rs);
       h_u32 (depthBiasEnable rs)]
      ++ (if negb (depthBiasEnable rs =? 0) && negb (dynamic seen VK_DYNAMIC_STATE_DEPTH_BIAS)
          then [h_f32 (depthBiasClamp rs); h_f32 (depthBiasSlopeFactor rs);
                h_f32 (depthBiasConstantFactor rs)] else [])
      ++ (if negb (dynamic seen VK_DYNAMIC_STATE_LINE_WIDTH) then [h_f32 (lineWidth rs)] else [])
  | None => [h_u32 0]
  end.

(** Lines 245-262: the [if] on [pMultisampleState] has no [else]. *)
Definition hash_multisample_state
  (st : option VkPipelineMultisampleStateCreateInfo) : result (list Token) :=
  match st with
  | Some ms =>
      mask ← match pSampleMask ms with
             | Some p =>
                 let elems := wrap32 (rasterizationSamples ms + 31) / 32 in
                 for_range elems (fun i => w ← read p i; Ok [h_u32 w])
             | None => Ok [h_u32 0]
             end;
      Ok ([h_u32 (ms_flags ms); h_u32 (alphaToCoverageEnable ms); h_u32 (alphaToOneEnable ms);
           h_f32 (minSampleShading ms); h_u32 (rasterizationSamples ms);
           h_u32 (sampleShadingEnable ms)] ++ mask)
  | None => Ok []
  end.

(** Lines 285-290, one round of the loop over the viewports. *)
Definition viewport_tokens (v : VkViewport) : list Token :=
  [h_f32 (vp_x v); h_f32 (vp_y v); h_f32 (vp_width v); h_f32 (vp_height v);
   h_f32 (minDepth v); h_f32 (maxDepth v)].

(** Lines 264-295. A null [pScissors] or [pViewports] that is read is an
    empty array here, so reading it is undefined. *)
Definition hash_viewport_state (seen : list Z)
  (st : option VkPipelineViewportStateCreateInfo) : result (list Token) :=
  match st with
  | Some vp =>
      scissors ←
        (if negb (dynamic seen VK_DYNAMIC_STATE_SCISSOR) then
           for_range (scissorCount vp) (fun i =>
             r ← read (default [] (pScissors vp)) i;
             Ok [h_s32 (offset_x r); h_s32 (offset_y r);
                 h_u32 (extent_width r); h_u32 (extent_height r)])
         else Ok []);
      viewports ←
        (if negb (dynamic seen VK_DYNAMIC_STATE_VIEWPORT) then
           for_range (viewportCount vp) (fun i =>
             v ← read (default [] (pViewports vp)) i;
             Ok (viewport_tokens v))
         else Ok []);
      Ok ([h_u32 (vps_flags vp); h_u32 (scissorCount vp); h_u32 (viewportCount vp)]
          ++ scissors ++ viewports)
  | None => Ok [h_u32 0]
  end.

(** Lines 297-320. *)
Definition hash_vertex_input_state
  (st : option VkPipelineVertexInputStateCreateInfo) : result (list Token) :=
  match st with
  | Some vi =>
      attributes ← for_range (vertexAttributeDescriptionCount vi) (fun i =>
        a ← read (pVertexAttributeDescriptions vi) i;
        Ok [h_u32 (va_offset a); h_u32 (va_binding a); h_u32 (va_format a); h_u32 (location a)]);
      bindings ← for_range (vertexBindingDescriptionCount vi) (fun i =>
        b ← read (pVertexBindingDescriptions vi) i;
        Ok [h_u32 (vb_binding b); h_u32 (inputRate b); h_u32 (stride b)]);
      Ok ([h_u32 (vi_flags vi); h_u32 (vertexAttributeDescriptionCount vi);
           h_u32 (vertexBindingDescriptionCount vi)] ++ attributes ++ bindings)
  | None => Ok [h_u32 0]
  end.

(** Lines 345-352: the eight comparisons that set [need_blend_constants]. *)
Definition uses_blend_constants (a : VkPipelineColorBlendAttachmentState) : bool :=
  (dstAlphaBlendFactor a =? VK_BLEND_FACTOR_CONSTANT_ALPHA)
  || (dstAlphaBlendFactor a =? VK_BLEND_FACTOR_CONSTANT_COLOR)
  || (srcAlphaBlendFactor a =? VK_BLEND_FACTOR_CONSTANT_ALPHA)
  || (srcAlphaBlendFactor a =? VK_BLEND_FACTOR_CONSTANT_COLOR)
  || (dstColorBlendFactor a =? VK_BLEND_FACTOR_CONSTANT_ALPHA)
  || (dstColorBlendFactor a =? VK_BLEND_FACTOR_CONSTANT_COLOR)
  || (srcColorBlendFactor a =? VK_BLEND_FACTOR_CONSTANT_ALPHA)
  || (srcColorBlendFactor a =? VK_BLEND_FACTOR_CONSTANT_COLOR).

Definition hash_blend_attachment (a : VkPipelineColorBlendAttachmentState) : list Token :=
  h_u32 (blendEnable a) ::
  (if negb (blendEnable a =? 0) then
     [h_u32 (colorWriteMask a); h_u32 (alphaBlendOp a); h_u32 (colorBlendOp a);
      h_u32 (dstAlphaBlendFactor a); h_u32 (srcAlphaBlendFactor a);
      h_u32 (dstColorBlendFactor a); h_u32 (srcColorBlendFactor a)]
   else [h_u32 0]).

(** [need_blend_constants] after the loop over the attachments read. *)
Definition need_blend_constants (attachments : list VkPipelineColorBlendAttachmentState) : bool :=
  existsb (fun a => negb (blendEnable a =? 0) && uses_blend_constants a) attachments.

Definition hash_blend_constants (c : Z * Z * Z * Z) : list Token :=
  let '(c0, c1, c2, c3) := c in [h_f32 c0; h_f32 c1; h_f32 c2; h_f32 c3].

(** Lines 322-366. *)
Definition hash_color_blend_state (seen : list Z)
  (st : option VkPipelineColorBlendStateCreateInfo) : result (list Token) :=
  match st with
  | Some b =>
      attachments ← read_n (cb_attachmentCount b) (cb_pAttachments b);
      Ok ([h_u32 (cb_flags b); h_u32 (cb_attachmentCount b); h_u32 (logicOpEnable b);
           h_u32 (logicOp b)]
          ++ concat (map hash_blend_attachment attachments)
          ++ (if need_blend_constants attachments && negb (dynamic seen VK_DYNAMIC_STATE_BLEND_CONSTANTS)
              then hash_blend_constants (blendConstants b) else []))
  | None => Ok [h_u32 0]
  end.

(** Lines 368-375. *)
Definition hash_tessellation_state
  (st : option VkPipelineTessellationStateCreateInfo) : list Token :=
  match st with
  | Some tess => [h_u32 (ts_flags tess); h_u32 (patchControlPoints tess)]
  | None => [h_u32 0]
  end.

(** Lines 377-391. *)
Definition hash_stage (recorder : StateRecorder) (stage : VkPipelineShaderStageCreateInfo)
  : result (list Token) :=
  m ← get_hash_for_shader_module recorder (module stage);
  spec ← match pSpecializationInfo stage with
         | Some info => hash_specialization_info info
         | None => Ok [h_u32 0]
         end;
  Ok ([h_u32 (st_flags stage); h_string (pName stage); h_u32 (st_stage stage); h_u64 m] ++ spec).

(** Lines 96-107. *)
Definition hash_pipeline_header (recorder : StateRecorder)
  (create_info : VkGraphicsPipelineCreateInfo) : result (list Token) :=
  base ← (if negb (basePipelineHandle create_info =? VK_NULL_HANDLE) then
            b ← get_hash_for_graphics_pipeline_handle recorder (basePipelineHandle create_info);
            Ok [h_u64 b; h_s32 (basePipelineIndex create_info)]
          else Ok []);
  l ← get_hash_for_pipeline_layout recorder (gp_layout create_info);
  r ← get_hash_for_render_pass recorder (renderPass create_info);
  Ok ([h_u32 (gp_flags create_info)] ++ base
      ++ [h_u64 l; h_u64 r; h_u32 (subpass create_info); h_u32 (stageCount create_info)]).

(** The token sequence [compute_hash_graphics_pipeline] feeds its [Hasher]. *)
Definition graphics_pipeline_tokens (recorder : StateRecorder)
  (create_info : VkGraphicsPipelineCreateInfo) : result (list Token) :=
  header ← hash_pipeline_header recorder create_info;
  '(seen, dyn) ← hash_dynamic_state (pDynamicState create_info);
  let ds := hash_depth_stencil_state seen (pDepthStencilState create_info) in
  let ia := hash_input_assembly_state (pInputAssemblyState create_info) in
  let rs := hash_rasterization_state seen (pRasterizationState create_info) in
  ms ← hash_multisample_state (pMultisampleState create_info);
  vp ← hash_viewport_state seen (pViewportState create_info);
  vi ← hash_vertex_input_state (pVertexInputState create_info);
  cb ← hash_color_blend_state seen (pColorBlendState create_info);
  let tess := hash_tessellation_state (pTessellationState create_info) in
  stages ← for_range (stageCount create_info) (fun i =>
    stage ← read (pStages create_info) i;
    hash_stage recorder stage);
  Ok (header ++ dyn ++ ds ++ ia ++ rs ++ ms ++ vp ++ vi ++ cb ++ tess ++ stages).

Section Hasher.

(** Modelled from the spec: the [Hasher] class of
    [vulkan_pipeline_cache.hpp], which is not among the sources. Spec 4.1
    describes it as "a stateful accumulator over a sequence of typed
    tokens"; [get] is therefore a function of the tokens fed so far. Its
    result type is left open. *)
Variable Digest : Type.
Variable Hasher_get : list Token -> Digest.

(** [compute_hash_graphics_pipeline]: [Hasher h; ...; return h.get();]. *)
Definition compute_hash_graphics_pipeline (recorder : StateRecorder)
  (create_info : VkGraphicsPipelineCreateInfo) : result Digest :=
  Hasher_get <$> graphics_pipeline_tokens recorder create_info.

End Hasher.

End Hashing.

(** * The JSON document (rapidjson's [Value])

    A number written from an integer is [Num], one written from a [float]
    is [Real] (its bit pattern). An object is its member list in insertion
    order. The text written by [PrettyWriter] and read back by
    [Document::Parse] denotes the same [Value]. *)

Module Json.

#[warnings="-register-all"] Inductive Value : Type :=
  | Null
  | Num (z : Z)
  | Real (bits : Z)
  | Str (s : string)
  | Arr (elems : list Value)
  | Obj (members : list (string * Value)).

Definition FindMember (name : string) (members : list (string * Value)) : option Value :=
  snd <$> List.find (fun m => String.eqb (fst m) name) members.

(** [v.AddMember(name, x, alloc)] asserts [IsObject()]. *)
Definition AddMember (name : string) (x : Value) (v : Value) : result Value :=
  match v with
  | Obj ms => Ok (Obj (ms ++ [(name, x)]))
  | _ => Fault
  end.

(** [v.PushBack(x, alloc)] asserts [IsArray()]. *)
Definition PushBack (x : Value) (v : Value) : result Value :=
  match v with
  | Arr l => Ok (Arr (l ++ [x]))
  | _ => Fault
  end.

(** [v.HasMember(name)] asserts [IsObject()]. *)
Definition HasMember (name : string) (v : Value) : result bool :=
  match v with
  | Obj ms => Ok (bool_decide (is_Some (FindMember name ms)))
  | _ => Fault
  end.

(** [v[name]] asserts [IsObject()] and that the member exists. *)
Definition member (name : string) (v : Value) : result Value :=
  match v with
  | Obj ms =>
      match FindMember name ms with
      | Some x => Ok x
      | None => Fault
      end
  | _ => Fault
  end.

(** [v.GetUint()] asserts [IsUint()]. *)
Definition GetUint (v : Value) : result Z :=
  match v with
  | Num z => if (0 <=? z) && (z <? 2 ^ 32) then Ok z else Fault
  | _ => Fault
  end.

(** [v.GetUint64()] asserts [IsUint64()]. *)
Definition GetUint64 (v : Value) : result Z :=
  match v with
  | Num z => if (0 <=? z) && (z <? 2 ^ 64) then Ok z else Fault
  | _ => Fault
  end.

(** [v.GetString()] asserts [IsString()]. *)
Definition GetString (v : Value) : result string :=
  match v with
  | Str s => Ok s
  | _ => Fault
  end.

(** [v.Size()], [v.Begin()], [v.End()] assert [IsArray()]. *)
Definition GetArray (v : Value) : result (list Value) :=
  match v with
  | Arr l => Ok l
  | _ => Fault
  end.

End Json.

Import Json.

(** [obj[name].GetUint()] and its siblings. *)
Definition uint_member (name : string) (obj : Value) : result Z :=
  member name obj ≫= GetUint.
Definition uint64_member (name : string) (obj : Value) : result Z :=
  member name obj ≫= GetUint64.

(** A loop that carries a value through its rounds. *)
Fixpoint foldM {A B} (f : B -> A -> result B) (b : B) (l : list A) : result B :=
  match l with
  | [] => Ok b
  | a :: l' => b' ← f b a; foldM f b' l'
  end.

(** * StateRecorder::serialize ([vulkan_pipeline_cache.cpp], lines 1232-1734)

    [Value v(kObjectType)] followed by [AddMember] calls on [v] is written
    as the member list; [Value a(kArrayType)] filled by [PushBack] in a loop
    as the list of elements. [AddMember] and [PushBack] move their argument
    out of the variable it was in, which is [Null] afterwards; where the
    code goes on using such a variable the calls are spelled out. *)

Section Serialize.

(** [b64_encode] of [b64.h]. *)
Variable b64_encode : list Z -> string.

(** [encode_base64(data, size)] reads [size] bytes. *)
Definition encode_base64 (data : list Z) (size : Z) : result string :=
  b64_encode <$> Hashing.read_n size data.

(** Lines 1241-1257. *)
Definition serialize_sampler (info : VkSamplerCreateInfo) : Value :=
  Obj [("flags", Num (s_flags info));
       ("minFilter", Num (minFilter info));
       ("magFilter", Num (magFilter info));
       ("maxAnisotropy", Real (maxAnisotropy info));
       ("compareOp", Num (s_compareOp info));
       ("anisotropyEnable", Num (anisotropyEnable info));
       ("mipmapMode", Num (mipmapMode info));
       ("addressModeU", Num (addressModeU info));
       ("addressModeV", Num (addressModeU info));
       ("addressModeW", Num (addressModeU info));
       ("borderColor", Num (borderColor info));
       ("unnormalizedCoordinates", Num (unnormalizedCoordinates info));
       ("compareEnable", Num (compareEnable info));
       ("mipLodBias", Real (mipLodBias info));
       ("minLod", Real (minLod info));
       ("maxLod", Real (maxLod info))]%string.

(** Lines 1273-1286. *)
Definition serialize_binding (b : VkDescriptorSetLayoutBinding) : result Value :=
  immutables ←
    match pImmutableSamplers b with
    | Some p =>
        l ← for_range (descriptorCount b) (fun j => s ← read p j; Ok [Num s]);
        Ok [("immutableSamplers", Arr l)]%string
    | None => Ok []
    end;
  Ok (Obj ([("descriptorType", Num (descriptorType b));
            ("descriptorCount", Num (descriptorCount b));
            ("stageFlags", Num (b_stageFlags b));
            ("binding", Num (b_binding b))]%string ++ immutables)).

(** Lines 1266-1288. *)
Definition serialize_set_layout (layout : Hash * VkDescriptorSetLayoutCreateInfo) : result Value :=
  bindings ← for_range (bindingCount (snd layout)) (fun i =>
    b ← read (pBindings (snd layout)) i;
    v ← serialize_binding b;
    Ok [v]);
  Ok (Obj [("hash", Num (fst layout));
           ("flags", Num (dsl_flags (snd layout)));
           ("bindings", Arr bindings)]%string).

(** Lines 1296-1313. *)
Definition serialize_pipeline_layout (layout : Hash * VkPipelineLayoutCreateInfo) : result Value :=
  push ← for_range (pushConstantRangeCount (snd layout)) (fun i =>
    r ← read (pPushConstantRanges (snd layout)) i;
    Ok [Obj [("stageFlags", Num (pc_stageFlags r));
             ("size", Num (pc_size r));
             ("offset", Num (pc_offset r))]%string]);
  set_layouts ← for_range (setLayoutCount (snd layout)) (fun i =>
    l ← read (pSetLayouts (snd layout)) i;
    Ok [Num l]);
  Ok (Obj [("hash", Num (fst layout));
           ("flags", Num (pl_flags (snd layout)));
           ("pushConstantRanges", Arr push);
           ("setLayouts", Arr set_layouts)]%string).

(** Lines 1322-1325. *)
Definition serialize_shader_module (m : Hash * VkShaderModuleCreateInfo) : result Value :=
  code ← encode_base64 (pCode (snd m)) (codeSize (snd m));
  Ok (Obj [("hash", Num (fst m));
           ("flags", Num (sm_flags (snd m)));
           ("code", Str code)]%string).

Definition serialize_attachment_reference (r : VkAttachmentReference) : Value :=
  Obj [("attachment", Num (attachment r)); ("layout", Num (ref_layout r))]%string.

(** Lines 1378-1439, one subpass. The loop over the preserve attachments
    calls [PushBack] on a [Value] of object type; the resolve loop reads
    [pColorAttachments]; [depth_stencil] is built and dropped. *)
Definition serialize_subpass (sub : VkSubpassDescription) : result Value :=
  _ ← for_range (preserveAttachmentCount sub) (fun i =>
    a ← read (default [] (pPreserveAttachments sub)) i;
    _ ← PushBack (Num a) (Obj []);
    Ok ([] : list Value));
  let preserves := Arr [] in
  inputs ← for_range (inputAttachmentCount sub) (fun i =>
    ia ← read (default [] (pInputAttachments sub)) i;
    Ok [serialize_attachment_reference ia]);
  colors ← for_range (colorAttachmentCount sub) (fun i =>
    c ← read (default [] (pColorAttachments sub)) i;
    Ok [serialize_attachment_reference c]);
  resolves ←
    match pResolveAttachments sub with
    | Some _ =>
        l ← for_range (colorAttachmentCount sub) (fun i =>
          r ← read (default [] (pColorAttachments sub)) i;
          Ok [serialize_attachment_reference r]);
        Ok [("resolveAttachments", Arr l)]%string
    | None => Ok []
    end;
  let depth_stencil :=
    match pDepthStencilAttachment sub with
    | Some d => serialize_attachment_reference d
    | None => Obj [("attachment", Num (-1)); ("layout", Num VK_IMAGE_LAYOUT_UNDEFINED)]%string
    end in
  Ok (Obj ([("flags", Num (sp_flags sub));
            ("pipelineBindPoint", Num (pipelineBindPoint sub));
            ("preserveAttachments", preserves);
            ("inputAttachments", Arr inputs);
            ("colorAttachments", Arr colors)]%string ++ resolves)).

(** Lines 1334-1441. *)
Definition serialize_render_pass (pass : Hash * VkRenderPassCreateInfo) : result Value :=
  deps ← for_range (dependencyCount (snd pass)) (fun i =>
    d ← read (pDependencies (snd pass)) i;
    Ok [Obj [("dependencyFlags", Num (dependencyFlags d));
             ("dstAccessMask", Num (dstAccessMask d));
             ("srcAccessMask", Num (srcAccessMask d));
             ("dstStageMask", Num (dstStageMask d));
             ("srcStageMask", Num (srcStageMask d));
             ("dstSubpass", Num (dstSubpass d));
             ("srcSubpass", Num (srcSubpass d))]%string]);
  attachments ← for_range (attachmentCount (snd pass)) (fun i =>
    a ← read (pAttachments (snd pass)) i;
    Ok [Obj [("flags", Num (att_flags a));
             ("format", Num (att_format a));
             ("finalLayout", Num (finalLayout a));
             ("initialLayout", Num (initialLayout a));
             ("loadOp", Num (loadOp a));
             ("storeOp", Num (storeOp a));
             ("samples", Num (samples a));
             ("stencilLoadOp", Num (stencilLoadOp a));
             ("stencilStoreOp", Num (stencilStoreOp a))]%string]);
  subpasses ← for_range (subpassCount (snd pass)) (fun i =>
    sub ← read (pSubpasses (snd pass)) i;
    v ← serialize_subpass sub;
    Ok [v]);
  Ok (Obj [("hash", Num (fst pass));
           ("flags", Num (rp_flags (snd pass)));
           ("dependencies", Arr deps);
           ("attachments", Arr attachments);
           ("subpasses", Arr subpasses)]%string).

(** Lines 1461-1477 and 1704-1720. *)
Definition serialize_specialization_info (info : VkSpecializationInfo) : result Value :=
  code ← encode_base64 (pData info) (dataSize info);
  map_entries ← for_range (mapEntryCount info) (fun i =>
    e ← read (pMapEntries info) i;
    Ok [Obj [("offset", Num (me_offset e));
             ("size", Num (me_size e));
             ("constantID", Num (constantID e))]%string]);
  Ok (Obj [("dataSize", Num (dataSize info));
           ("code", Str code);
           ("mapEntries", Arr map_entries)]%string).

Definition serialize_optional_specialization (info : option VkSpecializationInfo)
  : result (list (string * Value)) :=
  match info with
  | Some i => spec ← serialize_specialization_info i; Ok [("specializationInfo", spec)]%string
  | None => Ok []
  end.

(** Lines 1448-1480. *)
Definition serialize_compute_pipeline (pipe : Hash * VkComputePipelineCreateInfo) : result Value :=
  let info := snd pipe in
  spec ← serialize_optional_specialization (pSpecializationInfo (cp_stage info));
  Ok (Obj [("hash", Num (fst pipe));
           ("flags", Num (cp_flags info));
           ("layout", Num (cp_layout info));
           ("basePipelineHandle", Num (cp_basePipelineHandle info));
           ("basePipelineIndex", Num (cp_basePipelineIndex info));
           ("stage", Obj ([("flags", Num (st_flags (cp_stage info)));
                           ("stage", Num (st_stage (cp_stage info)));
                           ("module", Num (module (cp_stage info)));
                           ("name", Str (pName (cp_stage info)))]%string ++ spec))]%string).

(** Lines 1496-1691: the optional state blocks of a graphics pipeline. *)

Definition serialize_tessellation_state (st : option VkPipelineTessellationStateCreateInfo)
  : list (string * Value) :=
  match st with
  | Some t => [("tessellationState",
                Obj [("alloc", Num (ts_flags t));
                     ("patchControlPoints", Num (patchControlPoints t))])]%string
  | None => []
  end.

Definition serialize_dynamic_state (st : option VkPipelineDynamicStateCreateInfo)
  : result (list (string * Value)) :=
  match st with
  | Some d =>
      dynamics ← for_range (dynamicStateCount d) (fun i =>
        x ← read (pDynamicStates d) i; Ok [Num x]);
      Ok [("dynamicState",
           Obj [("flags", Num (dyn_flags d)); ("dynamicState", Arr dynamics)])]%string
  | None => Ok []
  end.

Definition serialize_multisample_state (st : option VkPipelineMultisampleStateCreateInfo)
  : result (list (string * Value)) :=
  match st with
  | Some ms =>
      sm ←
        match pSampleMask ms with
        | Some p =>
            let entries := wrap32 (rasterizationSamples ms + 31) / 32 in
            l ← for_range entries (fun i => w ← read p i; Ok [Num w]);
            Ok [("sampleMask", Arr l)]%string
        | None => Ok []
        end;
      Ok [("multisampleState",
           Obj ([("flags", Num (ms_flags ms));
                 ("rasterizationSamples", Num (rasterizationSamples ms));
                 ("sampleShadingEnable", Num (sampleShadingEnable ms));
                 ("minSampleShading", Real (minSampleShading ms));
                 ("alphaToOneEnable", Num (alphaToOneEnable ms));
                 ("alphaToCoverageEnable", Num (alphaToCoverageEnable ms))]%string ++ sm))]%string
  | None => Ok []
  end.

Definition serialize_vertex_input_state (st : option VkPipelineVertexInputStateCreateInfo)
  : result (list (string * Value)) :=
  match st with
  | Some vi =>
      attribs ← for_range (vertexAttributeDescriptionCount vi) (fun i =>
        a ← read (pVertexAttributeDescriptions vi) i;
        Ok [Obj [("location", Num (location a));
                 ("binding", Num (va_binding a));
                 ("offset", Num (va_offset a));
                 ("format", Num (va_format a))]%string]);
      bindings ← for_range (vertexBindingDescriptionCount vi) (fun i =>
        b ← read (pVertexBindingDescriptions vi) i;
        Ok [Obj [("binding", Num (vb_binding b));
                 ("stride", Num (stride b));
                 ("inputRate", Num (inputRate b))]%string]);
      Ok [("vertexInputState",
           Obj [("flags", Num (vi_flags vi));
                ("attributes", Arr attribs);
                ("bindings", Arr bindings)])]%string
  | None => Ok []
  end.

Definition serialize_rasterization_state (st : option VkPipelineRasterizationStateCreateInfo)
  : list (string * Value) :=
  match st with
  | Some rs =>
      [("rasterizationState",
        Obj [("flags", Num (rs_flags rs));
             ("depthBiasConstantFactor", Real (depthBiasConstantFactor rs));
             ("depthBiasSlopeFactor", Real (depthBiasSlopeFactor rs));
             ("depthBiasClamp", Real (depthBiasClamp rs));
             ("depthBiasEnable", Num (depthBiasEnable rs));
             ("depthClampEnable", Num (depthClampEnable rs));
             ("polygonMode", Num (polygonMode rs));
             ("rasterizerDiscardEnable", Num (rasterizerDiscardEnable rs));
             ("frontFace", Num (frontFace rs));
             ("lineWidth", Real (lineWidth rs));
             ("cullMode", Num (cullMode rs))])]%string
  | None => []
  end.

Definition serialize_input_assembly_state (st : option VkPipelineInputAssemblyStateCreateInfo)
  : list (string * Value) :=
  match st with
  | Some ia =>
      [("inputAssemblyState",
        Obj [("flags", Num (ia_flags ia));
             ("topology", Num (topology ia));
             ("primitiveRestartEnable", Num (primitiveRestartEnable ia))])]%string
  | None => []
  end.

(** Lines 1597-1623: each attachment object [att] is filled in and never
    pushed, so ["attachments"] stays empty. *)
Definition serialize_color_blend_state (st : option VkPipelineColorBlendStateCreateInfo)
  : result (list (string * Value)) :=
  match st with
  | Some cb =>
      _ ← Hashing.read_n (cb_attachmentCount cb) (cb_pAttachments cb);
      let attachments := Arr [] in
      let '(c0, c1, c2, c3) := blendConstants cb in
      Ok [("colorBlendState",
           Obj [("flags", Num (cb_flags cb));
                ("logicOp", Num (logicOp cb));
                ("logicOpEnable", Num (logicOpEnable cb));
                ("blendConstants", Arr [Real c0; Real c1; Real c2; Real c3]);
                ("attachments", attachments)])]%string
  | None => Ok []
  end.

Definition serialize_viewport_state (st : option VkPipelineViewportStateCreateInfo)
  : result (list (string * Value)) :=
  match st with
  | Some vp =>
      viewports ←
        match pViewports vp with
        | Some p =>
            l ← for_range (viewportCount vp) (fun i =>
              v ← read p i;
              Ok [Obj [("x", Real (vp_x v)); ("y", Real (vp_y v));
                       ("width", Real (vp_width v)); ("height", Real (vp_height v));
                       ("minDepth", Real (minDepth v)); ("maxDepth", Real (maxDepth v))]%string]);
            Ok [("viewports", Arr l)]%string
        | None => Ok []
        end;
      scissors ←
        match pScissors vp with
        | Some p =>
            l ← for_range (scissorCount vp) (fun i =>
              r ← read p i;
              Ok [Obj [("x", Num (offset_x r)); ("y", Num (offset_y r));
                       ("width", Num (extent_width r)); ("height", Num (extent_height r))]%string]);
            Ok [("scissors", Arr l)]%string
        | None => Ok []
        end;
      Ok [("viewportState", Obj ([("flags", Num (vps_flags vp))]%string ++ viewports ++ scissors))]%string
  | None => Ok []
  end.

Definition serialize_stencil (state : VkStencilOpState) : Value :=
  Obj [("compareOp", Num (compareOp state));
       ("writeMask", Num (writeMask state));
       ("reference", Num (reference state));
       ("compareMask", Num (compareMask state));
       ("passOp", Num (passOp state));
       ("failOp", Num (failOp state));
       ("depthFailOp", Num (depthFailOp state))]%string.

Definition serialize_depth_stencil_state (st : option VkPipelineDepthStencilStateCreateInfo)
  : list (string * Value) :=
  match st with
  | Some ds =>
      [("depthStencilState",
        Obj [("flags", Num (ds_flags ds));
             ("stencilTestEnable", Num (stencilTestEnable ds));
             ("maxDepthBounds", Real (maxDepthBounds ds));
             ("minDepthBounds", Real (minDepthBounds ds));
             ("depthBoundsTestEnable", Num (depthBoundsTestEnable ds));
             ("depthWriteEnable", Num (depthWriteEnable ds));
             ("depthTestEnable", Num (depthTestEnable ds));
             ("depthCompareOp", Num (depthCompareOp ds));
             ("front", serialize_stencil (front ds));
             ("back", serialize_stencil (back ds))])]%string
  | None => []
  end.

(** Lines 1696-1722. *)
Definition serialize_stage (s : VkPipelineShaderStageCreateInfo) : result Value :=
  spec ← serialize_optional_specialization (pSpecializationInfo s);
  Ok (Obj ([("flags", Num (st_flags s));
            ("name", Str (pName s));
            ("module", Num (module s));
            ("stage", Num (st_stage s))]%string ++ spec)).

(** Lines 1487-1726. *)
Definition serialize_graphics_pipeline (pipe : Hash * VkGraphicsPipelineCreateInfo) : result Value :=
  let info := snd pipe in
  let tess := serialize_tessellation_state (pTessellationState info) in
  dyn ← serialize_dynamic_state (pDynamicState info);
  ms ← serialize_multisample_state (pMultisampleState info);
  vi ← serialize_vertex_input_state (pVertexInputState info);
  let rs := serialize_rasterization_state (pRasterizationState info) in
  let ia := serialize_input_assembly_state (pInputAssemblyState info) in
  cb ← serialize_color_blend_state (pColorBlendState info);
  vp ← serialize_viewport_state (pViewportState info);
  let ds := serialize_depth_stencil_state (pDepthStencilState info) in
  stages ← for_range (stageCount info) (fun i =>
    s ← read (pStages info) i;
    v ← serialize_stage s;
    Ok [v]);
  Ok (Obj ([("hash", Num (fst pipe));
            ("flags", Num (gp_flags info));
            ("basePipelineHandle", Num (basePipelineHandle info));
            ("basePipelineIndex", Num (basePipelineIndex info));
            ("layout", Num (gp_layout info));
            ("renderPass", Num (renderPass info));
            ("subpass", Num (subpass info))]%string
           ++ tess ++ dyn ++ ms ++ vi ++ rs ++ ia ++ cb ++ vp ++ ds
           ++ [("stages", Arr stages)]%string)).

(** [for (auto &x : registry) { ...; array.PushBack(v, alloc); }] *)
Definition push_each {A} (f : A -> result Value) (registry : list A) (array : Value)
  : result Value :=
  foldM (fun arr x => v ← f x; PushBack v arr) array registry.

(** [StateRecorder::serialize], up to the [Document] handed to the writer.
    ["setLayouts"] and ["renderPasses"] are added to [doc] before their
    loops run. *)
Definition serialize (r : StateRecorder) : result Value :=
  let doc := Obj [] in
  samplers ← push_each (fun s => Ok (serialize_sampler (snd s))) (samplers r) (Arr []);
  doc ← AddMember "samplers" samplers doc;
  let set_layouts := Arr [] in
  doc ← AddMember "setLayouts" set_layouts doc;
  let set_layouts := Null in
  _ ← push_each serialize_set_layout (descriptor_sets r) set_layouts;
  pipeline_layouts ← push_each serialize_pipeline_layout (pipeline_layouts r) (Arr []);
  doc ← AddMember "pipelineLayouts" pipeline_layouts doc;
  shader_modules ← push_each serialize_shader_module (shader_modules r) (Arr []);
  doc ← AddMember "shaderModules" shader_modules doc;
  let render_passes_array := Arr [] in
  doc ← AddMember "renderPasses" render_passes_array doc;
  let render_passes_array := Null in
  _ ← push_each serialize_render_pass (render_passes r) render_passes_array;
  compute_pipelines ← push_each serialize_compute_pipeline (compute_pipelines r) (Arr []);
  doc ← AddMember "computePipelines" compute_pipelines doc;
  graphics_pipelines ← push_each serialize_graphics_pipeline (graphics_pipelines r) (Arr []);
  doc ← AddMember "graphicsPipelines" graphics_pipelines doc;
  Ok doc.

End Serialize.

(** * StateReplayer ([vulkan_pipeline_cache.cpp], lines 519-874) *)

Module Replayer.

(** The seven entity kinds of [StateCreatorInterface]. *)
Inductive Kind : Type :=
  | Sampler
  | DescriptorSetLayout
  | PipelineLayout
  | ShaderModule
  | RenderPass
  | ComputePipeline
  | GraphicsPipeline.

#[global] Instance Kind_eq_dec : EqDecision Kind.
Proof. solve_decision. Defined.

(** The create-info handed to [enqueue_create_<kind>]. *)
Inductive CreateInfo : Type :=
  | sampler_info (info : VkSamplerCreateInfo)
  | descriptor_set_layout_info (info : VkDescriptorSetLayoutCreateInfo)
  | pipeline_layout_info (info : VkPipelineLayoutCreateInfo)
  | shader_module_info (info : VkShaderModuleCreateInfo)
  | render_pass_info (info : VkRenderPassCreateInfo)
  | compute_pipeline_info (info : VkComputePipelineCreateInfo)
  | graphics_pipeline_info (info : VkGraphicsPipelineCreateInfo).

(** Modelled from the spec: [StateCreatorInterface] is declared in
    [vulkan_pipeline_cache.hpp], which is not among the sources; spec 4.4
    gives its calls for each of the seven kinds as [set_num_<kind>(n)],
    [enqueue_create_<kind>(hash, index, info, &slot)] and [wait_enqueue()].
    An [Event] is one such call as the engine receives it. *)
Inductive Event : Type :=
  | set_num (k : Kind) (n : Z)
  | enqueue_create (k : Kind) (hash : Hash) (index : nat) (info : CreateInfo)
  | wait_enqueue.

(** The [replayed_<kind>] vectors, in which the engine leaves the handles. *)
Record StateReplayer : Type := mkStateReplayer {
  replayed_samplers : list Z;
  replayed_descriptor_set_layouts : list Z;
  replayed_pipeline_layouts : list Z;
  replayed_shader_modules : list Z;
  replayed_render_passes : list Z
}.

Definition StateReplayer_new : StateReplayer :=
  {| replayed_samplers := []; replayed_descriptor_set_layouts := [];
     replayed_pipeline_layouts := []; replayed_shader_modules := [];
     replayed_render_passes := [] |}.

Definition replayed (k : Kind) (r : StateReplayer) : list Z :=
  match k with
  | Sampler => replayed_samplers r
  | DescriptorSetLayout => replayed_descriptor_set_layouts r
  | PipelineLayout => replayed_pipeline_layouts r
  | ShaderModule => replayed_shader_modules r
  | RenderPass => replayed_render_passes r
  | ComputePipeline | GraphicsPipeline => []
  end.

Definition set_replayed (k : Kind) (v : list Z) (r : StateReplayer) : StateReplayer :=
  match k with
  | Sampler =>
      {| replayed_samplers := v;
         replayed_descriptor_set_layouts := replayed_descriptor_set_layouts r;
         replayed_pipeline_layouts := replayed_pipeline_layouts r;
         replayed_shader_modules := replayed_shader_modules r;
         replayed_render_passes := replayed_render_passes r |}
  | DescriptorSetLayout =>
      {| replayed_samplers := replayed_samplers r;
         replayed_descriptor_set_layouts := v;
         replayed_pipeline_layouts := replayed_pipeline_layouts r;
         replayed_shader_modules := replayed_shader_modules r;
         replayed_render_passes := replayed_render_passes r |}
  | PipelineLayout =>
      {| replayed_samplers := replayed_samplers r;
         replayed_descriptor_set_layouts := replayed_descriptor_set_layouts r;
         replayed_pipeline_layouts := v;
         replayed_shader_modules := replayed_shader_modules r;
         replayed_render_passes := replayed_render_passes r |}
  | ShaderModule =>
      {| replayed_samplers := replayed_samplers r;
         replayed_descriptor_set_layouts := replayed_descriptor_set_layouts r;
         replayed_pipeline_layouts := replayed_pipeline_layouts r;
         replayed_shader_modules := v;
         replayed_render_passes := replayed_render_passes r |}
  | RenderPass =>
      {| replayed_samplers := replayed_samplers r;
         replayed_descriptor_set_layouts := replayed_descriptor_set_layouts r;
         replayed_pipeline_layouts := replayed_pipeline_layouts r;
         replayed_shader_modules := replayed_shader_modules r;
         replayed_render_passes := v |}
  | ComputePipeline | GraphicsPipeline => r
  end.

(** [std::vector::resize(n)]: new elements are [VK_NULL_HANDLE]. *)
Definition resize (n : nat) (v : list Z) : list Z :=
  take n v ++ replicate (n - length v) VK_NULL_HANDLE.

(** The replayer together with the calls its engine has received so far. *)
Definition State : Type := StateReplayer * list Event.

(** A computation that reads and writes the [State] and may fail; what was
    done before a failure stays done. *)
Definition M (A : Type) : Type := State -> result A * State.

#[global] Instance M_ret : MRet M := fun A a s => (Ok a, s).
#[global] Instance M_bind : MBind M := fun A B k m s =>
  match m s with
  | (Ok a, s') => k a s'
  | (Throw w, s') => (Throw w, s')
  | (Fault, s') => (Fault, s')
  end.

Definition lift {A} (r : result A) : M A := fun s => (r, s).
Definition call (e : Event) : M unit := fun s => (Ok (), (fst s, snd s ++ [e])).
Definition get_replayer : M StateReplayer := fun s => (Ok (fst s), s).
Definition put_replayer (r : StateReplayer) : M unit := fun s => (Ok (), (r, snd s)).

(** [for (itr = Begin(); itr != End(); ++itr, index++) body] *)
Fixpoint for_indexed {A} (body : nat -> A -> M unit) (index : nat) (l : list A) : M unit :=
  match l with
  | [] => mret ()
  | a :: l' => body index a ≫= fun _ => for_indexed body (S index) l'
  end.

Section Parse.

(** The handle the engine leaves in [slot] for a creation it was handed. *)
Variable created : Kind -> Hash -> nat -> Z.

(** [b64_decode] of [b64.h]. *)
Variable b64_decode : string -> list Z.

(** How a request to the replayer's arena ends. [allocate_n<T>],
    [allocate_n_cleared<T>] and [allocate_cleared<T>] are templates of
    [vulkan_pipeline_cache.hpp], which is not among the sources, and
    [decode_base64] calls [allocate_raw] itself. [allocate count] is [Ok]
    when storage for [count] elements (bytes, for [allocate_raw]) is handed
    out, [Throw] when [new] throws and [Fault] when the call does not come
    back. The storage itself is not modelled: what is written into it is
    the value the parsing function returns. *)
Variable allocate : Z -> result ().

(** [decode_base64(allocator, data, size)] copies [size] bytes out of the
    decoded buffer into [allocate_raw(size, 4)]. *)
Definition decode_base64 (data : string) (size : Z) : result (list Z) :=
  _ ← allocate size;
  Hashing.read_n size (b64_decode data).

(** A reference read from the document: an index above the registry size
    throws, 0 is the null handle, [i] resolves to slot [i - 1]. *)
Definition resolve (what : string) (replayed_handles : list Z) (index : Z) : result Z :=
  if Z.of_nat (length replayed_handles) <? index then Throw what
  else if 0 <? index then read replayed_handles (Z.to_nat (index - 1))
  else Ok VK_NULL_HANDLE.

(** Lines 528-544. *)
Definition parse_immutable_samplers (r : StateReplayer) (samplers : Value) : result (list Z) :=
  elems ← GetArray samplers;
  _ ← allocate (Z.of_nat (length elems));
  for_each (fun itr =>
    index ← GetUint64 itr;
    h ← resolve "Sampler index out of range." (replayed_samplers r) index;
    Ok [h]) elems.

(** Lines 546-561. *)
Definition parse_descriptor_set_bindings (r : StateReplayer) (bindings : Value)
  : result (list VkDescriptorSetLayoutBinding) :=
  elems ← GetArray bindings;
  _ ← allocate (Z.of_nat (length elems));
  for_each (fun b =>
    binding ← uint_member "binding" b;
    count ← uint_member "descriptorCount" b;
    type ← uint_member "descriptorType" b;
    stage_flags ← uint_member "stageFlags" b;
    has ← HasMember "immutableSamplers" b;
    immutable ←
      (if has : bool then
         v ← member "immutableSamplers" b;
         l ← parse_immutable_samplers r v;
         Ok (Some l)
       else Ok None);
    Ok [{| b_binding := binding; descriptorType := type; descriptorCount := count;
           b_stageFlags := stage_flags; pImmutableSamplers := immutable |}]) elems.

(** Lines 563-577. *)
Definition parse_push_constant_ranges (ranges : Value) : result (list VkPushConstantRange) :=
  elems ← GetArray ranges;
  _ ← allocate (Z.of_nat (length elems));
  for_each (fun obj =>
    stage_flags ← uint_member "stageFlags" obj;
    offset ← uint_member "offset" obj;
    size ← uint_member "size" obj;
    Ok [{| pc_stageFlags := stage_flags; pc_offset := offset; pc_size := size |}]) elems.

(** Lines 579-596. *)
Definition parse_set_layouts (r : StateReplayer) (layouts : Value) : result (list Z) :=
  elems ← GetArray layouts;
  _ ← allocate (Z.of_nat (length elems));
  for_each (fun itr =>
    index ← GetUint itr;
    h ← resolve "Descriptor set index out of range." (replayed_descriptor_set_layouts r) index;
    Ok [h]) elems.

(** The body shared by the five [parse_<kind>s] functions:
    [set_num_<kind>(Size())], [replayed_<kind>.resize(Size())], the
    allocation of the create-infos, then for each element its create-info
    and [enqueue_create_<kind>] with the element's ["hash"], and at the end
    [wait_enqueue()]. *)
Definition parse_registry (k : Kind) (parse_info : StateReplayer -> Value -> result CreateInfo)
  (registry : Value) : M unit :=
  elems ← lift (GetArray registry);
  _ ← call (set_num k (Z.of_nat (length elems)));
  r ← get_replayer;
  _ ← put_replayer (set_replayed k (resize (length elems) (replayed k r)) r);
  _ ← lift (allocate (Z.of_nat (length elems)));
  _ ← for_indexed (fun index obj =>
        r ← get_replayer;
        info ← lift (parse_info r obj);
        hash ← lift (uint64_member "hash" obj);
        _ ← call (enqueue_create k hash index info);
        put_replayer (set_replayed k (<[index := created k hash index]> (replayed k r)) r))
      0%nat elems;
  call wait_enqueue.

(** Lines 598-616, the create-info of one element. *)
Definition parse_shader_module_info (_ : StateReplayer) (obj : Value) : result CreateInfo :=
  flags ← uint_member "flags" obj;
  code_size ← uint64_member "codeSize" obj;
  code_text ← member "code" obj ≫= GetString;
  code ← decode_base64 code_text code_size;
  Ok (shader_module_info {| sm_flags := flags; codeSize := code_size; pCode := code |}).

Definition parse_shader_modules : Value -> M unit :=
  parse_registry ShaderModule parse_shader_module_info.

(** Lines 618-648. *)
Definition parse_pipeline_layout_info (r : StateReplayer) (obj : Value) : result CreateInfo :=
  flags ← uint_member "flags" obj;
  has_push ← HasMember "pushConstantRanges" obj;
  push ←
    (if has_push : bool then
       v ← member "pushConstantRanges" obj;
       n ← GetArray v;
       l ← parse_push_constant_ranges v;
       Ok (Z.of_nat (length n), l)
     else Ok (0, []));
  has_sets ← HasMember "setLayouts" obj;
  sets ←
    (if has_sets : bool then
       v ← member "setLayouts" obj;
       n ← GetArray v;
       l ← parse_set_layouts r v;
       Ok (Z.of_nat (length n), l)
     else Ok (0, []));
  Ok (pipeline_layout_info
        {| pl_flags := flags; setLayoutCount := fst sets; pSetLayouts := snd sets;
           pushConstantRangeCount := fst push; pPushConstantRanges := snd push |}).

Definition parse_pipeline_layouts : Value -> M unit :=
  parse_registry PipelineLayout parse_pipeline_layout_info.

(** Lines 650-674. *)
Definition parse_descriptor_set_layout_info (r : StateReplayer) (obj : Value) : result CreateInfo :=
  flags ← uint_member "flags" obj;
  has ← HasMember "bindings" obj;
  bindings ←
    (if has : bool then
       v ← member "bindings" obj;
       n ← GetArray v;
       l ← parse_descriptor_set_bindings r v;
       Ok (Z.of_nat (length n), l)
     else Ok (0, []));
  Ok (descriptor_set_layout_info
        {| dsl_flags := flags; bindingCount := fst bindings; pBindings := snd bindings |}).

Definition parse_descriptor_set_layouts : Value -> M unit :=
  parse_registry DescriptorSetLayout parse_descriptor_set_layout_info.

(** [static_cast<float>] of a JSON number that was written as an integer. *)
Variable float_of_integer : Z -> Z.

(** [v.GetFloat()] asserts [IsNumber()]. *)
Definition GetFloat (v : Value) : result Z :=
  match v with
  | Real bits => Ok bits
  | Num z => Ok (float_of_integer z)
  | _ => Fault
  end.

Definition float_member (name : string) (obj : Value) : result Z :=
  member name obj ≫= GetFloat.

(** Lines 676-708; [unnormalizedCoordinates] is left as the cleared
    allocation has it. *)
Definition parse_sampler_info (_ : StateReplayer) (obj : Value) : result CreateInfo :=
  address_u ← uint_member "addressModeU" obj;
  address_v ← uint_member "addressModeV" obj;
  address_w ← uint_member "addressModeW" obj;
  anisotropy_enable ← uint_member "anisotropyEnable" obj;
  border_color ← uint_member "borderColor" obj;
  compare_enable ← uint_member "compareEnable" obj;
  compare_op ← uint_member "compareOp" obj;
  flags ← uint_member "flags" obj;
  mag_filter ← uint_member "magFilter" obj;
  min_filter ← uint_member "minFilter" obj;
  max_anisotropy ← float_member "maxAnisotropy" obj;
  mipmap_mode ← uint_member "mipmapMode" obj;
  max_lod ← float_member "maxLod" obj;
  min_lod ← float_member "minLod" obj;
  mip_lod_bias ← float_member "mipLodBias" obj;
  Ok (sampler_info
        {| s_flags := flags; magFilter := mag_filter; minFilter := min_filter;
           mipmapMode := mipmap_mode; addressModeU := address_u; addressModeV := address_v;
           addressModeW := address_w; mipLodBias := mip_lod_bias;
           anisotropyEnable := anisotropy_enable; maxAnisotropy := max_anisotropy;
           compareEnable := compare_enable; s_compareOp := compare_op;
           minLod := min_lod; maxLod := max_lod; borderColor := border_color;
           unnormalizedCoordinates := 0 |}).

Definition parse_samplers : Value -> M unit :=
  parse_registry Sampler parse_sampler_info.

(** Lines 710-730. *)
Definition parse_render_pass_attachments (attachments : Value)
  : result (list VkAttachmentDescription) :=
  elems ← GetArray attachments;
  _ ← allocate (Z.of_nat (length elems));
  for_each (fun obj =>
    flags ← uint_member "flags" obj;
    final_layout ← uint_member "finalLayout" obj;
    initial_layout ← uint_member "initialLayout" obj;
    format ← uint_member "format" obj;
    load_op ← uint_member "loadOp" obj;
    store_op ← uint_member "storeOp" obj;
    stencil_load_op ← uint_member "stencilLoadOp" obj;
    stencil_store_op ← uint_member "stencilStoreOp" obj;
    samples ← uint_member "samples" obj;
    Ok [{| att_flags := flags; att_format := format; samples := samples;
           loadOp := load_op; storeOp := store_op; stencilLoadOp := stencil_load_op;
           stencilStoreOp := stencil_store_op; initialLayout := initial_layout;
           finalLayout := final_layout |}]) elems.

(** Lines 732-750. *)
Definition parse_render_pass_dependencies (dependencies : Value)
  : result (list VkSubpassDependency) :=
  elems ← GetArray dependencies;
  _ ← allocate (Z.of_nat (length elems));
  for_each (fun obj =>
    dependency_flags ← uint_member "dependencyFlags" obj;
    dst_access ← uint_member "dstAccessMask" obj;
    src_access ← uint_member "srcAccessMask" obj;
    dst_stage ← uint_member "dstStageMask" obj;
    src_stage ← uint_member "srcStageMask" obj;
    src_subpass ← uint_member "srcSubpass" obj;
    dst_subpass ← uint_member "dstSubpass" obj;
    Ok [{| srcSubpass := src_subpass; dstSubpass := dst_subpass;
           srcStageMask := src_stage; dstStageMask := dst_stage;
           srcAccessMask := src_access; dstAccessMask := dst_access;
           dependencyFlags := dependency_flags |}]) elems.

(** Lines 752-758. *)
Definition parse_attachment (value : Value) : result VkAttachmentReference :=
  _ ← allocate 1;
  a ← uint_member "attachment" value;
  l ← uint_member "layout" value;
  Ok {| attachment := a; ref_layout := l |}.

(** Lines 760-772: storage for one [VkAttachmentReference] is allocated
    (cleared) and the loop writes one reference per element into it, so a
    second element is written past the allocation. *)
Definition parse_attachments (attachments : Value) : result (list VkAttachmentReference) :=
  _ ← allocate 1;
  elems ← GetArray attachments;
  refs ← for_each (fun value =>
            a ← uint_member "attachment" value;
            l ← uint_member "layout" value;
            Ok [{| attachment := a; ref_layout := l |}]) elems;
  match refs with
  | [] => Ok [{| attachment := 0; ref_layout := 0 |}]
  | [r] => Ok [r]
  | _ => Fault
  end.

Definition optional_member {A} (name : string) (obj : Value) (f : Value -> result A)
  : result (option A) :=
  has ← HasMember name obj;
  if has : bool then v ← member name obj; x ← f v; Ok (Some x) else Ok None.

(** Lines 774-793: only ["flags"] and three of the attachment members are
    read; the counts stay 0. *)
Definition parse_render_pass_subpasses (subpasses : Value) : result (list VkSubpassDescription) :=
  elems ← GetArray subpasses;
  _ ← allocate (Z.of_nat (length elems));
  for_each (fun obj =>
    flags ← uint_member "flags" obj;
    depth_stencil ← optional_member "depthStencilAttachment" obj parse_attachment;
    resolves ← optional_member "resolveAttachments" obj parse_attachments;
    inputs ← optional_member "inputAttachments" obj parse_attachments;
    Ok [{| sp_flags := flags; pipelineBindPoint := 0;
           inputAttachmentCount := 0; pInputAttachments := inputs;
           colorAttachmentCount := 0; pColorAttachments := None;
           pResolveAttachments := resolves; pDepthStencilAttachment := depth_stencil;
           preserveAttachmentCount := 0; pPreserveAttachments := None |}]) elems.

Definition counted_member {A} (name : string) (obj : Value) (f : Value -> result (list A))
  : result (Z * list A) :=
  has ← HasMember name obj;
  if has : bool then
    v ← member name obj;
    n ← GetArray v;
    l ← f v;
    Ok (Z.of_nat (length n), l)
  else Ok (0, []).

(** Lines 795-832. *)
Definition parse_render_pass_info (_ : StateReplayer) (obj : Value) : result CreateInfo :=
  flags ← uint_member "flags" obj;
  attachments ← counted_member "attachments" obj parse_render_pass_attachments;
  dependencies ← counted_member "dependencies" obj parse_render_pass_dependencies;
  subpasses ← counted_member "subpasses" obj parse_render_pass_subpasses;
  Ok (render_pass_info
        {| rp_flags := flags;
           attachmentCount := fst attachments; pAttachments := snd attachments;
           subpassCount := fst subpasses; pSubpasses := snd subpasses;
           dependencyCount := fst dependencies; pDependencies := snd dependencies |}).

Definition parse_render_passes : Value -> M unit :=
  parse_registry RenderPass parse_render_pass_info.

(** [if (doc.HasMember(name)) parse_<kind>s(iface, doc[name]); else
    iface.set_num_<kind>s(0);] *)
Definition parse_top_level (name : string) (k : Kind) (parse_kind : Value -> M unit)
  (doc : Value) : M unit :=
  has ← lift (HasMember name doc);
  if has : bool then v ← lift (member name doc); parse_kind v
  else call (set_num k 0).

(** The [try] block of [StateReplayer::parse], lines 843-866. *)
Definition parse_document (doc : Value) : M unit :=
  _ ← parse_top_level "shaderModules" ShaderModule parse_shader_modules doc;
  _ ← parse_top_level "samplers" Sampler parse_samplers doc;
  _ ← parse_top_level "descriptorSetLayouts" DescriptorSetLayout parse_descriptor_set_layouts doc;
  _ ← parse_top_level "pipelineLayouts" PipelineLayout parse_pipeline_layouts doc;
  parse_top_level "renderPasses" RenderPass parse_render_passes doc.

(** What [doc.Parse(str, length)] leaves in [doc]. *)
Inductive Document : Type :=
  | HasParseError
  | Parsed (root : Value).

(** How a call of [parse] ends: it returns its [bool], or it does not
    return (a failed assertion, undefined behaviour). *)
Inductive Outcome : Type :=
  | Returns (b : bool)
  | Aborts.

(** [StateReplayer::parse], lines 834-874. *)
Definition parse (doc : Document) (s : State) : Outcome * State :=
  match doc with
  | HasParseError => (Returns false, s)
  | Parsed root =>
      match parse_document root s with
      | (Ok _, s') => (Returns true, s')
      | (Throw _, s') => (Returns false, s')
      | (Fault, s') => (Aborts, s')
      end
  end.

End Parse.

End Replayer.

(** * StateRecorder::register_descriptor_set_layout, with its memory
    ([vulkan_pipeline_cache.cpp], lines 876-892, 972-977, 1096-1115)

    [copy_descriptor_set_layout] writes through the pointers of the
    structure it is given, so here the structures keep their pointers and
    the arrays live in a heap that holds both the caller's memory and the
    recorder's arena. *)

Module Memory.

(** An address; 0 is the null pointer. *)
Definition pointer : Type := Z.

Record Binding : Type := mkBinding {
  binding : Z;
  descriptorType : Z;
  descriptorCount : Z;
  stageFlags : Z;
  pImmutableSamplers : pointer
}.

Record CreateInfo : Type := mkCreateInfo {
  flags : Z;
  bindingCount : Z;
  pBindings : pointer
}.

(** The arrays of [VkSampler] handles and of bindings, by address, and the
    next free address of the arena. *)
Record Heap : Type := mkHeap {
  sampler_arrays : gmap Z (list Z);
  binding_arrays : gmap Z (list Binding);
  arena_top : Z
}.

(** The part of the recorder that the registration touches. *)
Record Recorder : Type := mkRecorder {
  sampler_to_index : gmap Z Z;
  descriptor_sets : list (Hash * CreateInfo)
}.

(** [StateRecorder::copy<VkDescriptorSetLayoutBinding>(src, count)]:
    [allocate_n] hands out arena storage (taken to succeed) and
    [std::copy] fills it from [src[0..count)]. *)
Definition copy_bindings (src : pointer) (count : Z) (h : Heap) : result (pointer * Heap) :=
  elems ← Hashing.read_n count (default [] (binding_arrays h !! src));
  let p := arena_top h in
  Ok (p, {| sampler_arrays := sampler_arrays h;
            binding_arrays := <[p := elems]> (binding_arrays h);
            arena_top := p + 1 |}).

(** [sampler_to_index[handle]] on a [std::unordered_map]: a key that is
    absent is inserted with value 0. *)
Definition index_of (handle : Z) (m : gmap Z Z) : Z * gmap Z Z :=
  match m !! handle with
  | Some i => (i, m)
  | None => (0, <[handle := 0]> m)
  end.

(** Round [i] of the loop of lines 1102-1112, on the copied bindings at
    [bindings]: element [i] of the array that [b.pImmutableSamplers] points
    to is replaced, in place, by its sampler's index plus one. *)
Definition rewrite_immutable_sampler (bindings : pointer) (st : gmap Z Z * Heap) (i : nat)
  : result (gmap Z Z * Heap) :=
  let '(to_index, h) := st in
  b ← read (default [] (binding_arrays h !! bindings)) i;
  if negb (pImmutableSamplers b =? 0)
     && ((descriptorType b =? VK_DESCRIPTOR_TYPE_SAMPLER)
         || (descriptorType b =? VK_DESCRIPTOR_TYPE_COMBINED_IMAGE_SAMPLER))
  then
    let array := default [] (sampler_arrays h !! pImmutableSamplers b) in
    handle ← read array i;
    let '(index, to_index') := index_of handle to_index in
    Ok (to_index',
        {| sampler_arrays :=
             <[pImmutableSamplers b := <[i := wrap64 (wrap32 (index + 1))]> array]>
               (sampler_arrays h);
           binding_arrays := binding_arrays h;
           arena_top := arena_top h |})
  else Ok st.

(** [StateRecorder::copy_descriptor_set_layout]. *)
Definition copy_descriptor_set_layout (create_info : CreateInfo) (st : gmap Z Z * Heap)
  : result (CreateInfo * (gmap Z Z * Heap)) :=
  '(p, h) ← copy_bindings (pBindings create_info) (bindingCount create_info) (snd st);
  st' ← foldM (rewrite_immutable_sampler p) (fst st, h)
          (seq 0 (Z.to_nat (bindingCount create_info)));
  Ok ({| flags := flags create_info; bindingCount := bindingCount create_info;
         pBindings := p |}, st').

(** [StateRecorder::register_descriptor_set_layout]. *)
Definition register_descriptor_set_layout (hash : Hash) (layout_info : CreateInfo)
  (st : Recorder * Heap) : result (nat * (Recorder * Heap)) :=
  let index := length (descriptor_sets (fst st)) in
  '(info, (to_index, h)) ←
    copy_descriptor_set_layout layout_info (sampler_to_index (fst st), snd st);
  Ok (index,
      ({| sampler_to_index := to_index;
          descriptor_sets := descriptor_sets (fst st) ++ [(hash, info)] |}, h)).

End Memory.

(** * Scenarios used below *)

Module Scenarios.

(** A recorder that knows pipeline layout handle 1 (hash 11) and render
    pass handle 2 (hash 22). *)
Definition small_recorder : StateRecorder :=
  {| samplers := []; descriptor_sets := [];
     pipeline_layouts :=
       [(11, {| pl_flags := 0; setLayoutCount := 0; pSetLayouts := [];
                pushConstantRangeCount := 0; pPushConstantRanges := [] |})];
     shader_modules := [];
     render_passes :=
       [(22, {| rp_flags := 0; attachmentCount := 0; pAttachments := [];
                subpassCount := 0; pSubpasses := [];
                dependencyCount := 0; pDependencies := [] |})];
     compute_pipelines := []; graphics_pipelines := [];
     sampler_to_index := ∅; descriptor_set_layout_to_index := ∅;
     pipeline_layout_to_index := {[ 1 := 0%nat ]}; shader_module_to_index := ∅;
     render_pass_to_index := {[ 2 := 0%nat ]}; compute_pipeline_to_index := ∅;
     graphics_pipeline_to_index := ∅ |}.

(** A graphics pipeline with no stage and every optional state block null. *)
Definition bare_pipeline : VkGraphicsPipelineCreateInfo :=
  {| gp_flags := 0; stageCount := 0; pStages := [];
     pVertexInputState := None; pInputAssemblyState := None;
     pTessellationState := None; pViewportState := None;
     pRasterizationState := None; pMultisampleState := None;
     pDepthStencilState := None; pColorBlendState := None;
     pDynamicState := None;
     gp_layout := 1; renderPass := 2; subpass := 0;
     basePipelineHandle := 0; basePipelineIndex := 0 |}.

(** One attachment with blending enabled, whose source colour factor is
    [factor] and whose other factors are [VK_BLEND_FACTOR_ZERO]. *)
Definition blend_state (factor : Z) (constants : Z * Z * Z * Z)
  : VkPipelineColorBlendStateCreateInfo :=
  {| cb_flags := 0; logicOpEnable := 0; logicOp := 0;
     cb_attachmentCount := 1;
     cb_pAttachments :=
       [{| blendEnable := 1; srcColorBlendFactor := factor; dstColorBlendFactor := 0;
           colorBlendOp := 0; srcAlphaBlendFactor := 0; dstAlphaBlendFactor := 0;
           alphaBlendOp := 0; colorWriteMask := 15 |}];
     blendConstants := constants |}.

Definition with_color_blend (cb : VkPipelineColorBlendStateCreateInfo)
  (p : VkGraphicsPipelineCreateInfo) : VkGraphicsPipelineCreateInfo :=
  {| gp_flags := gp_flags p; stageCount := stageCount p; pStages := pStages p;
     pVertexInputState := pVertexInputState p; pInputAssemblyState := pInputAssemblyState p;
     pTessellationState := pTessellationState p; pViewportState := pViewportState p;
     pRasterizationState := pRasterizationState p; pMultisampleState := pMultisampleState p;
     pDepthStencilState := pDepthStencilState p; pColorBlendState := Some cb;
     pDynamicState := pDynamicState p;
     gp_layout := gp_layout p; renderPass := renderPass p; subpass := subpass p;
     basePipelineHandle := basePipelineHandle p; basePipelineIndex := basePipelineIndex p |}.

(** The pipeline [p] with the viewport rectangles [vs] in place of its own. *)
Definition set_viewports (vs : list VkViewport) (p : VkGraphicsPipelineCreateInfo)
  : VkGraphicsPipelineCreateInfo :=
  {| gp_flags := gp_flags p; stageCount := stageCount p; pStages := pStages p;
     pVertexInputState := pVertexInputState p; pInputAssemblyState := pInputAssemblyState p;
     pTessellationState := pTessellationState p;
     pViewportState :=
       match pViewportState p with
       | Some vps =>
           Some {| vps_flags := vps_flags vps; viewportCount := viewportCount vps;
                   pViewports := Some vs;
                   scissorCount := scissorCount vps; pScissors := pScissors vps |}
       | None => None
       end;
     pRasterizationState := pRasterizationState p; pMultisampleState := pMultisampleState p;
     pDepthStencilState := pDepthStencilState p; pColorBlendState := pColorBlendState p;
     pDynamicState := pDynamicState p;
     gp_layout := gp_layout p; renderPass := renderPass p; subpass := subpass p;
     basePipelineHandle := basePipelineHandle p; basePipelineIndex := basePipelineIndex p |}.

(** [label] is one of the [dynamicStateCount] states listed by
    [pDynamicState]. *)
Definition declares_dynamic (label : Z) (p : VkGraphicsPipelineCreateInfo) : Prop :=
  exists d, pDynamicState p = Some d
            /\ label ∈ take (Z.to_nat (dynamicStateCount d)) (pDynamicStates d).

Definition with_dynamic_state (d : option VkPipelineDynamicStateCreateInfo)
  (p : VkGraphicsPipelineCreateInfo) : VkGraphicsPipelineCreateInfo :=
  {| gp_flags := gp_flags p; stageCount := stageCount p; pStages := pStages p;
     pVertexInputState := pVertexInputState p; pInputAssemblyState := pInputAssemblyState p;
     pTessellationState := pTessellationState p; pViewportState := pViewportState p;
     pRasterizationState := pRasterizationState p; pMultisampleState := pMultisampleState p;
     pDepthStencilState := pDepthStencilState p; pColorBlendState := pColorBlendState p;
     pDynamicState := d;
     gp_layout := gp_layout p; renderPass := renderPass p; subpass := subpass p;
     basePipelineHandle := basePipelineHandle p; basePipelineIndex := basePipelineIndex p |}.

Definition with_viewport_state (v : option VkPipelineViewportStateCreateInfo)
  (p : VkGraphicsPipelineCreateInfo) : VkGraphicsPipelineCreateInfo :=
  {| gp_flags := gp_flags p; stageCount := stageCount p; pStages := pStages p;
     pVertexInputState := pVertexInputState p; pInputAssemblyState := pInputAssemblyState p;
     pTessellationState := pTessellationState p; pViewportState := v;
     pRasterizationState := pRasterizationState p; pMultisampleState := pMultisampleState p;
     pDepthStencilState := pDepthStencilState p; pColorBlendState := pColorBlendState p;
     pDynamicState := pDynamicState p;
     gp_layout := gp_layout p; renderPass := renderPass p; subpass := subpass p;
     basePipelineHandle := basePipelineHandle p; basePipelineIndex := basePipelineIndex p |}.

(** One viewport of the given width (bit pattern), no scissor. *)
Definition one_viewport (width : Z) : list VkViewport :=
  [{| vp_x := 0; vp_y := 0; vp_width := width; vp_height := 1145569280;
      minDepth := 0; maxDepth := 1065353216 |}].

Definition one_viewport_state : VkPipelineViewportStateCreateInfo :=
  {| vps_flags := 0; viewportCount := 1; pViewports := Some (one_viewport 1142947840);
     scissorCount := 0; pScissors := None |}.

Definition viewport_is_dynamic : VkPipelineDynamicStateCreateInfo :=
  {| dyn_flags := 0; dynamicStateCount := 1; pDynamicStates := [VK_DYNAMIC_STATE_VIEWPORT] |}.

Definition static_viewport_pipeline : VkGraphicsPipelineCreateInfo :=
  with_viewport_state (Some one_viewport_state) bare_pipeline.

Definition dynamic_viewport_pipeline : VkGraphicsPipelineCreateInfo :=
  with_dynamic_state (Some viewport_is_dynamic) static_viewport_pipeline.

(** A viewport all of whose six [float] fields are 32-bit patterns. *)
Definition float_patterns (v : VkViewport) : Prop :=
  0 <= vp_x v < 2 ^ 32 /\ 0 <= vp_y v < 2 ^ 32 /\ 0 <= vp_width v < 2 ^ 32
  /\ 0 <= vp_height v < 2 ^ 32 /\ 0 <= minDepth v < 2 ^ 32 /\ 0 <= maxDepth v < 2 ^ 32.

(** Viewport number [n]: [n] is spread over the patterns of [x], [y] and
    [width], 32 bits each. *)
Definition numbered_viewport (n : Z) : VkViewport :=
  {| vp_x := n mod 2 ^ 32; vp_y := (n / 2 ^ 32) mod 2 ^ 32; vp_width := n / 2 ^ 64;
     vp_height := 0; minDepth := 0; maxDepth := 0 |}.

(** *** The supervisor *)

Section SupervisorScenarios.
Import Supervisor.

Definition LF : string := String (ascii_of_nat 10) EmptyString.

Definition no_globals : Global :=
  {| faulty_spirv_modules := ∅; active_processes := 0; control_block := None |}.

(** Worker 0 of a three-worker run owns graphics [0,3) and compute [0,2);
    it crashes at graphics index 1 and reports one module. *)
Definition crashed_worker : ProcessProgress * Global :=
  ({| start_graphics_index := 0; start_compute_index := 0;
      end_graphics_index := 3; end_compute_index := 2;
      process := Some 1; crash_file_handle := Some 2; timer_handle := None;
      pipe_event := Some 3; compute_progress := -1; graphics_progress := -1;
      index := 0 |},
   {| faulty_spirv_modules := ∅; active_processes := 1;
      control_block := Some {| banned_modules := 0; clean_process_deaths := 0;
                               dirty_process_deaths := 0; ring_buffer := [] |} |}).

Definition crash_report : list string :=
  ["CRASH" ++ LF; "MODULE 00000000deadbeef" ++ LF; "GRAPHICS 1" ++ LF; "COMPUTE 0" ++ LF]%string.

(** The report of a worker that gets its [GRAPHICS] message out and is gone
    before the [COMPUTE] message. *)
Definition graphics_only_report : list string :=
  ["CRASH" ++ LF; "GRAPHICS 1" ++ LF]%string.

Definition graphics_after (cmd : string) : Z :=
  graphics_progress (fst (parse None (cmd ++ LF) (ProcessProgress_new, no_globals))).

Definition compute_after (cmd : string) : Z :=
  compute_progress (fst (parse None (cmd ++ LF) (ProcessProgress_new, no_globals))).

(** The decimal numeral with the given digits, most significant first, as
    ["%u"] prints it, and the number it denotes. *)
Fixpoint decimal_string (digits : list Z) : string :=
  match digits with
  | [] => EmptyString
  | d :: rest => String (ascii_of_nat (48 + Z.to_nat d)) (decimal_string rest)
  end.

Definition decimal_value (digits : list Z) : Z :=
  fold_left (fun acc d => acc * 10 + d) digits 0.

(** A numeral as ["%u"] prints it has no leading zero, unless it is the
    single digit 0. *)
Definition no_leading_zero (digits : list Z) : bool :=
  match digits with
  | [] => false
  | [_] => true
  | d :: _ => negb (d =? 0)
  end.

End SupervisorScenarios.

(** *** Recording *)

(** The caller's memory: two sampler handles at address 100 and, at
    address 200, one [VK_DESCRIPTOR_TYPE_SAMPLER] binding of count 2 whose
    immutable samplers are that array. The arena starts at address 1000. *)
Definition caller_heap : Memory.Heap :=
  {| Memory.sampler_arrays := {[ 100 := [7001; 7002] ]};
     Memory.binding_arrays :=
       {[ 200 := [{| Memory.binding := 0;
                     Memory.descriptorType := VK_DESCRIPTOR_TYPE_SAMPLER;
                     Memory.descriptorCount := 2; Memory.stageFlags := 16;
                     Memory.pImmutableSamplers := 100 |}] ]};
     Memory.arena_top := 1000 |}.

(** A recorder in which sampler 7001 has index 0 and sampler 7002 index 1. *)
Definition two_sampler_recorder : Memory.Recorder :=
  {| Memory.sampler_to_index := {[ 7001 := 0; 7002 := 1 ]};
     Memory.descriptor_sets := [] |}.

Definition one_binding_layout : Memory.CreateInfo :=
  {| Memory.flags := 0; Memory.bindingCount := 1; Memory.pBindings := 200 |}.

(** A recorder holding one sampler whose three address modes differ. *)
Definition one_sampler : VkSamplerCreateInfo :=
  {| s_flags := 0; magFilter := 1; minFilter := 1; mipmapMode := 1;
     addressModeU := 0; addressModeV := 1; addressModeW := 2;
     mipLodBias := 0; anisotropyEnable := 0; maxAnisotropy := 1065353216;
     compareEnable := 0; s_compareOp := 0; minLod := 0; maxLod := 1065353216;
     borderColor := 0; unnormalizedCoordinates := 0 |}.

Definition one_sampler_recorder : StateRecorder :=
  {| samplers := [(7, one_sampler)]; descriptor_sets := []; pipeline_layouts := [];
     shader_modules := []; render_passes := []; compute_pipelines := [];
     graphics_pipelines := [];
     sampler_to_index := {[ 7001 := 0%nat ]}; descriptor_set_layout_to_index := ∅;
     pipeline_layout_to_index := ∅; shader_module_to_index := ∅;
     render_pass_to_index := ∅; compute_pipeline_to_index := ∅;
     graphics_pipeline_to_index := ∅ |}.

Definition one_sampler_document : Value :=
  Obj [("samplers",
        Arr [Obj [("flags", Num 0); ("minFilter", Num 1); ("magFilter", Num 1);
                  ("maxAnisotropy", Real 1065353216); ("compareOp", Num 0);
                  ("anisotropyEnable", Num 0); ("mipmapMode", Num 1);
                  ("addressModeU", Num 0); ("addressModeV", Num 0);
                  ("addressModeW", Num 0); ("borderColor", Num 0);
                  ("unnormalizedCoordinates", Num 0); ("compareEnable", Num 0);
                  ("mipLodBias", Real 0); ("minLod", Real 0);
                  ("maxLod", Real 1065353216)]]);
       ("setLayouts", Arr []); ("pipelineLayouts", Arr []);
       ("shaderModules", Arr []); ("renderPasses", Arr []);
       ("computePipelines", Arr []); ("graphicsPipelines", Arr [])]%string.

(** A compute pipeline as the recorder keeps it (layout and module stored
    as index + 1). *)
Definition one_compute_pipeline : VkComputePipelineCreateInfo :=
  {| cp_flags := 0;
     cp_stage := {| st_flags := 0; st_stage := 32; module := 1; pName := "main";
                    pSpecializationInfo := None |};
     cp_layout := 1; cp_basePipelineHandle := 0; cp_basePipelineIndex := 0 |}.

(** A recorder holding one pipeline layout (one push-constant range, one
    null set-layout reference) and the compute pipeline above. *)
Definition one_pipeline_layout : VkPipelineLayoutCreateInfo :=
  {| pl_flags := 0; setLayoutCount := 1; pSetLayouts := [0];
     pushConstantRangeCount := 1;
     pPushConstantRanges := [{| pc_stageFlags := 32; pc_offset := 0; pc_size := 16 |}] |}.

Definition layout_and_compute_recorder : StateRecorder :=
  {| samplers := []; descriptor_sets := [];
     pipeline_layouts := [(5, one_pipeline_layout)];
     shader_modules := []; render_passes := [];
     compute_pipelines := [(9, one_compute_pipeline)];
     graphics_pipelines := [];
     sampler_to_index := ∅; descriptor_set_layout_to_index := ∅;
     pipeline_layout_to_index := ∅; shader_module_to_index := ∅;
     render_pass_to_index := ∅; compute_pipeline_to_index := ∅;
     graphics_pipeline_to_index := ∅ |}.

Definition layout_and_compute_document : Value :=
  Obj [("samplers", Arr []); ("setLayouts", Arr []);
       ("pipelineLayouts",
        Arr [Obj [("hash", Num 5); ("flags", Num 0);
                  ("pushConstantRanges",
                   Arr [Obj [("stageFlags", Num 32); ("size", Num 16); ("offset", Num 0)]]);
                  ("setLayouts", Arr [Num 0])]]);
       ("shaderModules", Arr []); ("renderPasses", Arr []);
       ("computePipelines",
        Arr [Obj [("hash", Num 9); ("flags", Num 0); ("layout", Num 1);
                  ("basePipelineHandle", Num 0); ("basePipelineIndex", Num 0);
                  ("stage", Obj [("flags", Num 0); ("stage", Num 32);
                                 ("module", Num 1); ("name", Str "main")])]]);
       ("graphicsPipelines", Arr [])]%string.

(** What the engine has been told once that document is parsed. *)
Definition layout_and_compute_trace : list Replayer.Event :=
  [Replayer.set_num Replayer.ShaderModule 0; Replayer.wait_enqueue;
   Replayer.set_num Replayer.Sampler 0; Replayer.wait_enqueue;
   Replayer.set_num Replayer.DescriptorSetLayout 0;
   Replayer.set_num Replayer.PipelineLayout 1;
   Replayer.enqueue_create Replayer.PipelineLayout 5 0
     (Replayer.pipeline_layout_info one_pipeline_layout);
   Replayer.wait_enqueue;
   Replayer.set_num Replayer.RenderPass 0; Replayer.wait_enqueue].

(** *** Replaying *)

(** An engine that numbers its handles from 1 within each kind, a decoder
    that yields no bytes, and integers converted to the float pattern 0. *)
Definition numbering_engine (k : Replayer.Kind) (hash : Hash) (index : nat) : Z :=
  Z.of_nat index + 1.
Definition no_bytes (text : string) : list Z := [].
Definition zero_float (z : Z) : Z := 0.

(** Modelled from the spec: the arena templates of
    [vulkan_pipeline_cache.hpp] are not among the sources; spec 3
    (Lifecycle) has the entities own their sub-arrays through a bump
    allocator. This arena hands out storage for every request. *)
Definition arena (count : Z) : result () := Ok ().

(** An arena none of whose requests comes back, which is how
    [ScratchAllocator::allocate_raw] as it stands treats a request with an
    alignment of 2 or more on a new allocator. *)
Definition stuck_arena (count : Z) : result () := Fault.

Definition replay (doc : Replayer.Document) : Replayer.Outcome * Replayer.State :=
  Replayer.parse numbering_engine no_bytes arena zero_float doc (Replayer.StateReplayer_new, []).


(** The kind a callback is about. *)
Definition callback_kind (e : Replayer.Event) : option Replayer.Kind :=
  match e with
  | Replayer.set_num k _ => Some k
  | Replayer.enqueue_create k _ _ _ => Some k
  | Replayer.wait_enqueue => None
  end.

(** The top-level order the specification gives: samplers, set layouts,
    pipeline layouts, shader modules, render passes, compute pipelines,
    graphics pipelines. *)
Definition spec_rank (k : Replayer.Kind) : nat :=
  match k with
  | Replayer.Sampler => 0
  | Replayer.DescriptorSetLayout => 1
  | Replayer.PipelineLayout => 2
  | Replayer.ShaderModule => 3
  | Replayer.RenderPass => 4
  | Replayer.ComputePipeline => 5
  | Replayer.GraphicsPipeline => 6
  end.

Fixpoint ranks_ascend (ranks : list nat) : bool :=
  match ranks with
  | a :: (b :: _) as rest => (a <=? b)%nat && ranks_ascend rest
  | _ => true
  end.

Definition in_spec_order (trace : list Replayer.Event) : bool :=
  ranks_ascend (map spec_rank (omap callback_kind trace)).

Definition calls_back_kind (k : Replayer.Kind) (trace : list Replayer.Event) : bool :=
  bool_decide (k ∈ omap callback_kind trace).

(** The kinds whose handles the replayer keeps in a [replayed_<kind>]
    vector. *)
Definition keeps_handles (k : Replayer.Kind) : Prop :=
  k <> Replayer.ComputePipeline /\ k <> Replayer.GraphicsPipeline.

(** The callbacks [block] of kind [k] for the array [registry] of the
    document, made with the replayer at [r] and leaving it at [r']:
    [set_num_<kind>(n)] for the [n] elements of the array, then for element
    number [i] one [enqueue_create_<kind>] with index [i], with the
    element's ["hash"] member and with the create-info parsed from the
    element against the handles replayed for the other kinds, then
    [wait_enqueue()]. Afterwards slot [i] of [replayed_<kind>] holds the
    handle the engine created for element [i], and the handles of the other
    kinds are as before. *)
Definition registry_block (created : Replayer.Kind -> Hash -> nat -> Z)
  (parse_info : Replayer.StateReplayer -> Value -> result Replayer.CreateInfo)
  (k : Replayer.Kind) (registry : Value) (r : Replayer.StateReplayer)
  (block : list Replayer.Event) (r' : Replayer.StateReplayer) : Prop :=
  exists elems creates,
    registry = Arr elems
    /\ block = Replayer.set_num k (Z.of_nat (length elems))
                 :: creates ++ [Replayer.wait_enqueue]
    /\ length creates = length elems
    /\ (forall i obj, elems !! i = Some obj ->
          exists hash info r_i,
            uint64_member "hash" obj = Ok hash
            /\ parse_info r_i obj = Ok info
            /\ (forall k', k' <> k -> Replayer.replayed k' r_i = Replayer.replayed k' r)
            /\ creates !! i = Some (Replayer.enqueue_create k hash i info)
            /\ Replayer.replayed k r' !! i = Some (created k hash i))
    /\ length (Replayer.replayed k r') = length elems
    /\ (forall k', k' <> k -> Replayer.replayed k' r' = Replayer.replayed k' r).

(** The callbacks of one kind for the document [doc], whose member [name]
    is the kind's array: [set_num_<kind>(0)] alone, the replayer untouched,
    when the document has no such member, and the block of the array
    otherwise. *)
Definition kind_block (created : Replayer.Kind -> Hash -> nat -> Z)
  (parse_info : Replayer.StateReplayer -> Value -> result Replayer.CreateInfo)
  (k : Replayer.Kind) (name : string) (doc : Value) (r : Replayer.StateReplayer)
  (block : list Replayer.Event) (r' : Replayer.StateReplayer) : Prop :=
  exists members,
    doc = Obj members
    /\ match FindMember name members with
       | None => block = [Replayer.set_num k 0] /\ r' = r
       | Some registry => registry_block created parse_info k registry r block r'
       end.

(** Whatever a computation does and however it ends, the calls already
    made stay in the trace. *)
Definition grows {A} (m : Replayer.M A) : Prop :=
  forall s, exists evs, snd (snd (m s)) = snd s ++ evs.

End Scenarios.

(** * [write_all] ([cli/fossilize_replay_windows.hpp], lines 32-51) *)

Module Pipe.

(** What one round of the loop learns from the system: whether
    [WriteFile] and [FlushFileBuffers] succeeded, and the count
    [WriteFile] stored in [wrote]. *)
Record Written : Type := mkWritten {
  write_ok : bool;
  flush_ok : bool;
  wrote : Z
}.

(** [str + n] and the [n] characters before it. *)
Fixpoint take_chars (n : nat) (s : string) : string :=
  match n, s with
  | S n', String c rest => String c (take_chars n' rest)
  | _, _ => EmptyString
  end.

Fixpoint drop_chars (n : nat) (s : string) : string :=
  match n, s with
  | S n', String _ rest => drop_chars n' rest
  | _, _ => s
  end.

(** The loop of lines 35-48. [system call len] is what round number [call]
    learns when it offers [len] characters; [file] collects the characters
    the system took. The loop ends with [Some file] where [write_all]
    returns [true] and with [None] where it returns [false]; [fuel] bounds
    the number of rounds, and the outer [None] means the bound was
    reached. *)
Fixpoint write_all_loop (fuel : nat) (system : nat -> Z -> Written) (call : nat)
  (str : string) (len : Z) (file : string) : option (option string) :=
  if len =? 0 then Some (Some file)
  else
    match fuel with
    | O => None
    | S fuel' =>
        let w := system call len in
        if negb (write_ok w) then Some None
        else if negb (flush_ok w) then Some None
        else if wrote w <=? 0 then Some None
        else write_all_loop fuel' system (S call)
               (drop_chars (Z.to_nat (wrote w)) str) (wrap64 (len - wrote w))
               (file ++ take_chars (Z.to_nat (wrote w)) str)
    end.

(** [write_all(file, str)], with [len = strlen(str)]. *)
Definition write_all (fuel : nat) (system : nat -> Z -> Written) (str : string)
  : option (option string) :=
  write_all_loop fuel system 0 str (wrap64 (Z.of_nat (String.length str))) EmptyString.

(** A system that takes [chunk] characters a round, or what is left. *)
Definition in_chunks (chunk : Z) (_ : nat) (len : Z) : Written :=
  {| write_ok := true; flush_ok := true; wrote := Z.min chunk len |}.

End Pipe.

(** * The master's work split and the worker's side of the pipe
    ([cli/fossilize_replay_windows.hpp], lines 257-267, 606-624,
    721-801) *)

Module Master.
Import Supervisor.

(** Lines 613-616: the range of child [i] out of [processes] over [num]
    pipelines, [(i * unsigned(num)) / processes] to
    [((i + 1) * unsigned(num)) / processes] in [unsigned] arithmetic. *)
Definition range_start (processes num i : Z) : Z :=
  wrap32 (i * wrap32 num) / processes.

Definition range_end (processes num i : Z) : Z :=
  wrap32 (wrap32 (i + 1) * wrap32 num) / processes.

(** Lines 611-617: child [i] as the loop sets it up before starting it. *)
Definition child_progress (processes num_graphics_pipelines num_compute_pipelines i : Z)
  : ProcessProgress :=
  {| start_graphics_index := range_start processes num_graphics_pipelines i;
     start_compute_index := range_start processes num_compute_pipelines i;
     end_graphics_index := range_end processes num_graphics_pipelines i;
     end_compute_index := range_end processes num_compute_pipelines i;
     process := None; crash_file_handle := None; timer_handle := None;
     pipe_event := None; compute_progress := -1; graphics_progress := -1;
     index := i |}.

(** The pipeline indices of a half-open range. *)
Definition indices (first last : Z) : list Z := seqZ first (last - first).

End Master.

Module Worker.
Import Supervisor.

(** ** [sprintf]'s ["%u"] and ["%llx"] conversions, as ISO C defines them:
    the digits of the value in base 10 (base 16, lower case), most
    significant first, without leading zeros; 0 prints as ["0"]. *)

(** The digits of [n], pushed in front of [acc]; [fuel] bounds their
    number. *)
Fixpoint digits_of (fuel : nat) (base n : Z) (acc : list Z) : list Z :=
  match fuel with
  | O => acc
  | S fuel' =>
      if n <? base then n :: acc
      else digits_of fuel' base (n / base) (n mod base :: acc)
  end.

Definition digit_char (d : Z) : ascii :=
  if d <? 10 then ascii_of_nat (48 + Z.to_nat d) else ascii_of_nat (87 + Z.to_nat d).

Fixpoint print_digits (digits : list Z) : string :=
  match digits with
  | [] => EmptyString
  | d :: rest => String (digit_char d) (print_digits rest)
  end.

(** ["%u"] of an [unsigned] (at most 10 digits) and ["%llx"] of an
    [unsigned long long] (at most 16). *)
Definition print_u (n : Z) : string := print_digits (digits_of 10 10 (wrap32 n) []).
Definition print_llx (n : Z) : string := print_digits (digits_of 16 16 (wrap64 n) []).

Definition newline : string := String (ascii_of_nat 10) EmptyString.

(** ** [crash_handler], lines 721-765, with a replayer installed and every
    [write_all] delivering its message in one [WriteFile]: the messages
    the worker puts on the pipe before [ExitProcess(2)]. *)
Definition crash_handler (failed_module_hashes : list Z)
  (current_graphics_index current_compute_index : Z) : list string :=
  [("CRASH" ++ newline)%string]
  ++ map (fun hash => ("MODULE " ++ print_llx hash ++ newline)%string) failed_module_hashes
  ++ [("GRAPHICS " ++ print_u current_graphics_index ++ newline)%string;
      ("COMPUTE " ++ print_u current_compute_index ++ newline)%string].

(** ** [send_faulty_modules_and_close], lines 257-267: what the master
    writes to the worker's standard input, for some enumeration of the
    blacklist. *)
Definition send_faulty_modules (modules : list Z) : string :=
  fold_right (fun m rest => (print_llx m ++ newline ++ rest)%string) EmptyString modules.

(** [fgets(buffer, n + 1, stdin)]: at most [n] characters, up to and
    including the first newline; the line and what is left of the stream. *)
Fixpoint fgets (n : nat) (stream : string) : string * string :=
  match n, stream with
  | O, _ => (EmptyString, stream)
  | S _, EmptyString => (EmptyString, EmptyString)
  | S n', String c rest =>
      if Ascii.eqb c (ascii_of_nat 10) then (String c EmptyString, rest)
      else let '(line, rest') := fgets n' rest in (String c line, rest')
  end.

(** [strtoull] sets [errno] to [ERANGE] when the number does not fit. *)
Definition strtoull_out_of_range (s : string) (base : Z) : bool :=
  ULLONG_MAX <? snd (scan_number s base).

(** Lines 789-801 of [run_slave_process]: the hashes handed to
    [mask_shader_module], in order. [fgets] returns null at the end of the
    stream; [fuel] bounds the number of lines. *)
Fixpoint read_ignored_modules (fuel : nat) (stdin : string) : list Z :=
  match fuel with
  | O => []
  | S fuel' =>
      match stdin with
      | EmptyString => []
      | _ =>
          let '(line, rest) := fgets 17 stdin in
          let hash := strtoull line 16 in
          if hash =? 0 then []
          else (if strtoull_out_of_range line 16 then [] else [hash])
               ++ read_ignored_modules fuel' rest
      end
  end.

(** Every round takes at least one character off the stream. *)
Definition ignored_modules_of (stdin : string) : list Z :=
  read_ignored_modules (S (String.length stdin)) stdin.

End Worker.

(** * StateRecorder: registering entities and naming them by handle
    ([vulkan_pipeline_cache.cpp], lines 876-892, 937-1019, 1084-1222)

    The registries hold create-infos by value here, so [copy] yields the
    elements it reads; where the code reads through a null pointer the call
    is a [Fault]. *)

Module Recording.

(** The recorder with one of its fields replaced. *)

Definition with_samplers (v : list (Hash * VkSamplerCreateInfo)) (r : StateRecorder) : StateRecorder :=
  {| samplers := v;
     descriptor_sets := descriptor_sets r;
     pipeline_layouts := pipeline_layouts r;
     shader_modules := shader_modules r;
     render_passes := render_passes r;
     compute_pipelines := compute_pipelines r;
     graphics_pipelines := graphics_pipelines r;
     sampler_to_index := sampler_to_index r;
     descriptor_set_layout_to_index := descriptor_set_layout_to_index r;
     pipeline_layout_to_index := pipeline_layout_to_index r;
     shader_module_to_index := shader_module_to_index r;
     render_pass_to_index := render_pass_to_index r;
     compute_pipeline_to_index := compute_pipeline_to_index r;
     graphics_pipeline_to_index := graphics_pipeline_to_index r |}.

Definition with_descriptor_sets (v : list (Hash * VkDescriptorSetLayoutCreateInfo)) (r : StateRecorder) : StateRecorder :=
  {| samplers := samplers r;
     descriptor_sets := v;
     pipeline_layouts := pipeline_layouts r;
     shader_modules := shader_modules r;
     render_passes := render_passes r;
     compute_pipelines := compute_pipelines r;
     graphics_pipelines := graphics_pipelines r;
     sampler_to_index := sampler_to_index r;
     descriptor_set_layout_to_index := descriptor_set_layout_to_index r;
     pipeline_layout_to_index := pipeline_layout_to_index r;
     shader_module_to_index := shader_module_to_index r;
     render_pass_to_index := render_pass_to_index r;
     compute_pipeline_to_index := compute_pipeline_to_index r;
     graphics_pipeline_to_index := graphics_pipeline_to_index r |}.

Definition with_pipeline_layouts (v : list (Hash * VkPipelineLayoutCreateInfo)) (r : StateRecorder) : StateRecorder :=
  {| samplers := samplers r;
     descriptor_sets := descriptor_sets r;
     pipeline_layouts := v;
     shader_modules := shader_modules r;
     render_passes := render_passes r;
     compute_pipelines := compute_pipelines r;
     graphics_pipelines := graphics_pipelines r;
     sampler_to_index := sampler_to_index r;
     descriptor_set_layout_to_index := descriptor_set_layout_to_index r;
     pipeline_layout_to_index := pipeline_layout_to_index r;
     shader_module_to_index := shader_module_to_index r;
     render_pass_to_index := render_pass_to_index r;
     compute_pipeline_to_index := compute_pipeline_to_index r;
     graphics_pipeline_to_index := graphics_pipeline_to_index r |}.

Definition with_shader_modules (v : list (Hash * VkShaderModuleCreateInfo)) (r : StateRecorder) : StateRecorder :=
  {| samplers := samplers r;
     descriptor_sets := descriptor_sets r;
     pipeline_layouts := pipeline_layouts r;
     shader_modules := v;
     render_passes := render_passes r;
     compute_pipelines := compute_pipelines r;
     graphics_pipelines := graphics_pipelines r;
     sampler_to_index := sampler_to_index r;
     descriptor_set_layout_to_index := descriptor_set_layout_to_index r;
     pipeline_layout_to_index := pipeline_layout_to_index r;
     shader_module_to_index := shader_module_to_index r;
     render_pass_to_index := render_pass_to_index r;
     compute_pipeline_to_index := compute_pipeline_to_index r;
     graphics_pipeline_to_index := graphics_pipeline_to_index r |}.

Definition with_render_passes (v : list (Hash * VkRenderPassCreateInfo)) (r : StateRecorder) : StateRecorder :=
  {| samplers := samplers r;
     descriptor_sets := descriptor_sets r;
     pipeline_layouts := pipeline_layouts r;
     shader_modules := shader_modules r;
     render_passes := v;
     compute_pipelines := compute_pipelines r;
     graphics_pipelines := graphics_pipelines r;
     sampler_to_index := sampler_to_index r;
     descriptor_set_layout_to_index := descriptor_set_layout_to_index r;
     pipeline_layout_to_index := pipeline_layout_to_index r;
     shader_module_to_index := shader_module_to_index r;
     render_pass_to_index := render_pass_to_index r;
     compute_pipeline_to_index := compute_pipeline_to_index r;
     graphics_pipeline_to_index := graphics_pipeline_to_index r |}.

Definition with_compute_pipelines (v : list (Hash * VkComputePipelineCreateInfo)) (r : StateRecorder) : StateRecorder :=
  {| samplers := samplers r;
     descriptor_sets := descriptor_sets r;
     pipeline_layouts := pipeline_layouts r;
     shader_modules := shader_modules r;
     render_passes := render_passes r;
     compute_pipelines := v;
     graphics_pipelines := graphics_pipelines r;
     sampler_to_index := sampler_to_index r;
     descriptor_set_layout_to_index := descriptor_set_layout_to_index r;
     pipeline_layout_to_index := pipeline_layout_to_index r;
     shader_module_to_index := shader_module_to_index r;
     render_pass_to_index := render_pass_to_index r;
     compute_pipeline_to_index := compute_pipeline_to_index r;
     graphics_pipeline_to_index := graphics_pipeline_to_index r |}.

Definition with_graphics_pipelines (v : list (Hash * VkGraphicsPipelineCreateInfo)) (r : StateRecorder) : StateRecorder :=
  {| samplers := samplers r;
     descriptor_sets := descriptor_sets r;
     pipeline_layouts := pipeline_layouts r;
     shader_modules := shader_modules r;
     render_passes := render_passes r;
     compute_pipelines := compute_pipelines r;
     graphics_pipelines := v;
     sampler_to_index := sampler_to_index r;
     descriptor_set_layout_to_index := descriptor_set_layout_to_index r;
     pipeline_layout_to_index := pipeline_layout_to_index r;
     shader_module_to_index := shader_module_to_index r;
     render_pass_to_index := render_pass_to_index r;
     compute_pipeline_to_index := compute_pipeline_to_index r;
     graphics_pipeline_to_index := graphics_pipeline_to_index r |}.

Definition with_sampler_to_index (v : gmap Z nat) (r : StateRecorder) : StateRecorder :=
  {| samplers := samplers r;
     descriptor_sets := descriptor_sets r;
     pipeline_layouts := pipeline_layouts r;
     shader_modules := shader_modules r;
     render_passes := render_passes r;
     compute_pipelines := compute_pipelines r;
     graphics_pipelines := graphics_pipelines r;
     sampler_to_index := v;
     descriptor_set_layout_to_index := descriptor_set_layout_to_index r;
     pipeline_layout_to_index := pipeline_layout_to_index r;
     shader_module_to_index := shader_module_to_index r;
     render_pass_to_index := render_pass_to_index r;
     compute_pipeline_to_index := compute_pipeline_to_index r;
     graphics_pipeline_to_index := graphics_pipeline_to_index r |}.

Definition with_descriptor_set_layout_to_index (v : gmap Z nat) (r : StateRecorder) : StateRecorder :=
  {| samplers := samplers r;
     descriptor_sets := descriptor_sets r;
     pipeline_layouts := pipeline_layouts r;
     shader_modules := shader_modules r;
     render_passes := render_passes r;
     compute_pipelines := compute_pipelines r;
     graphics_pipelines := graphics_pipelines r;
     sampler_to_index := sampler_to_index r;
     descriptor_set_layout_to_index := v;
     pipeline_layout_to_index := pipeline_layout_to_index r;
     shader_module_to_index := shader_module_to_index r;
     render_pass_to_index := render_pass_to_index r;
     compute_pipeline_to_index := compute_pipeline_to_index r;
     graphics_pipeline_to_index := graphics_pipeline_to_index r |}.

Definition with_pipeline_layout_to_index (v : gmap Z nat) (r : StateRecorder) : StateRecorder :=
  {| samplers := samplers r;
     descriptor_sets := descriptor_sets r;
     pipeline_layouts := pipeline_layouts r;
     shader_modules := shader_modules r;
     render_passes := render_passes r;
     compute_pipelines := compute_pipelines r;
     graphics_pipelines := graphics_pipelines r;
     sampler_to_index := sampler_to_index r;
     descriptor_set_layout_to_index := descriptor_set_layout_to_index r;
     pipeline_layout_to_index := v;
     shader_module_to_index := shader_module_to_index r;
     render_pass_to_index := render_pass_to_index r;
     compute_pipeline_to_index := compute_pipeline_to_index r;
     graphics_pipeline_to_index := graphics_pipeline_to_index r |}.

Definition with_shader_module_to_index (v : gmap Z nat) (r : StateRecorder) : StateRecorder :=
  {| samplers := samplers r;
     descriptor_sets := descriptor_sets r;
     pipeline_layouts := pipeline_layouts r;
     shader_modules := shader_modules r;
     render_passes := render_passes r;
     compute_pipelines := compute_pipelines r;
     graphics_pipelines := graphics_pipelines r;
     sampler_to_index := sampler_to_index r;
     descriptor_set_layout_to_index := descriptor_set_layout_to_index r;
     pipeline_layout_to_index := pipeline_layout_to_index r;
     shader_module_to_index := v;
     render_pass_to_index := render_pass_to_index r;
     compute_pipeline_to_index := compute_pipeline_to_index r;
     graphics_pipeline_to_index := graphics_pipeline_to_index r |}.

Definition with_render_pass_to_index (v : gmap Z nat) (r : StateRecorder) : StateRecorder :=
  {| samplers := samplers r;
     descriptor_sets := descriptor_sets r;
     pipeline_layouts := pipeline_layouts r;
     shader_modules := shader_modules r;
     render_passes := render_passes r;
     compute_pipelines := compute_pipelines r;
     graphics_pipelines := graphics_pipelines r;
     sampler_to_index := sampler_to_index r;
     descriptor_set_layout_to_index := descriptor_set_layout_to_index r;
     pipeline_layout_to_index := pipeline_layout_to_index r;
     shader_module_to_index := shader_module_to_index r;
     render_pass_to_index := v;
     compute_pipeline_to_index := compute_pipeline_to_index r;
     graphics_pipeline_to_index := graphics_pipeline_to_index r |}.

Definition with_compute_pipeline_to_index (v : gmap Z nat) (r : StateRecorder) : StateRecorder :=
  {| samplers := samplers r;
     descriptor_sets := descriptor_sets r;
     pipeline_layouts := pipeline_layouts r;
     shader_modules := shader_modules r;
     render_passes := render_passes r;
     compute_pipelines := compute_pipelines r;
     graphics_pipelines := graphics_pipelines r;
     sampler_to_index := sampler_to_index r;
     descriptor_set_layout_to_index := descriptor_set_layout_to_index r;
     pipeline_layout_to_index := pipeline_layout_to_index r;
     shader_module_to_index := shader_module_to_index r;
     render_pass_to_index := render_pass_to_index r;
     compute_pipeline_to_index := v;
     graphics_pipeline_to_index := graphics_pipeline_to_index r |}.

Definition with_graphics_pipeline_to_index (v : gmap Z nat) (r : StateRecorder) : StateRecorder :=
  {| samplers := samplers r;
     descriptor_sets := descriptor_sets r;
     pipeline_layouts := pipeline_layouts r;
     shader_modules := shader_modules r;
     render_passes := render_passes r;
     compute_pipelines := compute_pipelines r;
     graphics_pipelines := graphics_pipelines r;
     sampler_to_index := sampler_to_index r;
     descriptor_set_layout_to_index := descriptor_set_layout_to_index r;
     pipeline_layout_to_index := pipeline_layout_to_index r;
     shader_module_to_index := shader_module_to_index r;
     render_pass_to_index := render_pass_to_index r;
     compute_pipeline_to_index := compute_pipeline_to_index r;
     graphics_pipeline_to_index := v |}.


(** [StateRecorder::set_<kind>_handle(index, handle)]:
    [<kind>_to_index[handle] = index]. *)
Definition set_sampler_handle (index : nat) (sampler : Z) (r : StateRecorder) : StateRecorder :=
  with_sampler_to_index (<[sampler := index]> (sampler_to_index r)) r.
Definition set_descriptor_set_layout_handle (index : nat) (layout : Z) (r : StateRecorder)
  : StateRecorder :=
  with_descriptor_set_layout_to_index (<[layout := index]> (descriptor_set_layout_to_index r)) r.
Definition set_pipeline_layout_handle (index : nat) (layout : Z) (r : StateRecorder)
  : StateRecorder :=
  with_pipeline_layout_to_index (<[layout := index]> (pipeline_layout_to_index r)) r.
Definition set_shader_module_handle (index : nat) (module : Z) (r : StateRecorder)
  : StateRecorder :=
  with_shader_module_to_index (<[module := index]> (shader_module_to_index r)) r.
Definition set_render_pass_handle (index : nat) (render_pass : Z) (r : StateRecorder)
  : StateRecorder :=
  with_render_pass_to_index (<[render_pass := index]> (render_pass_to_index r)) r.
Definition set_compute_pipeline_handle (index : nat) (pipeline : Z) (r : StateRecorder)
  : StateRecorder :=
  with_compute_pipeline_to_index (<[pipeline := index]> (compute_pipeline_to_index r)) r.
Definition set_graphics_pipeline_handle (index : nat) (pipeline : Z) (r : StateRecorder)
  : StateRecorder :=
  with_graphics_pipeline_to_index (<[pipeline := index]> (graphics_pipeline_to_index r)) r.

(** [unsigned(registry.size())]. *)
Definition next_index {A} (registry : list A) : nat :=
  Z.to_nat (wrap32 (Z.of_nat (length registry))).

(** [table[handle]] on a [std::unordered_map]: a key that is absent is
    inserted with the value 0. *)
Definition index_of (handle : Z) (table : gmap Z nat) : nat * gmap Z nat :=
  match table !! handle with
  | Some i => (i, table)
  | None => (0%nat, <[handle := 0%nat]> table)
  end.

(** [reinterpret_cast<Handle>(uint64_t(index + 1))], [index] an
    [unsigned]. *)
Definition index_plus_one (index : nat) : Z := wrap64 (wrap32 (Z.of_nat index + 1)).

(** [register_sampler], lines 986-991, with [copy_sampler] (1091-1094). *)
Definition register_sampler (hash : Hash) (create_info : VkSamplerCreateInfo)
  (r : StateRecorder) : nat * StateRecorder :=
  (next_index (samplers r), with_samplers (samplers r ++ [(hash, create_info)]) r).

Section Copying.

(** How a request to the recorder's arena ends, as in [Replayer]:
    [allocate_n<T>] is a template of [vulkan_pipeline_cache.hpp], which is
    not among the sources. [allocate count] is [Ok] when storage for
    [count] elements is handed out. *)
Variable allocate : Z -> result ().

(** [copy(src, count)], lines 885-892: storage for [count] elements, then
    [std::copy] reads [src[0..count)]. *)
Definition copy {A} (src : list A) (count : Z) : result (list A) :=
  _ ← allocate count;
  Hashing.read_n count src.

(** [copy(p, 1)] on a pointer to one structure: a null [p] is read. *)
Definition copy_one {A} (p : option A) : result A :=
  _ ← allocate 1;
  match p with
  | Some a => Ok a
  | None => Fault
  end.

(** [copy(name, strlen(name) + 1)]. *)
Definition copy_name (name : string) : result string :=
  _ ← allocate (Z.of_nat (String.length name) + 1);
  Ok name.

(** [copy_pipeline_layout], lines 1117-1128: both arrays are copied, then
    every copied set-layout handle is replaced by its index plus one. *)
Definition rewrite_set_layout (st : gmap Z nat * list Z) (handle : Z)
  : result (gmap Z nat * list Z) :=
  let '(index, table) := index_of handle (fst st) in
  Ok (table, snd st ++ [index_plus_one index]).

Definition copy_pipeline_layout (create_info : VkPipelineLayoutCreateInfo) (r : StateRecorder)
  : result (VkPipelineLayoutCreateInfo * StateRecorder) :=
  ranges ← copy (pPushConstantRanges create_info) (pushConstantRangeCount create_info);
  layouts ← copy (pSetLayouts create_info) (setLayoutCount create_info);
  '(table, rewritten) ← foldM rewrite_set_layout (descriptor_set_layout_to_index r, []) layouts;
  Ok ({| pl_flags := pl_flags create_info;
         setLayoutCount := setLayoutCount create_info; pSetLayouts := rewritten;
         pushConstantRangeCount := pushConstantRangeCount create_info;
         pPushConstantRanges := ranges |},
      with_descriptor_set_layout_to_index table r).

(** [register_pipeline_layout], lines 979-984. *)
Definition register_pipeline_layout (hash : Hash) (layout_info : VkPipelineLayoutCreateInfo)
  (r : StateRecorder) : result (nat * StateRecorder) :=
  let index := next_index (pipeline_layouts r) in
  '(info, r) ← copy_pipeline_layout layout_info r;
  Ok (index, with_pipeline_layouts (pipeline_layouts r ++ [(hash, info)]) r).

(** [copy_specialization_info], lines 1130-1136: [copy(info, 1)] reads
    [*info], null or not. *)
Definition copy_specialization_info (info : option VkSpecializationInfo)
  : result (option VkSpecializationInfo) :=
  ret ← copy_one info;
  entries ← copy (pMapEntries ret) (mapEntryCount ret);
  data ← copy (pData ret) (dataSize ret);
  Ok (Some {| mapEntryCount := mapEntryCount ret; pMapEntries := entries;
              dataSize := dataSize ret; pData := data |}).

(** [copy_compute_pipeline], lines 1138-1147. The name is copied with its
    terminator. *)
Definition copy_compute_pipeline (create_info : VkComputePipelineCreateInfo) (r : StateRecorder)
  : result (VkComputePipelineCreateInfo * StateRecorder) :=
  let stage := cp_stage create_info in
  spec ← copy_specialization_info (pSpecializationInfo stage);
  let '(module_index, modules) := index_of (module stage) (shader_module_to_index r) in
  let r := with_shader_module_to_index modules r in
  name ← copy_name (pName stage);
  let '(base, r) :=
    if negb (cp_basePipelineHandle create_info =? VK_NULL_HANDLE) then
      let '(index, pipelines) :=
        index_of (cp_basePipelineHandle create_info) (compute_pipeline_to_index r) in
      (index_plus_one index, with_compute_pipeline_to_index pipelines r)
    else (cp_basePipelineHandle create_info, r) in
  Ok ({| cp_flags := cp_flags create_info;
         cp_stage := {| st_flags := st_flags stage; st_stage := st_stage stage;
                        module := index_plus_one module_index; pName := name;
                        pSpecializationInfo := spec |};
         cp_layout := cp_layout create_info;
         cp_basePipelineHandle := base;
         cp_basePipelineIndex := cp_basePipelineIndex create_info |}, r).

(** [register_compute_pipeline], lines 1000-1005. *)
Definition register_compute_pipeline (hash : Hash) (create_info : VkComputePipelineCreateInfo)
  (r : StateRecorder) : result (nat * StateRecorder) :=
  let index := next_index (compute_pipelines r) in
  '(info, r) ← copy_compute_pipeline create_info r;
  Ok (index, with_compute_pipelines (compute_pipelines r ++ [(hash, info)]) r).

(** One round of the loop over the copied stages, lines 1168-1174. *)
Definition copy_stage (st : gmap Z nat * list VkPipelineShaderStageCreateInfo)
  (stage : VkPipelineShaderStageCreateInfo)
  : result (gmap Z nat * list VkPipelineShaderStageCreateInfo) :=
  name ← copy_name (pName stage);
  spec ← copy_specialization_info (pSpecializationInfo stage);
  let '(index, modules) := index_of (module stage) (fst st) in
  Ok (modules,
      snd st ++ [{| st_flags := st_flags stage; st_stage := st_stage stage;
                    module := index_plus_one index; pName := name;
                    pSpecializationInfo := spec |}]).

(** [copy_graphics_pipeline], lines 1149-1191. Each of the state pointers
    goes through [copy(p, 1)] ([pVertexInputState] twice); the viewport and
    scissor arrays are not copied. *)
Definition copy_graphics_pipeline (create_info : VkGraphicsPipelineCreateInfo)
  (r : StateRecorder) : result (VkGraphicsPipelineCreateInfo * StateRecorder) :=
  stages ← copy (pStages create_info) (stageCount create_info);
  tess ← copy_one (pTessellationState create_info);
  blend ← copy_one (pColorBlendState create_info);
  _ ← copy_one (pVertexInputState create_info);
  ms ← copy_one (pMultisampleState create_info);
  vs ← copy_one (pVertexInputState create_info);
  vp ← copy_one (pViewportState create_info);
  ia ← copy_one (pInputAssemblyState create_info);
  ds ← copy_one (pDepthStencilState create_info);
  rs ← copy_one (pRasterizationState create_info);
  dyn ← copy_one (pDynamicState create_info);
  let '(pass_index, passes) := index_of (renderPass create_info) (render_pass_to_index r) in
  let r := with_render_pass_to_index passes r in
  let '(base, r) :=
    if negb (basePipelineHandle create_info =? VK_NULL_HANDLE) then
      let '(index, pipelines) :=
        index_of (basePipelineHandle create_info) (graphics_pipeline_to_index r) in
      (index_plus_one index, with_graphics_pipeline_to_index pipelines r)
    else (basePipelineHandle create_info, r) in
  '(modules, stages) ← foldM copy_stage (shader_module_to_index r, []) stages;
  let r := with_shader_module_to_index modules r in
  attachments ← copy (cb_pAttachments blend) (cb_attachmentCount blend);
  attributes ← copy (pVertexAttributeDescriptions vs) (vertexAttributeDescriptionCount vs);
  bindings ← copy (pVertexBindingDescriptions vs) (vertexBindingDescriptionCount vs);
  mask ← match pSampleMask ms with
         | Some p => Some <$> copy p ((rasterizationSamples ms + 31) / 32)
         | None => Ok None
         end;
  dynamics ← copy (pDynamicStates dyn) (dynamicStateCount dyn);
  Ok ({| gp_flags := gp_flags create_info;
         stageCount := stageCount create_info; pStages := stages;
         pVertexInputState :=
           Some {| vi_flags := vi_flags vs;
                   vertexBindingDescriptionCount := vertexBindingDescriptionCount vs;
                   pVertexBindingDescriptions := bindings;
                   vertexAttributeDescriptionCount := vertexAttributeDescriptionCount vs;
                   pVertexAttributeDescriptions := attributes |};
         pInputAssemblyState := Some ia;
         pTessellationState := Some tess;
         pViewportState := Some vp;
         pRasterizationState := Some rs;
         pMultisampleState :=
           Some {| ms_flags := ms_flags ms; rasterizationSamples := rasterizationSamples ms;
                   sampleShadingEnable := sampleShadingEnable ms;
                   minSampleShading := minSampleShading ms; pSampleMask := mask;
                   alphaToCoverageEnable := alphaToCoverageEnable ms;
                   alphaToOneEnable := alphaToOneEnable ms |};
         pDepthStencilState := Some ds;
         pColorBlendState :=
           Some {| cb_flags := cb_flags blend; logicOpEnable := logicOpEnable blend;
                   logicOp := logicOp blend; cb_attachmentCount := cb_attachmentCount blend;
                   cb_pAttachments := attachments; blendConstants := blendConstants blend |};
         pDynamicState :=
           Some {| dyn_flags := dyn_flags dyn; dynamicStateCount := dynamicStateCount dyn;
                   pDynamicStates := dynamics |};
         gp_layout := gp_layout create_info;
         renderPass := index_plus_one pass_index;
         subpass := subpass create_info;
         basePipelineHandle := base;
         basePipelineIndex := basePipelineIndex create_info |}, r).

(** [register_graphics_pipeline], lines 993-998. *)
Definition register_graphics_pipeline (hash : Hash) (create_info : VkGraphicsPipelineCreateInfo)
  (r : StateRecorder) : result (nat * StateRecorder) :=
  let index := next_index (graphics_pipelines r) in
  '(info, r) ← copy_graphics_pipeline create_info r;
  Ok (index, with_graphics_pipelines (graphics_pipelines r ++ [(hash, info)]) r).

End Copying.

(** A graphics pipeline with one stage and all nine state blocks. *)
Definition full_pipeline : VkGraphicsPipelineCreateInfo :=
  {| gp_flags := 0; stageCount := 1;
     pStages := [{| st_flags := 0; st_stage := 1; module := 6001; pName := "main";
                    pSpecializationInfo :=
                      Some {| mapEntryCount := 0; pMapEntries := [];
                              dataSize := 0; pData := [] |} |}];
     pVertexInputState :=
       Some {| vi_flags := 0; vertexBindingDescriptionCount := 0;
               pVertexBindingDescriptions := []; vertexAttributeDescriptionCount := 0;
               pVertexAttributeDescriptions := [] |};
     pInputAssemblyState := Some {| ia_flags := 0; topology := 3; primitiveRestartEnable := 0 |};
     pTessellationState := Some {| ts_flags := 0; patchControlPoints := 0 |};
     pViewportState :=
       Some {| vps_flags := 0; viewportCount := 0; pViewports := None;
               scissorCount := 0; pScissors := None |};
     pRasterizationState :=
       Some {| rs_flags := 0; depthClampEnable := 0; rasterizerDiscardEnable := 0;
               polygonMode := 0; cullMode := 0; frontFace := 0; depthBiasEnable := 0;
               depthBiasConstantFactor := 0; depthBiasClamp := 0;
               depthBiasSlopeFactor := 0; lineWidth := 1065353216 |};
     pMultisampleState :=
       Some {| ms_flags := 0; rasterizationSamples := 1; sampleShadingEnable := 0;
               minSampleShading := 0; pSampleMask := None; alphaToCoverageEnable := 0;
               alphaToOneEnable := 0 |};
     pDepthStencilState :=
       Some {| ds_flags := 0; depthTestEnable := 0; depthWriteEnable := 0;
               depthCompareOp := 0; depthBoundsTestEnable := 0; stencilTestEnable := 0;
               front := {| failOp := 0; passOp := 0; depthFailOp := 0; compareOp := 0;
                           compareMask := 0; writeMask := 0; reference := 0 |};
               back := {| failOp := 0; passOp := 0; depthFailOp := 0; compareOp := 0;
                          compareMask := 0; writeMask := 0; reference := 0 |};
               minDepthBounds := 0; maxDepthBounds := 0 |};
     pColorBlendState :=
       Some {| cb_flags := 0; logicOpEnable := 0; logicOp := 0; cb_attachmentCount := 0;
               cb_pAttachments := []; blendConstants := (0, 0, 0, 0) |};
     pDynamicState := Some {| dyn_flags := 0; dynamicStateCount := 0; pDynamicStates := [] |};
     gp_layout := 5001; renderPass := 7001; subpass := 0;
     basePipelineHandle := 0; basePipelineIndex := 0 |}.

End Recording.

(** * What a reference in the document stands for *)

Module References.

(** The handle a reference [index] of the document names among the
    handles replayed so far: 0 is the null handle, [index] names slot
    [index - 1]. *)
Definition resolved (replayed_handles : list Z) (index : Z) : Z :=
  if 0 <? index then default VK_NULL_HANDLE (replayed_handles !! Z.to_nat (index - 1))
  else VK_NULL_HANDLE.

(** The 32-bit and 64-bit unsigned ranges. *)
Definition is_u32 (z : Z) : Prop := 0 <= z < 2 ^ 32.
Definition is_u64 (z : Z) : Prop := 0 <= z < 2 ^ 64.

(** A pipeline layout whose counts are the lengths of its arrays and whose
    fields fit their types. *)
Definition well_formed_pipeline_layout (info : VkPipelineLayoutCreateInfo) : Prop :=
  is_u32 (pl_flags info)
  /\ setLayoutCount info = Z.of_nat (length (pSetLayouts info))
  /\ pushConstantRangeCount info = Z.of_nat (length (pPushConstantRanges info))
  /\ Forall is_u32 (pSetLayouts info)
  /\ Forall (fun range => is_u32 (pc_stageFlags range) /\ is_u32 (pc_offset range)
                          /\ is_u32 (pc_size range)) (pPushConstantRanges info).

End References.

(** * Hashing of the other entity kinds
      ([vulkan_pipeline_cache.cpp], lines 18-69 and 396-516) *)

Module EntityHashing.
Import Hashing.

(** Lines 18-42. *)
Definition descriptor_set_layout_tokens (recorder : StateRecorder)
  (layout : VkDescriptorSetLayoutCreateInfo) : result (list Token) :=
  bindings ← for_range (bindingCount layout) (fun i =>
    binding ← read (pBindings layout) i;
    immutable ←
      match pImmutableSamplers binding with
      | Some p =>
          if (descriptorType binding =? VK_DESCRIPTOR_TYPE_COMBINED_IMAGE_SAMPLER)
             || (descriptorType binding =? VK_DESCRIPTOR_TYPE_SAMPLER)
          then for_range (descriptorCount binding) (fun j =>
                 s ← read p j;
                 hash ← get_hash_for_sampler recorder s;
                 Ok [h_u64 hash])
          else Ok []
      | None => Ok []
      end;
    Ok ([h_u32 (b_binding binding); h_u32 (descriptorCount binding);
         h_u32 (descriptorType binding); h_u32 (b_stageFlags binding)] ++ immutable));
  Ok ([h_u32 (bindingCount layout); h_u32 (dsl_flags layout)] ++ bindings).

(** A binding without the sampler array that line 32 does not look at:
    the array of a binding whose type is neither [SAMPLER] nor
    [COMBINED_IMAGE_SAMPLER]. *)
Definition without_unused_samplers (binding : VkDescriptorSetLayoutBinding)
  : VkDescriptorSetLayoutBinding :=
  if (descriptorType binding =? VK_DESCRIPTOR_TYPE_COMBINED_IMAGE_SAMPLER)
     || (descriptorType binding =? VK_DESCRIPTOR_TYPE_SAMPLER)
  then binding
  else {| b_binding := b_binding binding; descriptorType := descriptorType binding;
          descriptorCount := descriptorCount binding; b_stageFlags := b_stageFlags binding;
          pImmutableSamplers := None |}.

(** One round of the loop of lines 49-55. *)
Definition hash_set_layout (recorder : StateRecorder) (layout : Z) : result (list Token) :=
  if negb (layout =? VK_NULL_HANDLE) then
    hash ← get_hash_for_descriptor_set_layout recorder layout;
    Ok [h_u64 hash]
  else Ok [h_u32 0].

(** One round of the loop of lines 58-64. *)
Definition hash_push_constant_range (push : VkPushConstantRange) : list Token :=
  [h_u32 (pc_stageFlags push); h_u32 (pc_size push); h_u32 (pc_offset push)].

(** Lines 44-69. *)
Definition pipeline_layout_tokens (recorder : StateRecorder)
  (layout : VkPipelineLayoutCreateInfo) : result (list Token) :=
  sets ← for_range (setLayoutCount layout) (fun i =>
    l ← read (pSetLayouts layout) i;
    hash_set_layout recorder l);
  pushes ← for_range (pushConstantRangeCount layout) (fun i =>
    push ← read (pPushConstantRanges layout) i;
    Ok (hash_push_constant_range push));
  Ok ([h_u32 (setLayoutCount layout)] ++ sets
      ++ [h_u32 (pushConstantRangeCount layout)] ++ pushes
      ++ [h_u32 (pl_flags layout)]).

(** Lines 396-422. *)
Definition compute_pipeline_tokens (recorder : StateRecorder)
  (create_info : VkComputePipelineCreateInfo) : result (list Token) :=
  l ← get_hash_for_pipeline_layout recorder (cp_layout create_info);
  base ← (if negb (cp_basePipelineHandle create_info =? VK_NULL_HANDLE) then
            b ← get_hash_for_compute_pipeline_handle recorder
                  (cp_basePipelineHandle create_info);
            Ok [h_u64 b; h_s32 (cp_basePipelineIndex create_info)]
          else Ok [h_u32 0]);
  m ← get_hash_for_shader_module recorder (module (cp_stage create_info));
  spec ← match pSpecializationInfo (cp_stage create_info) with
         | Some info => hash_specialization_info info
         | None => Ok [h_u32 0]
         end;
  Ok ([h_u64 l; h_u32 (cp_flags create_info)] ++ base
      ++ [h_u64 m; h_string (pName (cp_stage create_info));
          h_u32 (st_flags (cp_stage create_info)); h_u32 (st_stage (cp_stage create_info))]
      ++ spec).

(** Lines 424-435. *)
Definition hash_attachment (att : VkAttachmentDescription) : list Token :=
  [h_u32 (att_flags att); h_u32 (initialLayout att); h_u32 (finalLayout att);
   h_u32 (att_format att); h_u32 (loadOp att); h_u32 (storeOp att);
   h_u32 (stencilLoadOp att); h_u32 (stencilStoreOp att); h_u32 (samples att)].

(** Lines 437-446. *)
Definition hash_dependency (dep : VkSubpassDependency) : list Token :=
  [h_u32 (dependencyFlags dep); h_u32 (dstAccessMask dep); h_u32 (srcAccessMask dep);
   h_u32 (srcSubpass dep); h_u32 (dstSubpass dep);
   h_u32 (srcStageMask dep); h_u32 (dstStageMask dep)].

Definition hash_attachment_reference (r : VkAttachmentReference) : list Token :=
  [h_u32 (attachment r); h_u32 (ref_layout r)].

(** Lines 448-487. A null array pointer is read only when its count is
    not 0. *)
Definition hash_subpass (subpass : VkSubpassDescription) : result (list Token) :=
  preserves ← for_range (preserveAttachmentCount subpass) (fun i =>
    a ← read (default [] (pPreserveAttachments subpass)) i;
    Ok [h_u32 a]);
  colors ← for_range (colorAttachmentCount subpass) (fun i =>
    c ← read (default [] (pColorAttachments subpass)) i;
    Ok (hash_attachment_reference c));
  inputs ← for_range (inputAttachmentCount subpass) (fun i =>
    a ← read (default [] (pInputAttachments subpass)) i;
    Ok (hash_attachment_reference a));
  resolves ← match pResolveAttachments subpass with
             | Some p => for_range (colorAttachmentCount subpass) (fun i =>
                           a ← read p i;
                           Ok (hash_attachment_reference a))
             | None => Ok []
             end;
  let depth_stencil :=
    match pDepthStencilAttachment subpass with
    | Some d => hash_attachment_reference d
    | None => [h_u32 0]
    end in
  Ok ([h_u32 (sp_flags subpass); h_u32 (colorAttachmentCount subpass);
       h_u32 (inputAttachmentCount subpass); h_u32 (preserveAttachmentCount subpass);
       h_u32 (pipelineBindPoint subpass)]
      ++ preserves ++ colors ++ inputs ++ resolves ++ depth_stencil).

(** Lines 489-516. *)
Definition render_pass_tokens (create_info : VkRenderPassCreateInfo) : result (list Token) :=
  attachments ← for_range (attachmentCount create_info) (fun i =>
    att ← read (pAttachments create_info) i;
    Ok (hash_attachment att));
  dependencies ← for_range (dependencyCount create_info) (fun i =>
    dep ← read (pDependencies create_info) i;
    Ok (hash_dependency dep));
  subpasses ← for_range (subpassCount create_info) (fun i =>
    subpass ← read (pSubpasses create_info) i;
    hash_subpass subpass);
  Ok ([h_u32 (attachmentCount create_info); h_u32 (dependencyCount create_info);
       h_u32 (subpassCount create_info)]
      ++ attachments ++ dependencies ++ subpasses).

(** What one set layout contributes, as far as the hash can tell. *)
Definition set_layout_key (recorder : StateRecorder) (layout : Z) : result (option Hash) :=
  if negb (layout =? VK_NULL_HANDLE)
  then Some <$> get_hash_for_descriptor_set_layout recorder layout
  else Ok None.

Section Hasher.

(** The [Hasher] as in [Hashing]: [get] is a function of the tokens fed. *)
Variable Digest : Type.
Variable Hasher_get : list Token -> Digest.

Definition compute_hash_descriptor_set_layout (recorder : StateRecorder)
  (layout : VkDescriptorSetLayoutCreateInfo) : result Digest :=
  Hasher_get <$> descriptor_set_layout_tokens recorder layout.

Definition compute_hash_pipeline_layout (recorder : StateRecorder)
  (layout : VkPipelineLayoutCreateInfo) : result Digest :=
  Hasher_get <$> pipeline_layout_tokens recorder layout.

Definition compute_hash_compute_pipeline (recorder : StateRecorder)
  (create_info : VkComputePipelineCreateInfo) : result Digest :=
  Hasher_get <$> compute_pipeline_tokens recorder create_info.

Definition compute_hash_render_pass (_ : StateRecorder)
  (create_info : VkRenderPassCreateInfo) : result Digest :=
  Hasher_get <$> render_pass_tokens create_info.

End Hasher.

(** The two-subpass render passes compared below. The first has a colour
    attachment and a depth-stencil attachment in its first subpass; the
    second has the same reference as resolve attachment instead. *)
Definition plain_subpass (flags bind_point : Z) (color : VkAttachmentReference)
  (resolve : option (list VkAttachmentReference))
  (depth_stencil : option VkAttachmentReference) : VkSubpassDescription :=
  {| sp_flags := flags; pipelineBindPoint := bind_point;
     inputAttachmentCount := 0; pInputAttachments := None;
     colorAttachmentCount := 1; pColorAttachments := Some [color];
     pResolveAttachments := resolve; pDepthStencilAttachment := depth_stencil;
     preserveAttachmentCount := 0; pPreserveAttachments := None |}.

Definition empty_subpass (bind_point : Z) (depth_stencil : option VkAttachmentReference)
  : VkSubpassDescription :=
  {| sp_flags := 0; pipelineBindPoint := bind_point;
     inputAttachmentCount := 0; pInputAttachments := None;
     colorAttachmentCount := 0; pColorAttachments := None;
     pResolveAttachments := None; pDepthStencilAttachment := depth_stencil;
     preserveAttachmentCount := 0; pPreserveAttachments := None |}.

Definition two_subpasses (first second : VkSubpassDescription) : VkRenderPassCreateInfo :=
  {| rp_flags := 0; attachmentCount := 0; pAttachments := [];
     subpassCount := 2; pSubpasses := [first; second];
     dependencyCount := 0; pDependencies := [] |}.

Definition depth_stencil_pass (flags bind_point : Z) (color ref : VkAttachmentReference)
  (a : Z) : VkRenderPassCreateInfo :=
  two_subpasses (plain_subpass flags bind_point color None (Some ref))
                (empty_subpass 0 (Some {| attachment := a; ref_layout := 0 |})).

Definition resolve_pass (flags bind_point : Z) (color ref : VkAttachmentReference)
  (a : Z) : VkRenderPassCreateInfo :=
  two_subpasses (plain_subpass flags bind_point color (Some [ref]) None)
                (empty_subpass a None).

(** A recorder in which two handles name the one descriptor set layout
    registered (hash 42), and a pipeline layout over one set layout. *)
Definition twice_named_recorder : StateRecorder :=
  Recording.set_descriptor_set_layout_handle 0 4001
    (Recording.set_descriptor_set_layout_handle 0 4002
       (Recording.with_descriptor_sets
          [(42, {| dsl_flags := 0; bindingCount := 0; pBindings := [] |})]
          Scenarios.small_recorder)).

Definition one_set_layout (layout : Z) : VkPipelineLayoutCreateInfo :=
  {| pl_flags := 0; setLayoutCount := 1; pSetLayouts := [layout];
     pushConstantRangeCount := 1;
     pPushConstantRanges := [{| pc_stageFlags := 1; pc_offset := 0; pc_size := 16 |}] |}.

End EntityHashing.

(** * The document [serialize] writes, as [parse] sees it *)

Module Documents.

(** The seven members [StateRecorder::serialize] adds to the document, in
    the order of its [AddMember] calls. *)
Definition document (samplers pipeline_layouts shader_modules compute_pipelines
  graphics_pipelines : list Value) : Value :=
  Obj [("samplers", Arr samplers);
       ("setLayouts", Arr []);
       ("pipelineLayouts", Arr pipeline_layouts);
       ("shaderModules", Arr shader_modules);
       ("renderPasses", Arr []);
       ("computePipelines", Arr compute_pipelines);
       ("graphicsPipelines", Arr graphics_pipelines)]%string.

(** A step of the replayer that did not come back with a value. *)
Definition failed {A} (x : result A * Replayer.State) : Prop :=
  forall a, fst x <> Ok a.

(** The five members [StateReplayer::parse] looks for. *)
Definition parsed_members : list string :=
  ["shaderModules"; "samplers"; "descriptorSetLayouts"; "pipelineLayouts";
   "renderPasses"]%string.

End Documents.

(** * Properties *)

(** ** ScratchAllocator *)

Module ScratchAllocatorFacts.
Import ScratchAllocator.

Lemma last_add_block blocks n :
  last (add_block blocks n) = Some (Block_new (if n <? 64 * 1024 then 64 * 1024 else n)).
Proof. unfold add_block. by rewrite last_snoc. Qed.

Lemma add_block_not_nil blocks n : add_block blocks n <> [].
Proof. unfold add_block. by destruct blocks. Qed.

(** With [~alignment] as the mask, rounding offset 0 up for a power-of-two
    alignment [2^k], [k >= 1], gives [2^k - 1] rather than 0. *)
Lemma mask_of_fresh_offset k :
  1 <= k < 64 ->
  Z.land (wrap64 (0 + 2 ^ k - 1)) (size_t_not (2 ^ k)) = 2 ^ k - 1.
Proof.
  intros Hk. unfold wrap64, size_t_not.
  assert (Hlt : 2 ^ k < 2 ^ 64) by (apply Z.pow_lt_mono_r; lia).
  assert (Hpos : 0 < 2 ^ k) by (apply Z.pow_pos_nonneg; lia).
  rewrite Z.mod_small by lia.
  assert (Hones : 2 ^ k - 1 = Z.ones k) by (rewrite Z.ones_equiv; lia).
  replace (0 + 2 ^ k - 1) with (2 ^ k - 1) by lia.
  assert (Hmask : 2 ^ 64 - 1 - 2 ^ k = Z.ldiff (Z.ones 64) (2 ^ k)).
  { rewrite <- Z.sub_nocarry_ldiff.
    - rewrite Z.ones_equiv. lia.
    - apply Z.bits_inj'. intros n Hn.
      rewrite Z.ldiff_spec, Z.bits_0.
      destruct (Z.eq_dec n k) as [-> | Hne].
      + rewrite Z.ones_spec_low by lia. rewrite Z.pow2_bits_true by lia. reflexivity.
      + rewrite Z.pow2_bits_false by lia. reflexivity. }
  rewrite Hmask, Hones.
  apply Z.bits_inj'. intros n Hn.
  rewrite Z.land_spec, Z.ldiff_spec.
  destruct (Z.lt_ge_cases n k) as [Hnk | Hnk].
  - rewrite !Z.ones_spec_low by lia.
    rewrite Z.pow2_bits_false by lia. reflexivity.
  - rewrite (Z.ones_spec_high k n) by lia. reflexivity.
Qed.

(** Once the newest block is fresh, a request with a power-of-two alignment
    of at least 2 is never served: every round adds one more fresh block. *)
Lemma allocate_raw_fresh_block_loops k sz fuel blocks b :
  1 <= k < 64 -> 0 < sz -> sz + 2 ^ k < 2 ^ 64 ->
  last blocks = Some b -> blob b = true -> offset b = 0 ->
  allocate_raw fuel blocks sz (2 ^ k) = None.
Proof.
  intros Hk Hsz Hfit. revert blocks b.
  induction fuel as [| fuel IH]; intros blocks b Hlast Hblob Hoff; [reflexivity |].
  cbn [allocate_raw].
  assert (Hne : blocks <> []) by (intros ->; discriminate).
  destruct blocks as [| b0 blocks']; [congruence |].
  rewrite Hlast, Hblob. cbn [negb].
  rewrite Hoff, mask_of_fresh_offset by lia.
  assert (Hpos : 0 < 2 ^ k) by (apply Z.pow_pos_nonneg; lia).
  assert (H2 : 2 <= 2 ^ k).
  { change 2 with (2 ^ 1) at 1. apply Z.pow_le_mono_r; lia. }
  unfold wrap64 at 1. rewrite Z.mod_small by lia.
  destruct (Z.leb_spec (2 ^ k - 1 + sz) sz) as [Hle | Hgt]; [lia |].
  eapply IH.
  - apply last_add_block.
  - reflexivity.
  - reflexivity.
Qed.

Lemma allocate_raw_on_empty_loops k sz fuel :
  1 <= k < 64 -> 0 < sz -> sz + 2 ^ k < 2 ^ 64 ->
  allocate_raw fuel [] sz (2 ^ k) = None.
Proof.
  intros Hk Hsz Hfit. destruct fuel as [| fuel]; [reflexivity |].
  cbn [allocate_raw].
  rewrite last_add_block. cbn [blob Block_new negb offset].
  rewrite mask_of_fresh_offset by lia.
  assert (Hpos : 0 < 2 ^ k) by (apply Z.pow_pos_nonneg; lia).
  assert (H2 : 2 <= 2 ^ k).
  { change 2 with (2 ^ 1) at 1. apply Z.pow_le_mono_r; lia. }
  unfold wrap64 at 1. rewrite Z.mod_small by lia.
  destruct (Z.leb_spec (2 ^ k - 1 + sz) sz) as [Hle | Hgt]; [lia |].
  eapply allocate_raw_fresh_block_loops; try lia.
  - apply last_add_block.
  - reflexivity.
  - reflexivity.
Qed.

(** C10. On a new allocator, [allocate_raw(4, 4)] does not come back: with
    any bound on the recursion depth the bound is reached. For alignment 1
    the first request of 8 bytes is served from a new 64 KiB block, and the
    second request of 8 bytes, which would fit behind it, gets a block of
    its own. *)
Theorem allocate_raw_aligned_request_never_returns :
  (forall fuel, allocate_raw fuel [] 4 4 = None) /\
  allocate_raw 2 [] 8 1
    = Some (address 0 0, [{| blob := true; offset := 8; size := 65536 |}]) /\
  allocate_raw 2 [{| blob := true; offset := 8; size := 65536 |}] 8 1
    = Some (address 1 0, [{| blob := true; offset := 8; size := 65536 |};
                          {| blob := true; offset := 8; size := 65536 |}]).
Proof.
  split; [| split].
  - intros fuel. apply (allocate_raw_on_empty_loops 2 4 fuel); lia.
  - vm_compute. reflexivity.
  - vm_compute. reflexivity.
Qed.

End ScratchAllocatorFacts.

(** ** The supervisor *)

Module SupervisorFacts.
Import Supervisor Scenarios.


(** The blacklist only grows while messages are handled. *)
Lemma parse_blacklist_grows new_timer cmd st :
  faulty_spirv_modules (snd st) ⊆ faulty_spirv_modules (snd (parse new_timer cmd st)).
Proof.
  destruct st as [p g]. unfold parse.
  repeat (match goal with |- context [if ?b then _ else _] => destruct b end);
    cbn; set_solver.
Qed.

Lemma process_once_blacklist_grows new_timer rd kick_ok st :
  faulty_spirv_modules (snd st)
  ⊆ faulty_spirv_modules (snd (snd (process_once new_timer rd kick_ok st))).
Proof.
  unfold process_once.
  destruct (crash_file_handle (fst st)); [| done].
  destruct rd as [| msg]; [done |].
  destruct (_ <? _); [| done].
  cbn [snd]. apply parse_blacklist_grows.
Qed.

Lemma flush_messages_blacklist_grows new_timer pending st :
  faulty_spirv_modules (snd st)
  ⊆ faulty_spirv_modules (snd (flush_messages new_timer pending st)).
Proof.
  revert st. induction pending as [| msg rest IH]; intros st; cbn [flush_messages].
  - apply process_once_blacklist_grows.
  - pose proof (process_once_blacklist_grows new_timer (ReadDone msg) true st) as H1.
    destruct (process_once new_timer (ReadDone msg) true st) as [more st'].
    cbn [snd] in H1. destruct more.
    + etrans; [exact H1 | apply IH].
    + exact H1.
Qed.

Lemma process_shutdown_unfold new_timer pending code st h :
  process (fst (flush_messages new_timer pending st)) = Some h ->
  process_shutdown new_timer pending (ExitCode code) st
  = let st1 := flush_messages new_timer pending st in
    after_reap code (set_process None (close_handles (fst st1)),
                     set_active_processes (wrap32 (active_processes (snd st1) - 1)) (snd st1)).
Proof.
  intros Hp. unfold process_shutdown.
  destruct (flush_messages new_timer pending st) as [p g]. cbn [fst snd] in *.
  cbn [close_handles process]. rewrite Hp. reflexivity.
Qed.

(** Handling messages never touches the process handle or the range ends. *)
Lemma parse_keeps_process new_timer cmd st :
  process (fst (parse new_timer cmd st)) = process (fst st)
  /\ end_graphics_index (fst (parse new_timer cmd st)) = end_graphics_index (fst st)
  /\ end_compute_index (fst (parse new_timer cmd st)) = end_compute_index (fst st).
Proof.
  destruct st as [p g]. unfold parse.
  repeat (match goal with |- context [if ?b then _ else _] => destruct b end);
    cbn; auto.
Qed.

Lemma flush_messages_keeps_process new_timer pending st :
  process (fst (flush_messages new_timer pending st)) = process (fst st)
  /\ end_graphics_index (fst (flush_messages new_timer pending st)) = end_graphics_index (fst st)
  /\ end_compute_index (fst (flush_messages new_timer pending st)) = end_compute_index (fst st).
Proof.
  revert st. induction pending as [| msg rest IH]; intros st; cbn [flush_messages].
  - unfold process_once. destruct (crash_file_handle (fst st)); cbn; auto.
  - unfold process_once. destruct (crash_file_handle (fst st)); cbn; auto.
    destruct (_ <? _); cbn; auto.
    destruct (IH (parse new_timer msg st)) as (H1 & H2 & H3).
    destruct (parse_keeps_process new_timer msg st) as (K1 & K2 & K3).
    rewrite H1, H2, H3. auto.
Qed.

Lemma after_reap_clean_exit st : after_reap 0 st = (false, st).
Proof. by destruct st. Qed.

Lemma after_reap_without_progress code p g :
  code <> 0 -> graphics_progress p < 0 \/ compute_progress p < 0 ->
  after_reap code (p, g) = (false, (p, add_dirty_process_death g)).
Proof.
  intros Hcode Hneg. unfold after_reap.
  destruct (Z.eqb_spec code 0) as [| _]; [contradiction |].
  replace ((graphics_progress p <? 0) || (compute_progress p <? 0)) with true; [done |].
  symmetry. apply orb_true_iff. destruct Hneg; [left | right]; by apply Z.ltb_lt.
Qed.

Lemma after_reap_with_progress code p g :
  code <> 0 -> 0 <= graphics_progress p < 2 ^ 32 -> 0 <= compute_progress p < 2 ^ 32 ->
  after_reap code (p, g)
  = (negb ((end_graphics_index p <=? graphics_progress p)
           && (end_compute_index p <=? compute_progress p)),
     (set_start (graphics_progress p) (compute_progress p) p, add_clean_process_death g)).
Proof.
  intros Hcode Hg Hc. unfold after_reap.
  destruct (Z.eqb_spec code 0) as [| _]; [contradiction |].
  replace ((graphics_progress p <? 0) || (compute_progress p <? 0)) with false
    by (symmetry; apply orb_false_iff; split; apply Z.ltb_ge; lia).
  replace (wrap32 (graphics_progress p)) with (graphics_progress p)
    by (unfold wrap32; rewrite Z.mod_small; lia).
  replace (wrap32 (compute_progress p)) with (compute_progress p)
    by (unfold wrap32; rewrite Z.mod_small; lia).
  destruct p; cbn [set_start end_graphics_index end_compute_index
                   start_graphics_index start_compute_index].
  by destruct (_ && _).
Qed.

Lemma start_child_process_launches os p g :
  ~ (end_graphics_index p <= start_graphics_index p
     /\ end_compute_index p <= start_compute_index p) ->
  os <> CreateFailed ->
  snd (start_child_process os (p, g))
  = Some {| graphics_pipeline_range := (start_graphics_index p, end_graphics_index p);
            compute_pipeline_range := (start_compute_index p, end_compute_index p);
            ignored_modules := faulty_spirv_modules g |}
  /\ is_Some (process (fst (snd (fst (start_child_process os (p, g)))))).
Proof.
  intros Hrem Hos. unfold start_child_process.
  destruct p; cbn [reset_progress set_graphics_progress set_compute_progress
                   end_graphics_index end_compute_index
                   start_graphics_index start_compute_index] in *.
  match goal with
  | |- context [if ?b then _ else _] =>
      replace b with false
        by (symmetry; apply andb_false_iff;
            destruct (Z.leb_spec end_graphics_index0 start_graphics_index0);
            destruct (Z.leb_spec end_compute_index0 start_compute_index0); auto;
            exfalso; apply Hrem; split; lia)
  end.
  destruct os; [congruence | | |]; cbn; eauto.
Qed.

Lemma start_child_process_resets_progress os st :
  graphics_progress (fst (snd (fst (start_child_process os st)))) = -1
  /\ compute_progress (fst (snd (fst (start_child_process os st)))) = -1.
Proof.
  destruct st as [p g]. unfold start_child_process.
  destruct ((_ <=? _) && (_ <=? _)); [split; reflexivity |].
  destruct os; split; reflexivity.
Qed.

(** C7, as the code has it. A worker with process handle [h] has exited
    with [code]; [st1] is the supervisor's record of it once the messages
    still in the pipe have been handled, [gp] and [cp] the two progress
    values of that record (-1 as long as no marker of that kind has been
    read since the worker was started). The blacklist in [st1] contains the
    one before. Then: exit code 0 retires the worker (no launch, handle
    released, counters untouched); a non-zero code with the graphics or the
    compute marker missing launches nothing and, with a control block
    attached, adds one to [dirty_process_deaths]; a non-zero code with both
    markers read launches nothing when both remaining ranges are empty, and
    otherwise launches a worker over [gp, end_graphics) and
    [cp, end_compute) that is sent the blacklist of [st1] and whose record
    starts without markers again. *)
Theorem worker_exit_retires_drops_or_respawns
  (new_timer : option HANDLE) (pending : list string) (code : Z) (os : spawn_os)
  (st : ProcessProgress * Global) (h : HANDLE) :
  process (fst st) = Some h ->
  let st1 := flush_messages new_timer pending st in
  let gp := graphics_progress (fst st1) in
  let cp := compute_progress (fst st1) in
  let eg := end_graphics_index (fst st) in
  let ec := end_compute_index (fst st) in
  let res := on_process_exit new_timer pending (ExitCode code) os st in
  let ok := fst (fst res) in
  let st2 := snd (fst res) in
  let launch := snd res in
  faulty_spirv_modules (snd st) ⊆ faulty_spirv_modules (snd st1)
  /\ (code = 0 ->
        ok = true /\ launch = None /\ process (fst st2) = None
        /\ control_block (snd st2) = control_block (snd st1))
  /\ (code <> 0 -> gp < 0 \/ cp < 0 ->
        ok = true /\ launch = None /\ process (fst st2) = None
        /\ forall cb, control_block (snd st1) = Some cb ->
             exists cb', control_block (snd st2) = Some cb'
               /\ dirty_process_deaths cb' = wrap32 (dirty_process_deaths cb + 1))
  /\ (code <> 0 -> 0 <= gp < 2 ^ 32 -> 0 <= cp < 2 ^ 32 -> eg <= gp /\ ec <= cp ->
        ok = true /\ launch = None /\ process (fst st2) = None)
  /\ (code <> 0 -> 0 <= gp < 2 ^ 32 -> 0 <= cp < 2 ^ 32 -> ~ (eg <= gp /\ ec <= cp) ->
        os <> CreateFailed ->
        launch = Some {| graphics_pipeline_range := (gp, eg);
                         compute_pipeline_range := (cp, ec);
                         ignored_modules := faulty_spirv_modules (snd st1) |}
        /\ is_Some (process (fst st2))
        /\ graphics_progress (fst st2) = -1 /\ compute_progress (fst st2) = -1).
Proof.
  intros Hproc st1 gp cp eg ec res ok st2 launch.
  destruct (flush_messages_keeps_process new_timer pending st) as (Kp & Kg & Kc).
  fold st1 in Kp, Kg, Kc.
  assert (Hres : res = let '(again, s) :=
                         after_reap code
                           (set_process None (close_handles (fst st1)),
                            set_active_processes (wrap32 (active_processes (snd st1) - 1)) (snd st1)) in
                       if again then start_child_process os s else (true, s, None)).
  { subst res. unfold on_process_exit.
    rewrite (process_shutdown_unfold new_timer pending code st h) by (fold st1; congruence).
    reflexivity. }
  subst ok st2 launch. rewrite Hres. clear Hres res.
  set (p1 := set_process None (close_handles (fst st1))).
  set (g1 := set_active_processes (wrap32 (active_processes (snd st1) - 1)) (snd st1)).
  assert (Hgp : graphics_progress p1 = gp) by reflexivity.
  assert (Hcp : compute_progress p1 = cp) by reflexivity.
  assert (Heg : end_graphics_index p1 = eg) by (subst eg; rewrite <- Kg; reflexivity).
  assert (Hec : end_compute_index p1 = ec) by (subst ec; rewrite <- Kc; reflexivity).
  assert (Hp1 : process p1 = None) by reflexivity.
  assert (Hcb : control_block g1 = control_block (snd st1)) by reflexivity.
  assert (Hbl : faulty_spirv_modules g1 = faulty_spirv_modules (snd st1)) by reflexivity.
  clearbody p1 g1.
  split; [apply flush_messages_blacklist_grows |].
  split; [| split; [| split]].
  - intros ->. rewrite after_reap_clean_exit. cbn [fst snd]. auto.
  - intros Hcode Hneg.
    rewrite after_reap_without_progress by (rewrite ?Hgp, ?Hcp; done).
    cbn [fst snd]. repeat split; auto.
    intros cb Hcbv. unfold add_dirty_process_death. cbn [control_block].
    rewrite Hcb, Hcbv. eexists. split; reflexivity.
  - intros Hcode Hg Hc [Hge Hce].
    rewrite after_reap_with_progress by (rewrite ?Hgp, ?Hcp; done).
    rewrite Hgp, Hcp, Heg, Hec.
    replace ((eg <=? gp) && (ec <=? cp)) with true
      by (symmetry; apply andb_true_iff; split; apply Z.leb_le; lia).
    cbn [negb fst snd]. repeat split; auto.
  - intros Hcode Hg Hc Hrem Hos.
    rewrite after_reap_with_progress by (rewrite ?Hgp, ?Hcp; done).
    rewrite Hgp, Hcp, Heg, Hec.
    replace ((eg <=? gp) && (ec <=? cp)) with false
      by (symmetry; apply andb_false_iff;
          destruct (Z.leb_spec eg gp); destruct (Z.leb_spec ec cp); auto;
          exfalso; apply Hrem; split; lia).
    cbn [negb].
    pose proof (start_child_process_launches os (set_start gp cp p1)
                  (add_clean_process_death g1)) as Hl.
    pose proof (start_child_process_resets_progress os
                  (set_start gp cp p1, add_clean_process_death g1)) as [Rg Rc].
    assert (Hs : start_graphics_index (set_start gp cp p1) = gp
                 /\ start_compute_index (set_start gp cp p1) = cp
                 /\ end_graphics_index (set_start gp cp p1) = eg
                 /\ end_compute_index (set_start gp cp p1) = ec)
      by (destruct p1; cbn in *; auto).
    destruct Hs as (S1 & S2 & S3 & S4). rewrite S1, S2, S3, S4 in Hl.
    replace (faulty_spirv_modules (add_clean_process_death g1))
      with (faulty_spirv_modules (snd st1)) in Hl by (rewrite <- Hbl; reflexivity).
    destruct (Hl Hrem Hos) as [Hlaunch Hprocess].
    split; [exact Hlaunch |]. split; [exact Hprocess |]. split; [exact Rg | exact Rc].
Qed.

Lemma worker_exit_respawn_example :
  process (fst crashed_worker) = Some 1
  /\ snd (on_process_exit (Some 7) crash_report (ExitCode 2) (Started 4 5 6) crashed_worker)
     = Some {| graphics_pipeline_range := (1, 3);
               compute_pipeline_range := (0, 2);
               ignored_modules :=
                 faulty_spirv_modules
                   (snd (flush_messages (Some 7) crash_report crashed_worker)) |}
  /\ 3735928559 ∈ faulty_spirv_modules
                    (snd (flush_messages (Some 7) crash_report crashed_worker))
  /\ graphics_progress
       (fst (snd (fst (on_process_exit (Some 7) crash_report (ExitCode 2) (Started 4 5 6)
                         crashed_worker)))) = -1.
Proof.
  split; [reflexivity |].
  pose proof (worker_exit_retires_drops_or_respawns (Some 7) crash_report 2
                (Started 4 5 6) crashed_worker 1 eq_refl) as H.
  cbv zeta in H. destruct H as (_ & _ & _ & _ & H).
  destruct H as (Hlaunch & _ & Hreset & _).
  - lia.
  - vm_compute. split; [discriminate | reflexivity].
  - vm_compute. split; [discriminate | reflexivity].
  - vm_compute. intros [H1 _]. apply H1. reflexivity.
  - discriminate.
  - split; [exact Hlaunch |]. split; [vm_compute; set_solver | exact Hreset].
Defined.

(** C7 as stated fails for a worker whose progress has been observed for
    graphics only: its [GRAPHICS 1] message was read, graphics pipelines 1
    and 2 of its range are still to do, it exits with code 2, and it is not
    started again; the death is counted as a dirty one. *)
Lemma worker_with_graphics_marker_only_is_dropped :
  graphics_progress (fst (flush_messages (Some 7) graphics_only_report crashed_worker)) = 1
  /\ compute_progress (fst (flush_messages (Some 7) graphics_only_report crashed_worker)) = -1
  /\ end_graphics_index (fst crashed_worker) = 3
  /\ snd (on_process_exit (Some 7) graphics_only_report (ExitCode 2) (Started 4 5 6)
            crashed_worker) = None
  /\ process (fst (snd (fst (on_process_exit (Some 7) graphics_only_report (ExitCode 2)
                               (Started 4 5 6) crashed_worker)))) = None
  /\ (dirty_process_deaths
        <$> control_block
              (snd (snd (fst (on_process_exit (Some 7) graphics_only_report (ExitCode 2)
                                (Started 4 5 6) crashed_worker))))) = Some 1
  /\ (dirty_process_deaths <$> control_block (snd crashed_worker)) = Some 0.
Proof. vm_compute. repeat split. Qed.

Lemma digit_cases d : 0 <= d <= 9 ->
  d = 0 \/ d = 1 \/ d = 2 \/ d = 3 \/ d = 4 \/ d = 5 \/ d = 6 \/ d = 7 \/ d = 8 \/ d = 9.
Proof. lia. Qed.

Lemma digit_value_decimal d :
  0 <= d <= 9 -> digit_value (ascii_of_nat (48 + Z.to_nat d)) = Some d.
Proof.
  intros H. destruct (digit_cases d H) as [-> | [-> | [-> | [-> | [-> | [-> | [-> | [-> | [-> | ->]]]]]]]]];
    reflexivity.
Qed.

Lemma append_String c r s : (String c r ++ s)%string = String c (r ++ s)%string.
Proof. reflexivity. Qed.

Lemma scan_digits_numeral digits acc tail :
  Forall (fun d => 0 <= d <= 9) digits ->
  tail = EmptyString \/ tail = LF ->
  scan_digits 10 acc (decimal_string digits ++ tail)
  = fold_left (fun acc d => acc * 10 + d) digits acc.
Proof.
  intros H Htail. revert acc. induction H as [| d digits Hd _ IH]; intros acc.
  - destruct Htail as [-> | ->]; reflexivity.
  - cbn [decimal_string fold_left]. rewrite append_String. cbn [scan_digits].
    rewrite (digit_value_decimal d Hd).
    destruct (Z.ltb_spec d 10) as [_ | Hge]; [apply IH | lia].
Qed.

Lemma scan_digits_decimal digits acc :
  Forall (fun d => 0 <= d <= 9) digits ->
  scan_digits 10 acc (decimal_string digits ++ LF)
  = fold_left (fun acc d => acc * 10 + d) digits acc.
Proof. intros H. apply scan_digits_numeral; auto. Qed.

Lemma decimal_value_nonneg digits acc :
  Forall (fun d => 0 <= d <= 9) digits -> 0 <= acc ->
  0 <= fold_left (fun acc d => acc * 10 + d) digits acc.
Proof.
  intros H. revert acc. induction H as [| d digits Hd _ IH]; intros acc Hacc; [done |].
  cbn. apply IH. lia.
Qed.

Lemma leading_digit_cases d :
  1 <= d <= 9 ->
  In (ascii_of_nat (48 + Z.to_nat d))
     ["1"; "2"; "3"; "4"; "5"; "6"; "7"; "8"; "9"]%char.
Proof.
  intros H.
  assert (Hd : d = 1 \/ d = 2 \/ d = 3 \/ d = 4 \/ d = 5 \/ d = 6 \/ d = 7 \/ d = 8 \/ d = 9)
    by lia.
  destruct Hd as [-> | [-> | [-> | [-> | [-> | [-> | [-> | [-> | ->]]]]]]]]; cbn; tauto.
Qed.

(** [strtol] with base 0 on a blank followed by a digit from 1 to 9 scans
    in base 10 from that digit on. *)
Lemma strtol_blank_then_digit c rest :
  In c ["1"; "2"; "3"; "4"; "5"; "6"; "7"; "8"; "9"]%char ->
  strtol (String " " (String c rest)) 0 = Z.min (scan_digits 10 0 (String c rest)) LONG_MAX.
Proof.
  cbn [In].
  intros [<- | [<- | [<- | [<- | [<- | [<- | [<- | [<- | [<- | []]]]]]]]]]; reflexivity.
Qed.

(** A numeral that starts with a digit from 1 to 9 is scanned in base 10
    and clamped to [LONG_MAX]. *)
Lemma strtol_numeral d digits tail :
  1 <= d <= 9 -> Forall (fun d => 0 <= d <= 9) digits ->
  tail = EmptyString \/ tail = LF ->
  strtol (" " ++ decimal_string (d :: digits) ++ tail) 0
  = Z.min (decimal_value (d :: digits)) LONG_MAX.
Proof.
  intros Hd Hds Htail.
  assert (Hall : Forall (fun d => 0 <= d <= 9) (d :: digits)) by (constructor; [lia | done]).
  pose proof (scan_digits_numeral (d :: digits) 0 tail Hall Htail) as Hsd.
  fold (decimal_value (d :: digits)) in Hsd.
  cbn [decimal_string] in Hsd |- *. rewrite !append_String in *.
  change (EmptyString ++ ?x)%string with x.
  rewrite strtol_blank_then_digit by (apply leading_digit_cases; lia).
  by rewrite Hsd.
Qed.

Lemma strtol_decimal d digits :
  1 <= d <= 9 -> Forall (fun d => 0 <= d <= 9) digits ->
  decimal_value (d :: digits) < 2 ^ 31 ->
  strtol (" " ++ decimal_string (d :: digits) ++ LF) 0 = decimal_value (d :: digits).
Proof.
  intros Hd Hds Hval. rewrite strtol_numeral by auto. unfold LONG_MAX. lia.
Qed.

Lemma append_assoc_string (a b c : string) : ((a ++ b) ++ c = a ++ (b ++ c))%string.
Proof. induction a as [| x a IH]; [reflexivity |]. by rewrite !append_String, IH. Qed.

Lemma graphics_message_parsed new_timer tail st :
  parse new_timer ("GRAPHICS" ++ tail) st
  = (set_graphics_progress (strtol tail 0) (fst st), snd st).
Proof.
  destruct st as [p g]. unfold parse.
  replace (starts_with "CRASH" ("GRAPHICS" ++ tail)) with false by reflexivity.
  replace (starts_with "GRAPHICS" ("GRAPHICS" ++ tail)) with true
    by (unfold starts_with; rewrite !append_String; cbn; by destruct tail).
  reflexivity.
Qed.

Lemma compute_message_parsed new_timer tail st :
  parse new_timer ("COMPUTE" ++ tail) st
  = (set_compute_progress (strtol tail 0) (fst st), snd st).
Proof.
  destruct st as [p g]. unfold parse.
  replace (starts_with "CRASH" ("COMPUTE" ++ tail)) with false by reflexivity.
  replace (starts_with "GRAPHICS" ("COMPUTE" ++ tail)) with false by reflexivity.
  replace (starts_with "COMPUTE" ("COMPUTE" ++ tail)) with true
    by (unfold starts_with; rewrite !append_String; cbn; by destruct tail).
  reflexivity.
Qed.

(** The number [strtol(..., 0)] scans after the keyword, for a numeral
    without a leading zero and below [2^31], with or without the newline
    the worker ends its messages with. *)
Lemma strtol_progress_numeral digits tail :
  Forall (fun d => 0 <= d <= 9) digits ->
  no_leading_zero digits = true ->
  decimal_value digits < 2 ^ 31 ->
  tail = EmptyString \/ tail = LF ->
  strtol (" " ++ decimal_string digits ++ tail) 0 = decimal_value digits.
Proof.
  intros Hds Hnz Hval Htail.
  destruct digits as [| d rest]; [discriminate |].
  destruct (decide (d = 0)) as [-> | Hd].
  - destruct rest as [| x rest]; [| discriminate].
    destruct Htail as [-> | ->]; reflexivity.
  - inversion Hds as [| ? ? Hd09 Hrest]; subst.
    rewrite strtol_numeral by (auto; lia). unfold LONG_MAX. lia.
Qed.

(** C8, as the code has it. Whatever the supervisor's record of the worker
    holds and whatever timer a [CRASH] would arm, a message [GRAPHICS n]
    (and [COMPUTE n]), with or without the newline that ends what the worker
    writes, whose [n] is a decimal numeral without a leading zero (the
    single digit 0 included) below [2^31], sets the graphics (compute)
    progress of the record to the value of [n] and changes nothing else,
    neither in the record nor in the globals. *)
Theorem progress_numeral_without_leading_zero_is_recorded
  (new_timer : option HANDLE) (st : ProcessProgress * Global) (digits : list Z)
  (tail : string) :
  Forall (fun d => 0 <= d <= 9) digits ->
  no_leading_zero digits = true ->
  decimal_value digits < 2 ^ 31 ->
  tail = EmptyString \/ tail = LF ->
  parse new_timer ("GRAPHICS " ++ decimal_string digits ++ tail) st
  = (set_graphics_progress (decimal_value digits) (fst st), snd st)
  /\ parse new_timer ("COMPUTE " ++ decimal_string digits ++ tail) st
     = (set_compute_progress (decimal_value digits) (fst st), snd st).
Proof.
  intros Hds Hnz Hval Htail.
  pose proof (strtol_progress_numeral digits tail Hds Hnz Hval Htail) as Hscan.
  split.
  - change ("GRAPHICS " ++ decimal_string digits ++ tail)%string
      with ("GRAPHICS" ++ (" " ++ decimal_string digits ++ tail))%string.
    by rewrite graphics_message_parsed, Hscan.
  - change ("COMPUTE " ++ decimal_string digits ++ tail)%string
      with ("COMPUTE" ++ (" " ++ decimal_string digits ++ tail))%string.
    by rewrite compute_message_parsed, Hscan.
Qed.

(** The theorem at the record of a worker that has already reported
    graphics index 7 and compute index 3, for the message the worker writes
    at index 42. *)
Lemma progress_numeral_example :
  no_leading_zero [4; 2] = true
  /\ decimal_value [4; 2] = 42
  /\ parse (Some 7) ("GRAPHICS 42" ++ LF)
        (set_graphics_progress 7 (set_compute_progress 3 (fst crashed_worker)),
         snd crashed_worker)
     = (set_graphics_progress 42 (set_compute_progress 3 (fst crashed_worker)),
        snd crashed_worker)
  /\ parse (Some 7) ("COMPUTE 42" ++ LF)
        (set_graphics_progress 7 (set_compute_progress 3 (fst crashed_worker)),
         snd crashed_worker)
     = (set_compute_progress 42
          (set_graphics_progress 7 (set_compute_progress 3 (fst crashed_worker))),
        snd crashed_worker).
Proof.
  split; [reflexivity |]. split; [reflexivity |].
  apply (progress_numeral_without_leading_zero_is_recorded (Some 7)
           (set_graphics_progress 7 (set_compute_progress 3 (fst crashed_worker)),
            snd crashed_worker) [4; 2] LF).
  - repeat constructor; lia.
  - reflexivity.
  - reflexivity.
  - by right.
Defined.

(** C8 as stated fails on the numeral ["010"], whose decimal value is 10:
    the leading zero makes [strtol(..., 0)] read it as octal and 8 is
    recorded; ["08"] is recorded as 0 and ["0x10"] as 16. On a 32-bit [long]
    the [u32] numeral ["4294967295"] is recorded as 2147483647. *)
Lemma leading_zero_progress_is_read_as_octal :
  decimal_value [0; 1; 0] = 10
  /\ graphics_after ("GRAPHICS " ++ decimal_string [0; 1; 0]) = 8
  /\ graphics_after "GRAPHICS 010" <> 10
  /\ compute_after "COMPUTE 010" <> 10
  /\ graphics_after "GRAPHICS 08" = 0
  /\ graphics_after "GRAPHICS 0x10" = 16
  /\ graphics_after "GRAPHICS 4294967295" = 2147483647.
Proof. vm_compute. repeat split; discriminate. Qed.

End SupervisorFacts.

(** ** Loops over arrays *)

(** Reading [l[s]], ..., [l[s + n - 1]] succeeds exactly when the array is
    long enough, and then yields what each element contributes. *)
Lemma for_each_read_seq {A B} (f : A -> list B) (l : list A) (s n : nat) :
  for_each (fun i => x ← read l i; Ok (f x)) (seq s n)
  = if decide (s + n <= length l \/ n = 0)%nat
    then Ok (concat (map f (take n (drop s l))))
    else Fault.
Proof.
  revert s. induction n as [| n IH]; intros s; cbn [seq for_each].
  - rewrite decide_True by auto. reflexivity.
  - unfold read at 1. destruct (l !! s) as [x |] eqn:Hx; cbn.
    + rewrite IH. apply lookup_lt_Some in Hx as Hlt.
      rewrite (drop_S l x s Hx). cbn [take map concat].
      destruct (decide (s + S n <= length l \/ S n = 0)%nat) as [Hd | Hd].
      * rewrite decide_True by lia. reflexivity.
      * rewrite decide_False by lia. reflexivity.
    + apply lookup_ge_None in Hx. rewrite decide_False by lia. reflexivity.
Qed.

Lemma for_range_read {A B} (f : A -> list B) (l : list A) (n : Z) :
  for_range n (fun i => x ← read l i; Ok (f x))
  = if decide (Z.to_nat n <= length l)%nat
    then Ok (concat (map f (take (Z.to_nat n) l)))
    else Fault.
Proof.
  unfold for_range. rewrite for_each_read_seq. rewrite drop_0.
  destruct (decide (Z.to_nat n <= length l)%nat) as [Hd | Hd].
  - rewrite decide_True by lia. reflexivity.
  - rewrite decide_False by lia. reflexivity.
Qed.

Lemma read_n_spec {A} (l : list A) (n : Z) :
  Hashing.read_n n l
  = if decide (Z.to_nat n <= length l)%nat then Ok (take (Z.to_nat n) l) else Fault.
Proof.
  unfold Hashing.read_n.
  rewrite (for_range_read (fun x => [x])).
  destruct (decide _); [| reflexivity].
  f_equal. induction (take (Z.to_nat n) l) as [| x xs IH]; cbn; [done | by rewrite IH].
Qed.

(** Equal-length chunks can be told apart inside a concatenation. *)
Lemma concat_map_inj {A B} (f : A -> list B) (k : nat) (l1 l2 : list A) :
  (forall x, length (f x) = k) -> (forall x y, f x = f y -> x = y) ->
  length l1 = length l2 ->
  concat (map f l1) = concat (map f l2) -> l1 = l2.
Proof.
  intros Hlen Hinj. revert l2.
  induction l1 as [| x l1 IH]; intros [| y l2] Hl Heq; cbn in *; try done.
  assert (Hxy : f x = f y /\ concat (map f l1) = concat (map f l2)).
  { apply app_inj_1; [by rewrite !Hlen | done]. }
  destruct Hxy as [Hxy Hrest].
  f_equal; [by apply Hinj | apply IH; [lia | done]].
Qed.

(** ** Hashing *)

Module HashingFacts.
Import Hashing Scenarios.

(** C3. A null [pMultisampleState] feeds the hasher nothing, whereas each of
    the other eight optional blocks feeds the single token [u32(0)] when
    null; so a pipeline with no stage and all nine blocks null is hashed
    from five header tokens and eight zeros. *)
Theorem absent_multisample_state_feeds_no_token :
  hash_multisample_state None = Ok []
  /\ hash_dynamic_state None = Ok ([], [h_u32 0])
  /\ (forall seen, hash_depth_stencil_state seen None = [h_u32 0])
  /\ hash_input_assembly_state None = [h_u32 0]
  /\ (forall seen, hash_rasterization_state seen None = [h_u32 0])
  /\ (forall seen, hash_viewport_state seen None = Ok [h_u32 0])
  /\ hash_vertex_input_state None = Ok [h_u32 0]
  /\ (forall seen, hash_color_blend_state seen None = Ok [h_u32 0])
  /\ hash_tessellation_state None = [h_u32 0]
  /\ graphics_pipeline_tokens small_recorder bare_pipeline
     = Ok ([h_u32 0; h_u64 11; h_u64 22; h_u32 0; h_u32 0] ++ replicate 8 (h_u32 0)).
Proof.
  repeat split; reflexivity.
Qed.

(** The tokens of a color-blend block with blending on and
    [VK_BLEND_FACTOR_ZERO] everywhere but in the source colour factor. *)
Lemma blend_state_tokens seen factor constants :
  hash_color_blend_state seen (Some (blend_state factor constants))
  = Ok ([h_u32 0; h_u32 1; h_u32 0; h_u32 0;
         h_u32 1; h_u32 15; h_u32 0; h_u32 0; h_u32 0; h_u32 0; h_u32 0; h_u32 factor]
        ++ (if ((factor =? VK_BLEND_FACTOR_CONSTANT_ALPHA)
                || (factor =? VK_BLEND_FACTOR_CONSTANT_COLOR))
               && negb (dynamic seen VK_DYNAMIC_STATE_BLEND_CONSTANTS)
            then hash_blend_constants constants else [])).
Proof.
  unfold hash_color_blend_state, blend_state.
  cbn [cb_attachmentCount cb_pAttachments cb_flags logicOpEnable logicOp blendConstants].
  rewrite read_n_spec. change (Z.to_nat 1) with 1%nat.
  rewrite decide_True by (cbn; lia).
  unfold need_blend_constants, uses_blend_constants. cbn.
  rewrite ?orb_false_r. reflexivity.
Qed.

(** C4. With blending enabled and [VK_BLEND_FACTOR_ONE_MINUS_CONSTANT_COLOR]
    (or [.._ALPHA]) as a factor and no dynamic state, the blend constants
    are not fed to the hasher: the token sequence is the same whatever they
    are. With [VK_BLEND_FACTOR_CONSTANT_COLOR] they are fed. *)
Theorem one_minus_constant_factor_leaves_blend_constants_out :
  (forall c c',
     graphics_pipeline_tokens small_recorder
       (with_color_blend (blend_state VK_BLEND_FACTOR_ONE_MINUS_CONSTANT_COLOR c) bare_pipeline)
     = graphics_pipeline_tokens small_recorder
         (with_color_blend (blend_state VK_BLEND_FACTOR_ONE_MINUS_CONSTANT_COLOR c') bare_pipeline))
  /\ (forall c,
        hash_color_blend_state []
          (Some (blend_state VK_BLEND_FACTOR_ONE_MINUS_CONSTANT_COLOR c))
        = Ok [h_u32 0; h_u32 1; h_u32 0; h_u32 0;
              h_u32 1; h_u32 15; h_u32 0; h_u32 0; h_u32 0; h_u32 0; h_u32 0; h_u32 11])
  /\ (forall c,
        hash_color_blend_state []
          (Some (blend_state VK_BLEND_FACTOR_ONE_MINUS_CONSTANT_ALPHA c))
        = Ok [h_u32 0; h_u32 1; h_u32 0; h_u32 0;
              h_u32 1; h_u32 15; h_u32 0; h_u32 0; h_u32 0; h_u32 0; h_u32 0; h_u32 13])
  /\ (forall c,
        hash_color_blend_state []
          (Some (blend_state VK_BLEND_FACTOR_CONSTANT_COLOR c))
        = Ok ([h_u32 0; h_u32 1; h_u32 0; h_u32 0;
               h_u32 1; h_u32 15; h_u32 0; h_u32 0; h_u32 0; h_u32 0; h_u32 0; h_u32 10]
              ++ hash_blend_constants c)).
Proof.
  split; [| split; [| split]].
  - intros c c'. unfold graphics_pipeline_tokens.
    cbn [with_color_blend pColorBlendState pDynamicState bare_pipeline hash_dynamic_state].
    replace (hash_pipeline_header small_recorder
               (with_color_blend (blend_state VK_BLEND_FACTOR_ONE_MINUS_CONSTANT_COLOR c) bare_pipeline))
      with (hash_pipeline_header small_recorder
              (with_color_blend (blend_state VK_BLEND_FACTOR_ONE_MINUS_CONSTANT_COLOR c') bare_pipeline))
      by reflexivity.
    destruct (hash_pipeline_header _ _) as [header | w |];
      cbn -[hash_color_blend_state blend_state]; [| done | done].
    rewrite !blend_state_tokens. reflexivity.
  - intros c. rewrite blend_state_tokens. reflexivity.
  - intros c. rewrite blend_state_tokens. reflexivity.
  - intros c. rewrite blend_state_tokens. reflexivity.
Qed.

(** *** Viewports and the dynamic-state list *)

Lemma viewport_tokens_inj v1 v2 : viewport_tokens v1 = viewport_tokens v2 -> v1 = v2.
Proof. destruct v1, v2. unfold viewport_tokens. cbn. intros H. by simplify_eq. Qed.

(** What [set_viewports] leaves of the token computation: everything but
    the viewport block is computed from [p] itself. *)
Lemma tokens_set_viewports r p vs vps :
  pViewportState p = Some vps ->
  graphics_pipeline_tokens r (set_viewports vs p)
  = (header ← hash_pipeline_header r p;
     '(seen, dyn) ← hash_dynamic_state (pDynamicState p);
     ms ← hash_multisample_state (pMultisampleState p);
     vp ← hash_viewport_state seen
            (Some {| vps_flags := vps_flags vps; viewportCount := viewportCount vps;
                     pViewports := Some vs;
                     scissorCount := scissorCount vps; pScissors := pScissors vps |});
     vi ← hash_vertex_input_state (pVertexInputState p);
     cb ← hash_color_blend_state seen (pColorBlendState p);
     stages ← for_range (stageCount p) (fun i =>
       stage ← read (pStages p) i;
       hash_stage r stage);
     Ok (header ++ dyn ++ hash_depth_stencil_state seen (pDepthStencilState p)
         ++ hash_input_assembly_state (pInputAssemblyState p)
         ++ hash_rasterization_state seen (pRasterizationState p)
         ++ ms ++ vp ++ vi ++ cb
         ++ hash_tessellation_state (pTessellationState p) ++ stages)).
Proof. intros H. destruct p. cbn in H. subst. reflexivity. Qed.

Lemma dynamic_true_iff seen label : dynamic seen label = true <-> label ∈ seen.
Proof.
  unfold dynamic. rewrite existsb_exists. split.
  - intros (x & Hin & Heq). apply Z.eqb_eq in Heq. subst. by apply list_elem_of_In.
  - intros Hin. exists label. split; [by apply list_elem_of_In | apply Z.eqb_refl].
Qed.

Lemma hash_dynamic_state_seen d seen dyn :
  hash_dynamic_state (Some d) = Ok (seen, dyn) ->
  seen = take (Z.to_nat (dynamicStateCount d)) (pDynamicStates d).
Proof.
  unfold hash_dynamic_state. rewrite read_n_spec.
  destruct (decide _); cbn; [| done]. intros H. by simplify_eq.
Qed.

Lemma seen_declares p seen dyn :
  hash_dynamic_state (pDynamicState p) = Ok (seen, dyn) ->
  dynamic seen VK_DYNAMIC_STATE_VIEWPORT = true
  <-> declares_dynamic VK_DYNAMIC_STATE_VIEWPORT p.
Proof.
  intros H. rewrite dynamic_true_iff. unfold declares_dynamic.
  destruct (pDynamicState p) as [d |] eqn:Hd.
  - apply hash_dynamic_state_seen in H. subst seen. split.
    + intros Hin. exists d. auto.
    + intros (d' & Heq & Hin). by simplify_eq.
  - cbn in H. simplify_eq. split.
    + intros Hin. by apply elem_of_nil in Hin.
    + intros (d' & Heq & _). discriminate.
Qed.

(** The viewport block when the viewports are not dynamic. *)
Lemma hash_viewport_state_static seen vps vs :
  dynamic seen VK_DYNAMIC_STATE_VIEWPORT = false ->
  (Z.to_nat (viewportCount vps) <= length vs)%nat ->
  hash_viewport_state seen
    (Some {| vps_flags := vps_flags vps; viewportCount := viewportCount vps;
             pViewports := Some vs;
             scissorCount := scissorCount vps; pScissors := pScissors vps |})
  = (scissors ←
       (if negb (dynamic seen VK_DYNAMIC_STATE_SCISSOR) then
          for_range (scissorCount vps) (fun i =>
            r ← read (default [] (pScissors vps)) i;
            Ok [h_s32 (offset_x r); h_s32 (offset_y r);
                h_u32 (extent_width r); h_u32 (extent_height r)])
        else Ok []);
     Ok ([h_u32 (vps_flags vps); h_u32 (scissorCount vps); h_u32 (viewportCount vps)]
         ++ scissors
         ++ concat (map viewport_tokens (take (Z.to_nat (viewportCount vps)) vs)))).
Proof.
  intros Hdyn Hlen. unfold hash_viewport_state.
  cbn [vps_flags viewportCount pViewports scissorCount pScissors default].
  rewrite Hdyn. cbn [negb].
  rewrite (for_range_read viewport_tokens), decide_True by done.
  reflexivity.
Qed.

(** The viewport block when the viewports are dynamic does not look at
    the rectangles. *)
Lemma hash_viewport_state_dynamic seen vps vs1 vs2 :
  dynamic seen VK_DYNAMIC_STATE_VIEWPORT = true ->
  hash_viewport_state seen
    (Some {| vps_flags := vps_flags vps; viewportCount := viewportCount vps;
             pViewports := Some vs1;
             scissorCount := scissorCount vps; pScissors := pScissors vps |})
  = hash_viewport_state seen
      (Some {| vps_flags := vps_flags vps; viewportCount := viewportCount vps;
               pViewports := Some vs2;
               scissorCount := scissorCount vps; pScissors := pScissors vps |}).
Proof.
  intros Hdyn. unfold hash_viewport_state.
  cbn [vps_flags viewportCount pViewports scissorCount pScissors default].
  rewrite Hdyn. reflexivity.
Qed.

(** C5, as the code has it. Two pipelines that differ only in their
    viewport rectangles ([vs1] against [vs2] in the same pipeline [p]) get
    the same hash, whatever the hasher, when [VK_DYNAMIC_STATE_VIEWPORT] is
    among the listed dynamic states. When it is not, and the
    [viewportCount] rectangles that are read differ, the hasher is fed two
    different token sequences [t1] and [t2], and the two hashes are what the
    hasher makes of [t1] and of [t2]: they differ exactly when the hasher
    tells these two sequences apart. *)
Theorem viewport_rectangles_hashed_unless_dynamic
  (Digest : Type) (Hasher_get : list Token -> Digest)
  (r : StateRecorder) (p : VkGraphicsPipelineCreateInfo)
  (vps : VkPipelineViewportStateCreateInfo) (vs1 vs2 : list VkViewport) :
  pViewportState p = Some vps ->
  let n := Z.to_nat (viewportCount vps) in
  (declares_dynamic VK_DYNAMIC_STATE_VIEWPORT p ->
     compute_hash_graphics_pipeline Digest Hasher_get r (set_viewports vs1 p)
     = compute_hash_graphics_pipeline Digest Hasher_get r (set_viewports vs2 p))
  /\ (~ declares_dynamic VK_DYNAMIC_STATE_VIEWPORT p ->
       (n <= length vs1)%nat -> (n <= length vs2)%nat ->
       take n vs1 <> take n vs2 ->
       forall h1,
         compute_hash_graphics_pipeline Digest Hasher_get r (set_viewports vs1 p) = Ok h1 ->
         exists t1 t2,
           graphics_pipeline_tokens r (set_viewports vs1 p) = Ok t1
           /\ graphics_pipeline_tokens r (set_viewports vs2 p) = Ok t2
           /\ t1 <> t2
           /\ h1 = Hasher_get t1
           /\ compute_hash_graphics_pipeline Digest Hasher_get r (set_viewports vs2 p)
              = Ok (Hasher_get t2)).
Proof.
  intros Hvps n. unfold compute_hash_graphics_pipeline.
  rewrite !(tokens_set_viewports r p _ vps Hvps).
  destruct (hash_pipeline_header r p) as [header | w |]; cbn -[hash_viewport_state];
    [| split; [done | intros; discriminate] | split; [done | intros; discriminate]].
  destruct (hash_dynamic_state (pDynamicState p)) as [[seen dyn] | w |] eqn:Hdyn;
    cbn -[hash_viewport_state];
    [| split; [done | intros; discriminate] | split; [done | intros; discriminate]].
  pose proof (seen_declares p seen dyn Hdyn) as Hseen.
  destruct (hash_multisample_state (pMultisampleState p)) as [ms | w |];
    cbn -[hash_viewport_state];
    [| split; [done | intros; discriminate] | split; [done | intros; discriminate]].
  split.
  - intros Hdecl. apply Hseen in Hdecl.
    by rewrite (hash_viewport_state_dynamic seen vps vs1 vs2 Hdecl).
  - intros Hnot Hl1 Hl2 Hne h1.
    assert (Hfalse : dynamic seen VK_DYNAMIC_STATE_VIEWPORT = false).
    { destruct (dynamic seen VK_DYNAMIC_STATE_VIEWPORT) eqn:E; [| done].
      exfalso. apply Hnot, Hseen. done. }
    rewrite !hash_viewport_state_static by done.
    destruct (if negb (dynamic seen VK_DYNAMIC_STATE_SCISSOR) then _ else _)
      as [scissors | w |]; cbn; [| discriminate | discriminate].
    destruct (hash_vertex_input_state (pVertexInputState p)) as [vi | w |]; cbn;
      [| discriminate | discriminate].
    destruct (hash_color_blend_state seen (pColorBlendState p)) as [cb | w |]; cbn;
      [| discriminate | discriminate].
    destruct (for_range (stageCount p) _) as [stages | w |]; cbn;
      [| discriminate | discriminate].
    intros H1. injection H1 as <-.
    eexists _, _. split; [reflexivity |]. split; [reflexivity |].
    split; [| split; reflexivity].
    intros Heq. apply Hne.
    do 6 (apply app_inv_head in Heq).
    injection Heq as Heq.
    rewrite <- !app_assoc in Heq.
    apply app_inv_head, app_inv_tail in Heq.
    apply (concat_map_inj viewport_tokens 6) in Heq; auto using viewport_tokens_inj.
    rewrite !length_take. lia.
Qed.

(** The theorem at the pipeline with one viewport, widths 640.0f against
    480.0f, once with the viewport listed as dynamic and once without, for
    the hasher that returns the number of tokens it was fed. *)
Lemma viewport_rectangles_example :
  pViewportState dynamic_viewport_pipeline = Some one_viewport_state
  /\ declares_dynamic VK_DYNAMIC_STATE_VIEWPORT dynamic_viewport_pipeline
  /\ compute_hash_graphics_pipeline nat length small_recorder
       (set_viewports (one_viewport 1142947840) dynamic_viewport_pipeline)
     = compute_hash_graphics_pipeline nat length small_recorder
         (set_viewports (one_viewport 1139802112) dynamic_viewport_pipeline)
  /\ ~ declares_dynamic VK_DYNAMIC_STATE_VIEWPORT static_viewport_pipeline
  /\ exists t1 t2,
       graphics_pipeline_tokens small_recorder
         (set_viewports (one_viewport 1142947840) static_viewport_pipeline) = Ok t1
       /\ graphics_pipeline_tokens small_recorder
            (set_viewports (one_viewport 1139802112) static_viewport_pipeline) = Ok t2
       /\ t1 <> t2.
Proof.
  assert (Hdecl : declares_dynamic VK_DYNAMIC_STATE_VIEWPORT dynamic_viewport_pipeline).
  { exists viewport_is_dynamic. split; [reflexivity |]. vm_compute. left. }
  assert (Hnot : ~ declares_dynamic VK_DYNAMIC_STATE_VIEWPORT static_viewport_pipeline).
  { intros (d & Hd & _). vm_compute in Hd. discriminate. }
  split; [reflexivity |]. split; [exact Hdecl |].
  split.
  - apply (viewport_rectangles_hashed_unless_dynamic nat length small_recorder
             dynamic_viewport_pipeline one_viewport_state
             (one_viewport 1142947840) (one_viewport 1139802112) eq_refl).
    exact Hdecl.
  - split; [exact Hnot |].
    destruct (compute_hash_graphics_pipeline nat length small_recorder
                (set_viewports (one_viewport 1142947840) static_viewport_pipeline))
      as [h1 | w |] eqn:E1; [| vm_compute in E1; discriminate | vm_compute in E1; discriminate].
    destruct (proj2 (viewport_rectangles_hashed_unless_dynamic nat length small_recorder
                       static_viewport_pipeline one_viewport_state
                       (one_viewport 1142947840) (one_viewport 1139802112) eq_refl)
                Hnot) with (h1 := h1) as (t1 & t2 & E2 & E3 & Hne & _).
    + vm_compute. lia.
    + vm_compute. lia.
    + vm_compute. intros H. discriminate.
    + exact E1.
    + exists t1, t2. split; [exact E2 |]. split; [exact E3 | exact Hne].
Defined.

(** *** A 64-bit hash cannot tell all viewports apart *)

(** No function maps [0 .. N] into [0 .. N - 1] without a collision. *)
Lemma no_injection_into_fewer (N : Z) (f : Z -> Z) :
  (forall i, 0 <= i <= N -> 0 <= f i < N) ->
  (forall i j, 0 <= i <= N -> 0 <= j <= N -> f i = f j -> i = j) ->
  0 <= N -> False.
Proof.
  intros Hr Hinj HN.
  assert (Hnd : NoDup (f <$> seqZ 0 (N + 1))).
  { apply NoDup_fmap_2_strong; [| apply NoDup_seqZ].
    intros i j Hi Hj. apply elem_of_seqZ in Hi, Hj. apply Hinj; lia. }
  assert (Hsub : f <$> seqZ 0 (N + 1) ⊆ seqZ 0 N).
  { intros x Hx. apply list_elem_of_fmap in Hx as (i & -> & Hi).
    apply elem_of_seqZ in Hi. apply elem_of_seqZ. specialize (Hr i). lia. }
  pose proof (submseteq_length _ _ (NoDup_submseteq _ _ Hnd Hsub)) as Hlen.
  rewrite length_fmap, !length_seqZ in Hlen. lia.
Qed.

Lemma numbered_viewport_inj i j :
  0 <= i -> 0 <= j -> numbered_viewport i = numbered_viewport j -> i = j.
Proof.
  intros Hi Hj H. unfold numbered_viewport in H. injection H as Hx Hy Hw.
  rewrite (Z.div_mod i (2 ^ 32)), (Z.div_mod j (2 ^ 32)) by lia.
  rewrite Hx. f_equal. f_equal.
  rewrite (Z.div_mod (i / 2 ^ 32) (2 ^ 32)), (Z.div_mod (j / 2 ^ 32) (2 ^ 32)) by lia.
  rewrite Hy. f_equal. f_equal.
  rewrite !Z.div_div by lia. exact Hw.
Qed.

Lemma numbered_viewport_patterns n :
  0 <= n <= 2 ^ 64 -> float_patterns (numbered_viewport n).
Proof.
  intros Hn. unfold float_patterns, numbered_viewport.
  cbn [vp_x vp_y vp_width vp_height minDepth maxDepth].
  pose proof (Z.mod_pos_bound n (2 ^ 32) ltac:(lia)).
  pose proof (Z.mod_pos_bound (n / 2 ^ 32) (2 ^ 32) ltac:(lia)).
  assert (0 <= n / 2 ^ 64 <= 1).
  { split; [apply Z.div_pos; lia |]. apply Z.div_le_upper_bound; lia. }
  lia.
Qed.

(** The tokens of the pipeline with the one static viewport [v]. *)
Lemma static_viewport_tokens (v : VkViewport) :
  graphics_pipeline_tokens small_recorder (set_viewports [v] static_viewport_pipeline)
  = Ok ([h_u32 0; h_u64 11; h_u64 22; h_u32 0; h_u32 0; h_u32 0; h_u32 0; h_u32 0;
         h_u32 0; h_u32 0; h_u32 0; h_u32 1]
        ++ viewport_tokens v ++ [h_u32 0; h_u32 0; h_u32 0]).
Proof. destruct v. vm_compute. reflexivity. Qed.

(** C5 as stated fails for every hasher whose hash is a 64-bit number:
    none gives different hashes to every two pipelines that differ only in
    the rectangle of their one viewport and do not declare the viewport
    dynamic, even among rectangles whose six fields are 32-bit patterns. *)
Lemma no_64_bit_hash_tells_all_viewports_apart :
  ~ declares_dynamic VK_DYNAMIC_STATE_VIEWPORT static_viewport_pipeline
  /\ ~ exists Hasher_get : list Token -> Z,
        (forall tokens, 0 <= Hasher_get tokens < 2 ^ 64)
        /\ forall v1 v2,
             float_patterns v1 -> float_patterns v2 -> v1 <> v2 ->
             compute_hash_graphics_pipeline Z Hasher_get small_recorder
               (set_viewports [v1] static_viewport_pipeline)
             <> compute_hash_graphics_pipeline Z Hasher_get small_recorder
                  (set_viewports [v2] static_viewport_pipeline).
Proof.
  split.
  { intros (d & Hd & _). vm_compute in Hd. discriminate. }
  intros (Hasher_get & Hrange & Hapart).
  apply (no_injection_into_fewer (2 ^ 64)
           (fun n => Hasher_get
                       ([h_u32 0; h_u64 11; h_u64 22; h_u32 0; h_u32 0; h_u32 0; h_u32 0;
                         h_u32 0; h_u32 0; h_u32 0; h_u32 0; h_u32 1]
                        ++ viewport_tokens (numbered_viewport n)
                        ++ [h_u32 0; h_u32 0; h_u32 0]))).
  - intros i _. apply Hrange.
  - intros i j Hi Hj Heq.
    destruct (decide (i = j)) as [-> | Hne]; [reflexivity | exfalso].
    apply (Hapart (numbered_viewport i) (numbered_viewport j)).
    + by apply numbered_viewport_patterns.
    + by apply numbered_viewport_patterns.
    + intros H. apply Hne. apply numbered_viewport_inj in H; lia.
    + unfold compute_hash_graphics_pipeline. rewrite !static_viewport_tokens.
      cbn [fmap result_fmap]. by rewrite Heq.
  - lia.
Qed.

End HashingFacts.

(** ** Replaying a document *)

Module ReplayerFacts.
Import Replayer Scenarios.

Section Traces.

Variable created : Kind -> Hash -> nat -> Z.
Variable b64_decode : string -> list Z.
Variable allocate : Z -> result ().
Variable float_of_integer : Z -> Z.

Lemma replayed_set_replayed_ne (k k' : Kind) (v : list Z) (r : StateReplayer) :
  k' <> k -> replayed k' (set_replayed k v r) = replayed k' r.
Proof. destruct k, k'; intros H; try reflexivity; by destruct H. Qed.

Lemma replayed_set_replayed (k : Kind) (v : list Z) (r : StateReplayer) :
  keeps_handles k -> replayed k (set_replayed k v r) = v.
Proof. intros [H1 H2]. destruct k; try reflexivity; [by destruct H1 | by destruct H2]. Qed.

Lemma length_resize (n : nat) (v : list Z) : length (resize n v) = n.
Proof. unfold resize. rewrite length_app, length_take, length_replicate. lia. Qed.

(** The creations of one array: a successful loop over [l] starting at
    [index] appends one [enqueue_create] per element, indexed in order, each
    with the element's hash and parsed create-info, and leaves the created
    handle in the element's slot. *)
Lemma for_indexed_creates (k : Kind) (parse_info : StateReplayer -> Value -> result CreateInfo)
  (l : list Value) (index : nat) (s s' : State) :
  keeps_handles k ->
  for_indexed (fun index obj =>
      r ← get_replayer;
      info ← lift (parse_info r obj);
      hash ← lift (uint64_member "hash" obj);
      _ ← call (enqueue_create k hash index info);
      put_replayer (set_replayed k (<[index := created k hash index]> (replayed k r)) r))
    index l s = (Ok (), s') ->
  exists creates,
    snd s' = snd s ++ creates
    /\ length creates = length l
    /\ (forall k', k' <> k -> replayed k' (fst s') = replayed k' (fst s))
    /\ length (replayed k (fst s')) = length (replayed k (fst s))
    /\ (forall j, (j < index)%nat -> replayed k (fst s') !! j = replayed k (fst s) !! j)
    /\ forall i obj, l !! i = Some obj ->
         exists hash info r_i,
           uint64_member "hash" obj = Ok hash
           /\ parse_info r_i obj = Ok info
           /\ (forall k', k' <> k -> replayed k' r_i = replayed k' (fst s))
           /\ creates !! i = Some (enqueue_create k hash (index + i) info)
           /\ ((index + i < length (replayed k (fst s)))%nat ->
               replayed k (fst s') !! (index + i)%nat = Some (created k hash (index + i))).
Proof.
  intros Hk. revert index s. induction l as [| obj l IH]; intros index s H.
  - cbn in H. injection H as <-. exists []. rewrite app_nil_r.
    repeat split; auto. intros i e Hi. by rewrite lookup_nil in Hi.
  - cbn [for_indexed] in H. unfold mbind, M_bind in H.
    unfold get_replayer, lift, call, put_replayer in H. cbn [fst snd] in H.
    destruct (parse_info (fst s) obj) as [info | w |] eqn:Hinfo; [| discriminate | discriminate].
    destruct (uint64_member "hash" obj) as [hash | w |] eqn:Hhash;
      [| discriminate | discriminate].
    apply IH in H as (creates & Htr & Hlen & Hother & Hsize & Hbelow & Hall).
    cbn [fst snd] in Htr, Hother, Hsize, Hbelow, Hall.
    rewrite (replayed_set_replayed k _ _ Hk) in Hsize, Hbelow, Hall.
    rewrite length_insert in Hsize, Hall.
    exists (enqueue_create k hash index info :: creates).
    split; [by rewrite Htr, <- app_assoc |].
    split; [cbn; lia |].
    split.
    { intros k' Hne. rewrite (Hother k' Hne). by apply replayed_set_replayed_ne. }
    split; [exact Hsize |].
    split.
    { intros j Hj. rewrite Hbelow by lia. apply list_lookup_insert_ne. lia. }
    intros [| i] e Hi; cbn in Hi.
    + injection Hi as <-. exists hash, info, (fst s). rewrite Nat.add_0_r.
      split; [exact Hhash |]. split; [exact Hinfo |]. split; [done |].
      split; [reflexivity |].
      intros Hlt. rewrite Hbelow by lia. by apply list_lookup_insert_eq.
    + apply Hall in Hi as (h' & info' & r_i & Hh' & Hi' & Hr_i & Hc & Hslot).
      exists h', info', r_i.
      replace (index + S i)%nat with (S index + i)%nat by lia.
      split; [exact Hh' |]. split; [exact Hi' |].
      split.
      { intros k' Hne. rewrite (Hr_i k' Hne). by apply replayed_set_replayed_ne. }
      split; [exact Hc | exact Hslot].
Qed.

(** A [parse_<kind>s] call that succeeds appends the block of its array. *)
Lemma parse_registry_block (k : Kind) (parse_info : StateReplayer -> Value -> result CreateInfo)
  (registry : Value) (s s' : State) :
  keeps_handles k ->
  parse_registry created allocate k parse_info registry s = (Ok (), s') ->
  exists block,
    snd s' = snd s ++ block
    /\ registry_block created parse_info k registry (fst s) block (fst s').
Proof.
  intros Hk. unfold parse_registry. unfold mbind at 1, M_bind at 1, lift at 1.
  destruct registry as [| z | bits | str | elems | members]; try discriminate.
  cbn [GetArray].
  unfold mbind at 1, M_bind at 1, call at 1.
  unfold mbind at 1, M_bind at 1, get_replayer at 1.
  unfold mbind at 1, M_bind at 1, put_replayer at 1.
  unfold mbind at 1, M_bind at 1, lift at 1.
  destruct (allocate (Z.of_nat (length elems))) as [[] | w |]; [| discriminate | discriminate].
  unfold mbind at 1, M_bind at 1. cbn [fst snd].
  match goal with
  | |- context [for_indexed ?body 0%nat elems ?s0] =>
      destruct (for_indexed body 0%nat elems s0) as [[[] | w |] s1] eqn:Hloop
  end; [| discriminate | discriminate].
  apply (for_indexed_creates k parse_info elems 0 _ s1 Hk) in Hloop
    as (creates & Htr & Hlen & Hother & Hsize & _ & Hall).
  cbn [fst snd] in Htr, Hother, Hsize, Hall.
  rewrite (replayed_set_replayed k _ _ Hk), length_resize in Hsize, Hall.
  unfold call. intros H. injection H as <-. cbn [fst snd].
  exists (set_num k (Z.of_nat (length elems)) :: creates ++ [wait_enqueue]).
  split; [rewrite Htr, <- !app_assoc; reflexivity |].
  exists elems, creates.
  split; [reflexivity |]. split; [reflexivity |]. split; [exact Hlen |].
  split.
  { intros i obj Hi.
    destruct (Hall i obj Hi) as (hash & info & r_i & Hh & Hinfo & Hr_i & Hc & Hslot).
    exists hash, info, r_i.
    split; [exact Hh |]. split; [exact Hinfo |].
    split.
    { intros k' Hne. rewrite (Hr_i k' Hne). by apply replayed_set_replayed_ne. }
    split; [exact Hc |].
    apply Hslot. apply lookup_lt_Some in Hi. cbn. lia. }
  split; [exact Hsize |].
  intros k' Hne. rewrite (Hother k' Hne). by apply replayed_set_replayed_ne.
Qed.

Lemma parse_top_level_block (name : string) (k : Kind)
  (parse_info : StateReplayer -> Value -> result CreateInfo) (doc : Value) (s s' : State) :
  keeps_handles k ->
  parse_top_level name k (parse_registry created allocate k parse_info) doc s = (Ok (), s') ->
  exists block,
    snd s' = snd s ++ block
    /\ kind_block created parse_info k name doc (fst s) block (fst s').
Proof.
  intros Hk. unfold parse_top_level. unfold mbind at 1, M_bind at 1, lift at 1.
  destruct doc as [| z | bits | str | elems | members]; try discriminate.
  cbn [HasMember member].
  destruct (FindMember name members) as [registry |] eqn:Hfind.
  - rewrite bool_decide_eq_true_2 by eauto.
    unfold mbind at 1, M_bind at 1, lift at 1.
    intros H. apply (parse_registry_block k parse_info registry s s' Hk) in H
      as (block & Htr & Hblock).
    exists block. split; [exact Htr |]. exists members. split; [reflexivity |].
    by rewrite Hfind.
  - rewrite bool_decide_eq_false_2 by (intros [x Hx]; discriminate).
    unfold call. intros H. injection H as <-. cbn [fst snd].
    exists [set_num k 0]. split; [reflexivity |]. exists members. split; [reflexivity |].
    by rewrite Hfind.
Qed.

Lemma grows_bind {A B} (m : M A) (k : A -> M B) :
  grows m -> (forall a, grows (k a)) -> grows (m ≫= k).
Proof.
  intros Hm Hk s. unfold mbind, M_bind.
  destruct (Hm s) as [evs Hevs].
  destruct (m s) as [[a | w |] s1]; cbn [snd] in *; eauto.
  destruct (Hk a s1) as [evs' Hevs']. exists (evs ++ evs').
  by rewrite Hevs', Hevs, app_assoc.
Qed.

Lemma grows_lift {A} (r : result A) : grows (lift r).
Proof. intros s. exists []. by rewrite app_nil_r. Qed.

Lemma grows_call e : grows (call e).
Proof. intros s. by exists [e]. Qed.

Lemma grows_get : grows get_replayer.
Proof. intros s. exists []. by rewrite app_nil_r. Qed.

Lemma grows_put r : grows (put_replayer r).
Proof. intros s. exists []. by rewrite app_nil_r. Qed.

Lemma grows_ret {A} (a : A) : grows (mret a : M A).
Proof. intros s. exists []. by rewrite app_nil_r. Qed.

Lemma grows_for_indexed {A} (body : nat -> A -> M unit) index l :
  (forall i a, grows (body i a)) -> grows (for_indexed body index l).
Proof.
  intros Hbody. revert index. induction l as [| a l IH]; intros index; cbn [for_indexed].
  - apply grows_ret.
  - apply grows_bind; [apply Hbody | intros _; apply IH].
Qed.



Lemma grows_registry_loop (k : Kind)
  (parse_info : StateReplayer -> Value -> result CreateInfo) (elems : list Value) :
  grows (r ← get_replayer;
         _ ← put_replayer (set_replayed k (resize (length elems) (replayed k r)) r);
         _ ← lift (allocate (Z.of_nat (length elems)));
         _ ← for_indexed (fun index obj =>
               r ← get_replayer;
               info ← lift (parse_info r obj);
               hash ← lift (uint64_member "hash" obj);
               _ ← call (enqueue_create k hash index info);
               put_replayer (set_replayed k (<[index := created k hash index]> (replayed k r)) r))
             0%nat elems;
         call wait_enqueue).
Proof.
  apply grows_bind; [apply grows_get | intros r].
  apply grows_bind; [apply grows_put | intros _].
  apply grows_bind; [apply grows_lift | intros _].
  apply grows_bind; [| intros _; apply grows_call].
  apply grows_for_indexed. intros i a.
  apply grows_bind; [apply grows_get | intros r'].
  apply grows_bind; [apply grows_lift | intros info].
  apply grows_bind; [apply grows_lift | intros hash].
  apply grows_bind; [apply grows_call | intros _]. apply grows_put.
Qed.


Lemma grows_parse_registry (k : Kind)
  (parse_info : StateReplayer -> Value -> result CreateInfo) (registry : Value) :
  grows (parse_registry created allocate k parse_info registry).
Proof.
  unfold parse_registry.
  apply grows_bind; [apply grows_lift | intros elems].
  apply grows_bind; [apply grows_call | intros _]. apply grows_registry_loop.
Qed.

Lemma grows_parse_top_level (name : string) (k : Kind)
  (parse_info : StateReplayer -> Value -> result CreateInfo) (doc : Value) :
  grows (parse_top_level name k (parse_registry created allocate k parse_info) doc).
Proof.
  unfold parse_top_level.
  apply grows_bind; [apply grows_lift | intros [|]].
  - apply grows_bind; [apply grows_lift | intros v]. apply grows_parse_registry.
  - apply grows_call.
Qed.


Lemma bind_Ok_inv {A B} (m : M A) (k : A -> M B) (s s' : State) (b : B) :
  (m ≫= k) s = (Ok b, s') -> exists a s1, m s = (Ok a, s1) /\ k a s1 = (Ok b, s').
Proof.
  unfold mbind, M_bind. destruct (m s) as [[a | w |] s1]; [eauto | discriminate | discriminate].
Qed.

Lemma grows_parse_document (root : Value) :
  grows (parse_document created b64_decode allocate float_of_integer root).
Proof.
  unfold parse_document, parse_shader_modules, parse_samplers,
    parse_descriptor_set_layouts, parse_pipeline_layouts, parse_render_passes.
  repeat (apply grows_bind; [apply grows_parse_top_level | intros _]).
  apply grows_parse_top_level.
Qed.

(** C2, as the code has it. When [parse] succeeds, the calls it has made on
    the engine are, in this order: the block of the shader modules, of the
    samplers, of the descriptor set layouts, of the pipeline layouts and of
    the render passes, each read from the document's member of that kind.
    A block is [set_num_<kind>(n)] for the [n] elements of the array, one
    [enqueue_create_<kind>] per element in index order, with the element's
    hash and its create-info resolved against the handles of the kinds
    replayed before, and [wait_enqueue()] before the next block opens; it
    is [set_num_<kind>(0)] alone where the document has no member for the
    kind. *)
Theorem parse_calls_back_five_kinds_in_order (root : Value) (s s' : State) :
  parse created b64_decode allocate float_of_integer (Parsed root) s = (Returns true, s') ->
  exists shader_modules samplers set_layouts pipeline_layouts render_passes r1 r2 r3 r4,
    snd s' = snd s ++ shader_modules ++ samplers ++ set_layouts
                   ++ pipeline_layouts ++ render_passes
    /\ kind_block created (parse_shader_module_info b64_decode allocate)
         ShaderModule "shaderModules" root (fst s) shader_modules r1
    /\ kind_block created (parse_sampler_info float_of_integer)
         Sampler "samplers" root r1 samplers r2
    /\ kind_block created (parse_descriptor_set_layout_info allocate)
         DescriptorSetLayout "descriptorSetLayouts" root r2 set_layouts r3
    /\ kind_block created (parse_pipeline_layout_info allocate)
         PipelineLayout "pipelineLayouts" root r3 pipeline_layouts r4
    /\ kind_block created (parse_render_pass_info allocate)
         RenderPass "renderPasses" root r4 render_passes (fst s').
Proof.
  unfold parse.
  destruct (parse_document created b64_decode allocate float_of_integer root s)
    as [[[] | w |] s0] eqn:Hdoc; intros H; try discriminate.
  injection H as <-.
  unfold parse_document, parse_shader_modules, parse_samplers,
    parse_descriptor_set_layouts, parse_pipeline_layouts, parse_render_passes in Hdoc.
  apply bind_Ok_inv in Hdoc as ([] & s1 & H1 & Hdoc).
  apply bind_Ok_inv in Hdoc as ([] & s2 & H2 & Hdoc).
  apply bind_Ok_inv in Hdoc as ([] & s3 & H3 & Hdoc).
  apply bind_Ok_inv in Hdoc as ([] & s4 & H4 & H5).
  apply parse_top_level_block in H1 as (b1 & E1 & K1); [| by split].
  apply parse_top_level_block in H2 as (b2 & E2 & K2); [| by split].
  apply parse_top_level_block in H3 as (b3 & E3 & K3); [| by split].
  apply parse_top_level_block in H4 as (b4 & E4 & K4); [| by split].
  apply parse_top_level_block in H5 as (b5 & E5 & K5); [| by split].
  exists b1, b2, b3, b4, b5, (fst s1), (fst s2), (fst s3), (fst s4).
  split; [| by repeat split].
  rewrite E5, E4, E3, E2, E1. by rewrite <- !app_assoc.
Qed.


End Traces.

(** The document written for a recorder with one pipeline layout and one
    compute pipeline is parsed with success; its callbacks fall into the
    five blocks. *)
Lemma layout_and_compute_blocks :
  replay (Parsed layout_and_compute_document)
  = (Returns true,
     ({| replayed_samplers := []; replayed_descriptor_set_layouts := [];
         replayed_pipeline_layouts := [1]; replayed_shader_modules := [];
         replayed_render_passes := [] |},
      layout_and_compute_trace))
  /\ exists shader_modules samplers set_layouts pipeline_layouts render_passes r1 r2 r3 r4,
       snd (snd (replay (Parsed layout_and_compute_document)))
       = [] ++ shader_modules ++ samplers ++ set_layouts ++ pipeline_layouts ++ render_passes
       /\ kind_block numbering_engine (parse_shader_module_info no_bytes arena)
            ShaderModule "shaderModules" layout_and_compute_document StateReplayer_new
            shader_modules r1
       /\ kind_block numbering_engine (parse_sampler_info zero_float)
            Sampler "samplers" layout_and_compute_document r1 samplers r2
       /\ kind_block numbering_engine (parse_descriptor_set_layout_info arena)
            DescriptorSetLayout "descriptorSetLayouts" layout_and_compute_document r2
            set_layouts r3
       /\ kind_block numbering_engine (parse_pipeline_layout_info arena)
            PipelineLayout "pipelineLayouts" layout_and_compute_document r3
            pipeline_layouts r4
       /\ kind_block numbering_engine (parse_render_pass_info arena)
            RenderPass "renderPasses" layout_and_compute_document r4 render_passes
            (fst (snd (replay (Parsed layout_and_compute_document)))).
Proof.
  split; [reflexivity |].
  apply (parse_calls_back_five_kinds_in_order numbering_engine no_bytes arena zero_float
           layout_and_compute_document (StateReplayer_new, [])).
  reflexivity.
Defined.

(** C2 as stated fails on the document that [serialize] writes for that
    recorder: [parse] succeeds, the shader-module callback comes before the
    sampler callback, and no callback is made for compute or graphics
    pipelines although the document holds a compute pipeline. *)
Lemma serialized_document_callbacks_not_in_spec_order :
  serialize (fun _ => EmptyString) layout_and_compute_recorder
  = Ok layout_and_compute_document
  /\ fst (replay (Parsed layout_and_compute_document)) = Returns true
  /\ in_spec_order (snd (snd (replay (Parsed layout_and_compute_document)))) = false
  /\ calls_back_kind ComputePipeline
       (snd (snd (replay (Parsed layout_and_compute_document)))) = false
  /\ calls_back_kind GraphicsPipeline
       (snd (snd (replay (Parsed layout_and_compute_document)))) = false.
Proof. vm_compute. repeat split. Qed.


(** With an arena whose requests do not come back, [parse] of the document
    with the pipeline layout and the compute pipeline delivers
    [set_num_shader_modules(0)] and does not return. *)
Lemma parse_stops_at_first_request_of_stuck_arena :
  Replayer.parse numbering_engine no_bytes stuck_arena zero_float
    (Parsed layout_and_compute_document) (StateReplayer_new, [])
  = (Aborts, (StateReplayer_new, [set_num ShaderModule 0])).
Proof. reflexivity. Qed.


End ReplayerFacts.

(** ** Recording *)

Module RecorderFacts.
Import Scenarios.

(** C9. Registering the one-binding layout leaves the recorder with a copy
    of the binding array in the arena (address 1000), but the copied
    binding still points to the caller's sampler array at address 100, no
    sampler array exists in the arena, and it is the caller's array that
    was written: its element 0 is now index 0 + 1 and its element 1 is
    still the handle 7002. *)
Theorem register_descriptor_set_layout_writes_callers_samplers :
  exists recorder heap,
    Memory.register_descriptor_set_layout 42 one_binding_layout
      (two_sampler_recorder, caller_heap) = Ok (0%nat, (recorder, heap))
    /\ Memory.descriptor_sets recorder
       = [(42, {| Memory.flags := 0; Memory.bindingCount := 1; Memory.pBindings := 1000 |})]
    /\ Memory.binding_arrays heap !! 1000
       = Some [{| Memory.binding := 0;
                  Memory.descriptorType := VK_DESCRIPTOR_TYPE_SAMPLER;
                  Memory.descriptorCount := 2; Memory.stageFlags := 16;
                  Memory.pImmutableSamplers := 100 |}]
    /\ Memory.sampler_arrays caller_heap !! 100 = Some [7001; 7002]
    /\ Memory.sampler_arrays heap !! 100 = Some [1; 7002]
    /\ dom (Memory.sampler_arrays heap) = {[ 100 ]}.
Proof.
  eexists _, _. split; [vm_compute; reflexivity |].
  repeat split; vm_compute; reflexivity.
Qed.

(** C1. For a recorder holding one sampler (hash 7, address modes 0, 1, 2)
    [serialize] writes a sampler object in which ["addressModeV"] and
    ["addressModeW"] carry the value of [addressModeU] and which has no
    ["hash"] member; [parse] of that document stops in [obj["hash"]] after
    [set_num_samplers(1)], so the engine is never handed the sampler. For a
    recorder holding one pipeline layout and one compute pipeline the
    document has both, and [parse] succeeds having handed over the pipeline
    layout but nothing for the compute pipeline. *)
Theorem serialize_then_parse_loses_entities :
  serialize (fun _ => EmptyString) one_sampler_recorder = Ok one_sampler_document
  /\ replay (Replayer.Parsed one_sampler_document)
     = (Replayer.Aborts,
        ({| Replayer.replayed_samplers := [0];
            Replayer.replayed_descriptor_set_layouts := [];
            Replayer.replayed_pipeline_layouts := [];
            Replayer.replayed_shader_modules := [];
            Replayer.replayed_render_passes := [] |},
         [Replayer.set_num Replayer.ShaderModule 0; Replayer.wait_enqueue;
          Replayer.set_num Replayer.Sampler 1]))
  /\ serialize (fun _ => EmptyString) layout_and_compute_recorder
     = Ok layout_and_compute_document
  /\ replay (Replayer.Parsed layout_and_compute_document)
     = (Replayer.Returns true,
        ({| Replayer.replayed_samplers := [];
            Replayer.replayed_descriptor_set_layouts := [];
            Replayer.replayed_pipeline_layouts := [1];
            Replayer.replayed_shader_modules := [];
            Replayer.replayed_render_passes := [] |},
         layout_and_compute_trace)).
Proof. repeat split; vm_compute; reflexivity. Qed.

End RecorderFacts.

(** ** ScratchAllocator: what a returned pointer is *)

Module ScratchAllocatorReturns.
Import ScratchAllocator.

Lemma land_le a b : 0 <= a -> Z.land a b <= a.
Proof.
  intros Ha.
  assert (H : Z.land a b = a - Z.ldiff a b).
  { rewrite Z.sub_nocarry_ldiff.
    - apply Z.bits_inj'. intros n Hn.
      rewrite Z.land_spec, !Z.ldiff_spec. destruct (Z.testbit a n), (Z.testbit b n); reflexivity.
    - apply Z.bits_inj'. intros n Hn.
      rewrite !Z.ldiff_spec, Z.bits_0. destruct (Z.testbit a n), (Z.testbit b n); reflexivity. }
  assert (0 <= Z.ldiff a b) by (apply Z.ldiff_nonneg; auto).
  lia.
Qed.

(** The offset that the fit test lets through is 0. *)
Lemma fit_test_passes_at_zero off sz al :
  0 <= off -> 0 < al -> 0 <= sz -> off + al + sz <= 2 ^ 64 ->
  let offset' := Z.land (wrap64 (off + al - 1)) (size_t_not al) in
  (wrap64 (offset' + sz) <=? sz) = true -> offset' = 0.
Proof.
  intros Hoff Hal Hsz Hfit offset' Hle.
  assert (Hw : wrap64 (off + al - 1) = off + al - 1) by (unfold wrap64; apply Z.mod_small; lia).
  assert (H0 : 0 <= offset') by (subst offset'; apply Z.land_nonneg; left; rewrite Hw; lia).
  assert (H1 : offset' <= off + al - 1) by (subst offset'; rewrite Hw; apply land_le; lia).
  apply Z.leb_le in Hle. unfold wrap64 in Hle. rewrite Z.mod_small in Hle by lia. lia.
Qed.

(** X1. Storage that [allocate_raw] returns is always the first byte of the
    last block, and that block's offset becomes the size of the request:
    no request is served behind an earlier one in the same block. Stated
    for requests and offsets whose sums stay below 2^64. *)
Theorem allocate_raw_serves_only_block_starts fuel blocks sz al p blocks' :
  0 < al -> 0 <= sz -> al + sz <= 2 ^ 64 ->
  Forall (fun b => blob b = true /\ 0 <= offset b /\ offset b + al + sz <= 2 ^ 64) blocks ->
  allocate_raw fuel blocks sz al = Some (p, blocks') ->
  (length blocks <= length blocks')%nat
  /\ p = address (length blocks' - 1) 0
  /\ exists b, last blocks' = Some b /\ offset b = sz.
Proof.
  intros Hal Hsz Hfit. revert blocks.
  induction fuel as [| fuel IH]; intros blocks Hall H; [discriminate |].
  cbn [allocate_raw] in H.
  set (blocks1 := match blocks with [] => add_block blocks (wrap64 (sz + al)) | _ => blocks end) in *.
  assert (Hall1 : Forall (fun b => blob b = true /\ 0 <= offset b /\ offset b + al + sz <= 2 ^ 64) blocks1).
  { subst blocks1. destruct blocks; [| done]. unfold add_block. cbn.
    constructor; [| constructor]. repeat split; cbn; lia. }
  assert (Hlen1 : (length blocks <= length blocks1)%nat).
  { subst blocks1. destruct blocks; cbn; lia. }
  clearbody blocks1.
  destruct (last blocks1) as [b |] eqn:Hlast; [| discriminate].
  assert (Hb : blob b = true /\ 0 <= offset b /\ offset b + al + sz <= 2 ^ 64).
  { rewrite Forall_forall in Hall1. apply (Hall1 b). apply last_Some_elem_of. done. }
  destruct Hb as (Hblob & Hoff0 & Hoffb).
  rewrite Hblob in H. cbn [negb] in H.
  destruct (wrap64 (Z.land (wrap64 (offset b + al - 1)) (size_t_not al) + sz) <=? sz) eqn:Htest.
  - pose proof (fit_test_passes_at_zero (offset b) sz al Hoff0 Hal Hsz Hoffb Htest) as Hz.
    cbv zeta in Hz. rewrite Hz in H. injection H as <- <-.
    rewrite length_insert. split; [lia |]. split; [reflexivity |].
    eexists. split.
    + rewrite last_lookup, length_insert.
      replace (pred (length blocks1)) with (length blocks1 - 1)%nat by lia.
      rewrite list_lookup_insert_eq; [reflexivity |].
      apply last_Some in Hlast as [l' ->]. rewrite length_app. cbn. lia.
    + cbn. unfold wrap64. rewrite Z.add_0_l. apply Z.mod_small. lia.
  - apply IH in H.
    + destruct H as (Hl & Hp & Hb). split; [| done]. unfold add_block in Hl. rewrite length_app in Hl. cbn in Hl. lia.
    + unfold add_block. apply Forall_app. split; [done |]. constructor; [| constructor].
      repeat split; cbn; lia.
Qed.

Lemma mask_of_byte_alignment off :
  off = 0 \/ off = 1 -> Z.land (wrap64 (off + 1 - 1)) (size_t_not 1) = 0.
Proof. intros [-> | ->]; reflexivity. Qed.

Lemma byte_aligned_request_at_block_start fuel blocks b sz :
  last blocks = Some b -> blob b = true -> offset b = 0 \/ offset b = 1 ->
  0 <= sz < 2 ^ 64 ->
  allocate_raw (S fuel) blocks sz 1
  = Some (address (length blocks - 1) 0,
          <[(length blocks - 1)%nat := {| blob := true; offset := sz; size := size b |}]> blocks).
Proof.
  intros Hlast Hblob Hoff Hsz. cbn [allocate_raw].
  destruct blocks as [| b0 bs]; [discriminate |].
  rewrite Hlast, Hblob. cbn [negb].
  rewrite (mask_of_byte_alignment _ Hoff). rewrite Z.add_0_l.
  unfold wrap64. rewrite Z.mod_small by lia. rewrite Z.leb_refl. reflexivity.
Qed.

(** X2. A byte-aligned request on a last block whose offset is 0 or 1 is served
    from the first byte of that block, whatever the size of the block and
    whatever was handed out of it before: the block's size is not compared
    with the request. *)
Theorem allocate_raw_ignores_block_size fuel blocks b sz :
  last blocks = Some b -> blob b = true -> offset b = 0 \/ offset b = 1 ->
  0 <= sz < 2 ^ 64 ->
  allocate_raw (S fuel) blocks sz 1
  = Some (address (length blocks - 1) 0,
          <[(length blocks - 1)%nat := {| blob := true; offset := sz; size := size b |}]> blocks).
Proof. apply byte_aligned_request_at_block_start. Qed.

Lemma allocate_raw_ignores_block_size_example :
  allocate_raw 1 [{| blob := true; offset := 1; size := 65536 |}] 100000 1
  = Some (address 0 0, [{| blob := true; offset := 100000; size := 65536 |}]).
Proof.
  apply (allocate_raw_ignores_block_size 0 [{| blob := true; offset := 1; size := 65536 |}]
           {| blob := true; offset := 1; size := 65536 |} 100000).
  - reflexivity.
  - reflexivity.
  - right. reflexivity.
  - lia.
Defined.



Lemma allocate_raw_block_start_example :
  allocate_raw 2 [] 8 1 = Some (address 0 0, [{| blob := true; offset := 8; size := 65536 |}])
  /\ (length ([] : list Block) <= length [{| blob := true; offset := 8; size := 65536 |}])%nat
  /\ address 0 0 = address (length [{| blob := true; offset := 8; size := 65536 |}] - 1) 0
  /\ exists b, last [{| blob := true; offset := 8; size := 65536 |}] = Some b /\ offset b = 8.
Proof.
  split; [reflexivity |].
  apply (allocate_raw_serves_only_block_starts 2 [] 8 1 (address 0 0)
           [{| blob := true; offset := 8; size := 65536 |}]).
  - lia.
  - lia.
  - lia.
  - constructor.
  - reflexivity.
Defined.

End ScratchAllocatorReturns.

(** ** Writing to a pipe *)

Module PipeFacts.
Import Pipe.

Lemma take_drop_chars (n : nat) (s : string) : (take_chars n s ++ drop_chars n s)%string = s.
Proof.
  revert s. induction n as [| n IH]; intros s; [done |].
  destruct s as [| c rest]; [done |]. cbn [take_chars drop_chars].
  change (String c (take_chars n rest) ++ drop_chars n rest)%string
    with (String c (take_chars n rest ++ drop_chars n rest)).
  by rewrite IH.
Qed.

Lemma length_drop_chars (n : nat) (s : string) :
  String.length (drop_chars n s) = (String.length s - n)%nat.
Proof.
  revert s. induction n as [| n IH]; intros s; [cbn; lia |].
  destruct s as [| c rest]; [done |]. cbn [drop_chars String.length]. by rewrite IH.
Qed.

Lemma string_app_nil_r (a : string) : (a ++ EmptyString)%string = a.
Proof.
  induction a as [| x a IH]; [done |].
  rewrite SupervisorFacts.append_String. by rewrite IH.
Qed.

Lemma drop_chars_all (s : string) (n : nat) :
  (String.length s <= n)%nat -> drop_chars n s = EmptyString.
Proof.
  revert s. induction n as [| n IH]; intros s H.
  - destruct s; [done | cbn in H; lia].
  - destruct s as [| c rest]; [done |]. cbn [drop_chars]. apply IH. cbn in H. lia.
Qed.

(** The loop keeps [file ++ str] unchanged and [len] equal to the length of
    [str]. *)
Lemma write_all_loop_delivers (system : nat -> Z -> Written) :
  (forall call len, 0 < len -> 0 <= wrote (system call len) <= len) ->
  forall fuel call str file,
    (String.length str <= fuel)%nat ->
    Z.of_nat (String.length str) < 2 ^ 64 ->
    exists r,
      write_all_loop fuel system call str (Z.of_nat (String.length str)) file = Some r
      /\ forall delivered, r = Some delivered -> delivered = (file ++ str)%string.
Proof.
  intros Hsys. induction fuel as [| fuel IH]; intros call str file Hfuel Hlen.
  - destruct str; [| cbn in Hfuel; lia]. cbn. eexists. split; [reflexivity |].
    intros delivered [= <-]. by rewrite string_app_nil_r.
  - cbn [write_all_loop].
    destruct (Z.eqb_spec (Z.of_nat (String.length str)) 0) as [H0 | H0].
    + eexists. split; [reflexivity |]. intros delivered [= <-].
      destruct str; [by rewrite string_app_nil_r | cbn in H0; lia].
    + set (w := system call (Z.of_nat (String.length str))).
      assert (Hpos : 0 < Z.of_nat (String.length str)) by lia.
      pose proof (Hsys call (Z.of_nat (String.length str)) Hpos) as Hw. fold w in Hw.
      destruct (write_ok w); cbn [negb]; [| eexists; split; [reflexivity | done]].
      destruct (flush_ok w); cbn [negb]; [| eexists; split; [reflexivity | done]].
      destruct (Z.leb_spec (wrote w) 0) as [Hz | Hz]; [eexists; split; [reflexivity | done] |].
      assert (Hl : wrap64 (Z.of_nat (String.length str) - wrote w)
                   = Z.of_nat (String.length (drop_chars (Z.to_nat (wrote w)) str))).
      { rewrite length_drop_chars. unfold wrap64. rewrite Z.mod_small by lia. lia. }
      rewrite Hl.
      destruct (IH (S call) (drop_chars (Z.to_nat (wrote w)) str)
                  (file ++ take_chars (Z.to_nat (wrote w)) str)%string) as (r & Hr & Hd).
      * rewrite length_drop_chars. lia.
      * rewrite length_drop_chars. lia.
      * exists r. split; [exact Hr |]. intros delivered E. rewrite (Hd _ E).
        by rewrite SupervisorFacts.append_assoc_string, take_drop_chars.
Qed.

Lemma write_all_loop_succeeds (system : nat -> Z -> Written) :
  (forall call len, 0 < len ->
     write_ok (system call len) = true /\ flush_ok (system call len) = true
     /\ 0 < wrote (system call len) <= len) ->
  forall fuel call str file,
    (String.length str <= fuel)%nat ->
    Z.of_nat (String.length str) < 2 ^ 64 ->
    write_all_loop fuel system call str (Z.of_nat (String.length str)) file
    = Some (Some (file ++ str)%string).
Proof.
  intros Hsys. induction fuel as [| fuel IH]; intros call str file Hfuel Hlen.
  - destruct str; [| cbn in Hfuel; lia]. cbn. by rewrite string_app_nil_r.
  - cbn [write_all_loop].
    destruct (Z.eqb_spec (Z.of_nat (String.length str)) 0) as [H0 | H0].
    + destruct str; [by rewrite string_app_nil_r | cbn in H0; lia].
    + destruct (Hsys call (Z.of_nat (String.length str))) as (-> & -> & Hw); [lia |].
      cbn [negb]. destruct (Z.leb_spec (wrote (system call (Z.of_nat (String.length str)))) 0)
        as [Hz | Hz]; [lia |].
      set (w := system call (Z.of_nat (String.length str))) in *.
      assert (Hl : wrap64 (Z.of_nat (String.length str) - wrote w)
                   = Z.of_nat (String.length (drop_chars (Z.to_nat (wrote w)) str))).
      { rewrite length_drop_chars. unfold wrap64. rewrite Z.mod_small by lia. lia. }
      rewrite Hl, IH.
      * by rewrite SupervisorFacts.append_assoc_string, take_drop_chars.
      * rewrite length_drop_chars. lia.
      * rewrite length_drop_chars. lia.
Qed.

(** X4. [write_all] puts up with short writes. When [WriteFile] never reports
    more than it was offered, [write_all] comes back within as many rounds
    as the message has characters; where it returns [true] the characters
    taken by the system, round after round, are the message, whole and in
    order; and it does return [true] when every round succeeds and takes at
    least one character. *)
Theorem write_all_delivers_the_whole_message (fuel : nat) (system : nat -> Z -> Written)
  (str : string) :
  (forall call len, 0 < len -> 0 <= wrote (system call len) <= len) ->
  (String.length str <= fuel)%nat ->
  Z.of_nat (String.length str) < 2 ^ 64 ->
  (exists r, write_all fuel system str = Some r
             /\ forall delivered, r = Some delivered -> delivered = str)
  /\ ((forall call len, 0 < len ->
         write_ok (system call len) = true /\ flush_ok (system call len) = true
         /\ 0 < wrote (system call len)) ->
      write_all fuel system str = Some (Some str)).
Proof.
  intros Hsys Hfuel Hlen. unfold write_all.
  assert (Hw : wrap64 (Z.of_nat (String.length str)) = Z.of_nat (String.length str))
    by (unfold wrap64; apply Z.mod_small; lia).
  rewrite Hw. split.
  - apply (write_all_loop_delivers system Hsys fuel 0%nat str EmptyString Hfuel Hlen).
  - intros Hgood.
    apply (write_all_loop_succeeds system) with (file := EmptyString); [| done | done].
    intros call len Hpos. destruct (Hgood call len Hpos) as (Ha & Hb & Hc).
    specialize (Hsys call len Hpos). repeat split; (done || lia).
Qed.

Lemma write_all_in_chunks_example :
  (exists r, write_all 10 (in_chunks 4) "GRAPHICS 7" = Some r
             /\ forall delivered, r = Some delivered -> delivered = "GRAPHICS 7"%string)
  /\ ((forall call len, 0 < len ->
         write_ok (in_chunks 4 call len) = true /\ flush_ok (in_chunks 4 call len) = true
         /\ 0 < wrote (in_chunks 4 call len)) ->
      write_all 10 (in_chunks 4) "GRAPHICS 7" = Some (Some "GRAPHICS 7"%string)).
Proof.
  apply (write_all_delivers_the_whole_message 10 (in_chunks 4) "GRAPHICS 7").
  - intros call len Hpos. unfold in_chunks. cbn [wrote]. lia.
  - cbn. lia.
  - cbn. lia.
Defined.

End PipeFacts.

(** ** The master's work split *)

Module MasterFacts.
Import Supervisor Master.

Lemma range_end_is_next_start processes num i :
  0 <= i -> i + 1 < 2 ^ 32 -> range_end processes num i = range_start processes num (i + 1).
Proof.
  intros Hi Hlt. unfold range_end, range_start.
  replace (wrap32 (i + 1)) with (i + 1) by (unfold wrap32; rewrite Z.mod_small; lia).
  reflexivity.
Qed.

Lemma range_start_exact processes num i :
  0 < processes -> 0 <= num -> processes * num < 2 ^ 32 -> 0 <= i <= processes ->
  range_start processes num i = i * num / processes.
Proof.
  intros Hp Hn Hfit Hi. unfold range_start.
  assert (Hnum : 1 * num <= processes * num) by (apply Z.mul_le_mono_nonneg_r; lia).
  assert (Hin : i * num <= processes * num) by (apply Z.mul_le_mono_nonneg_r; lia).
  assert (H0 : 0 <= i * num) by (apply Z.mul_nonneg_nonneg; lia).
  replace (wrap32 num) with num by (unfold wrap32; rewrite Z.mod_small; lia).
  replace (wrap32 (i * num)) with (i * num) by (unfold wrap32; rewrite Z.mod_small; lia).
  reflexivity.
Qed.

Lemma range_start_mono processes num i :
  0 < processes -> 0 <= num -> processes * num < 2 ^ 32 -> 0 <= i < processes ->
  range_start processes num i <= range_start processes num (i + 1).
Proof.
  intros Hp Hn Hfit Hi. rewrite !range_start_exact by lia.
  apply Z.div_le_mono; [lia |]. apply Z.mul_le_mono_nonneg_r; lia.
Qed.

Lemma indices_of_first_children processes num (k : nat) :
  0 < processes < 2 ^ 32 -> 0 <= num -> processes * num < 2 ^ 32 -> Z.of_nat k <= processes ->
  concat (map (fun i => indices (range_start processes num i) (range_end processes num i))
              (seqZ 0 (Z.of_nat k)))
  = seqZ 0 (range_start processes num (Z.of_nat k)).
Proof.
  intros Hp Hn Hfit. induction k as [| k IH]; intros Hk.
  - cbn. rewrite range_start_exact by lia. rewrite Z.mul_0_l, Z.div_0_l by lia. reflexivity.
  - replace (Z.of_nat (S k)) with (Z.of_nat k + 1) by lia.
    rewrite seqZ_app by lia. rewrite map_app, concat_app, IH by lia.
    replace (seqZ (0 + Z.of_nat k) 1) with [Z.of_nat k] by (unfold seqZ; cbn; f_equal; lia).
    cbn [map concat]. rewrite app_nil_r.
    unfold indices. rewrite range_end_is_next_start by lia.
    pose proof (range_start_mono processes num (Z.of_nat k) (proj1 Hp) Hn Hfit ltac:(lia)) as Hm.
    assert (H0 : 0 <= range_start processes num (Z.of_nat k)).
    { rewrite range_start_exact by lia. apply Z.div_pos; [| lia]. apply Z.mul_nonneg_nonneg; lia. }
    rewrite <- seqZ_app by lia. f_equal. lia.
Qed.

(** X5. The children's graphics ranges, taken in order, list every pipeline
    index from 0 to [num_graphics_pipelines - 1] once, and likewise for
    compute, when [processes * num] fits 32 bits. *)
Theorem children_ranges_cover_every_pipeline_once
  (processes num_graphics_pipelines num_compute_pipelines : Z) :
  0 < processes < 2 ^ 32 ->
  0 <= num_graphics_pipelines -> processes * num_graphics_pipelines < 2 ^ 32 ->
  0 <= num_compute_pipelines -> processes * num_compute_pipelines < 2 ^ 32 ->
  let child := child_progress processes num_graphics_pipelines num_compute_pipelines in
  concat (map (fun i => indices (start_graphics_index (child i)) (end_graphics_index (child i)))
              (seqZ 0 processes))
  = seqZ 0 num_graphics_pipelines
  /\ concat (map (fun i => indices (start_compute_index (child i)) (end_compute_index (child i)))
                 (seqZ 0 processes))
     = seqZ 0 num_compute_pipelines.
Proof.
  intros Hp Hg Hgfit Hc Hcfit child. subst child. unfold child_progress.
  cbn [start_graphics_index end_graphics_index start_compute_index end_compute_index].
  pose proof (indices_of_first_children processes num_graphics_pipelines
                (Z.to_nat processes) Hp Hg Hgfit ltac:(lia)) as Eg.
  pose proof (indices_of_first_children processes num_compute_pipelines
                (Z.to_nat processes) Hp Hc Hcfit ltac:(lia)) as Ec.
  rewrite Z2Nat.id in Eg, Ec by lia. rewrite Eg, Ec.
  rewrite !range_start_exact by lia.
  rewrite !(Z.mul_comm processes), !Z.div_mul by lia. done.
Qed.

Lemma children_ranges_example :
  concat (map (fun i => indices (start_graphics_index (child_progress 3 10 4 i))
                                (end_graphics_index (child_progress 3 10 4 i)))
              (seqZ 0 3))
  = seqZ 0 10
  /\ concat (map (fun i => indices (start_compute_index (child_progress 3 10 4 i))
                                   (end_compute_index (child_progress 3 10 4 i)))
                 (seqZ 0 3))
     = seqZ 0 4.
Proof.
  apply (children_ranges_cover_every_pipeline_once 3 10 4); lia.
Defined.

End MasterFacts.

(** ** What the worker prints, the supervisor reads back *)

Module WorkerFacts.
Import Supervisor Worker Scenarios.

Lemma digits_of_value fuel base n acc :
  2 <= base -> 0 <= n < base ^ Z.of_nat fuel ->
  fold_left (fun a d => a * base + d) (digits_of fuel base n acc) 0
  = fold_left (fun a d => a * base + d) acc n.
Proof.
  intros Hbase. revert n acc. induction fuel as [| fuel IH]; intros n acc Hn.
  - cbn in *. replace n with 0 by lia. reflexivity.
  - cbn [digits_of]. destruct (Z.ltb_spec n base) as [Hlt | Hge].
    + cbn. reflexivity.
    + rewrite IH.
      * cbn. f_equal. rewrite Z.mul_comm. symmetry. apply Z.div_mod. lia.
      * split; [apply Z.div_pos; lia |].
        apply Z.div_lt_upper_bound; [lia |].
        replace (Z.of_nat (S fuel)) with (Z.succ (Z.of_nat fuel)) in Hn by lia.
        rewrite Z.pow_succ_r in Hn by lia. lia.
Qed.

Lemma digits_of_range fuel base n acc :
  2 <= base -> 0 <= n ->
  Forall (fun d => 0 <= d < base) acc ->
  Forall (fun d => 0 <= d < base) (digits_of fuel base n acc).
Proof.
  intros Hbase. revert n acc. induction fuel as [| fuel IH]; intros n acc Hn Hacc; [done |].
  cbn [digits_of]. destruct (Z.ltb_spec n base) as [Hlt | Hge].
  - constructor; [lia | done].
  - apply IH; [apply Z.div_pos; lia |].
    constructor; [apply Z.mod_pos_bound; lia | done].
Qed.

Lemma digits_of_length fuel base n acc :
  (length (digits_of fuel base n acc) <= fuel + length acc)%nat.
Proof.
  revert n acc. induction fuel as [| fuel IH]; intros n acc; [cbn; lia |].
  cbn [digits_of]. destruct (n <? base); [cbn; lia |].
  etransitivity; [apply IH |]. cbn. lia.
Qed.

(** The first digit printed is not 0, unless the number is 0 and is
    printed as the single digit 0. *)
Lemma digits_of_head fuel base n :
  2 <= base -> 0 <= n < base ^ Z.of_nat (S fuel) ->
  exists d rest,
    digits_of (S fuel) base n [] = d :: rest
    /\ (n = 0 -> d = 0 /\ rest = [])
    /\ (0 < n -> 1 <= d).
Proof.
  intros Hbase.
  assert (Hgen : forall fuel n acc,
            0 <= n < base ^ Z.of_nat (S fuel) ->
            exists d rest,
              digits_of (S fuel) base n acc = d :: rest
              /\ (n = 0 -> d = 0 /\ rest = acc)
              /\ (0 < n -> 1 <= d)).
  { clear fuel n. induction fuel as [| fuel IH]; intros n acc Hn.
    - cbn [digits_of]. destruct (Z.ltb_spec n base) as [Hlt | Hge].
      + exists n, acc. repeat split; lia.
      + cbn in Hn. lia.
    - remember (S fuel) as f eqn:Hf. cbn [digits_of].
      destruct (Z.ltb_spec n base) as [Hlt | Hge].
      + exists n, acc. repeat split; lia.
      + subst f.
        destruct (IH (n / base) (n mod base :: acc)) as (d & rest & E & _ & Hpos).
        * split; [apply Z.div_pos; lia |].
          apply Z.div_lt_upper_bound; [lia |].
          replace (Z.of_nat (S (S fuel))) with (Z.succ (Z.of_nat (S fuel))) in Hn by lia.
          rewrite Z.pow_succ_r in Hn by lia. lia.
        * exists d, rest. split; [exact E |]. split; [lia |].
          intros _. apply Hpos. apply Z.div_str_pos. lia. }
  intros Hn. apply Hgen. exact Hn.
Qed.

Lemma print_digits_decimal digits :
  Forall (fun d => 0 <= d < 10) digits -> print_digits digits = decimal_string digits.
Proof.
  induction 1 as [| d digits Hd _ IH]; [reflexivity |].
  cbn [print_digits decimal_string]. rewrite IH. unfold digit_char.
  destruct (Z.ltb_spec d 10); [reflexivity | lia].
Qed.

Lemma print_digits_length digits : String.length (print_digits digits) = length digits.
Proof. induction digits as [| d digits IH]; [reflexivity |]. cbn. by rewrite IH. Qed.

Lemma length_append_string (a b : string) :
  String.length (a ++ b) = (String.length a + String.length b)%nat.
Proof.
  induction a as [| c a IH]; [reflexivity |].
  rewrite SupervisorFacts.append_String. cbn. by rewrite IH.
Qed.

(** ["%u"] of an [unsigned], read by [strtol(..., 0)] into a 32-bit
    [long]: the index itself below [2^31], [LONG_MAX] from there on. *)
Lemma strtol_print_u n :
  0 <= n < 2 ^ 32 -> strtol (" " ++ print_u n ++ newline) 0 = Z.min n LONG_MAX.
Proof.
  intros Hn. unfold print_u.
  replace (wrap32 n) with n by (unfold wrap32; rewrite Z.mod_small; lia).
  destruct (digits_of_head 9 10 n ltac:(lia) ltac:(lia)) as (d & rest & E & Hzero & Hpos).
  pose proof (digits_of_range 10 10 n [] ltac:(lia) ltac:(lia) ltac:(constructor)) as Hrange.
  pose proof (digits_of_value 10 10 n [] ltac:(lia) ltac:(lia)) as Hvalue.
  rewrite E in *. cbn [fold_left] in Hvalue.
  rewrite print_digits_decimal by exact Hrange. change newline with LF.
  destruct (Z.eq_dec n 0) as [-> | Hne].
  - destruct (Hzero eq_refl) as [-> ->]. reflexivity.
  - assert (Hrange' := Hrange). apply Forall_cons in Hrange' as [Hd Hrest].
    rewrite (SupervisorFacts.strtol_numeral d rest LF).
    + unfold decimal_value. cbn [fold_left]. by rewrite Hvalue.
    + lia.
    + eapply Forall_impl; [exact Hrest |]. cbn. lia.
    + by right.
Qed.

Lemma hex_digit_cases d :
  0 <= d < 16 ->
  d = 0 \/ d = 1 \/ d = 2 \/ d = 3 \/ d = 4 \/ d = 5 \/ d = 6 \/ d = 7
  \/ d = 8 \/ d = 9 \/ d = 10 \/ d = 11 \/ d = 12 \/ d = 13 \/ d = 14 \/ d = 15.
Proof. lia. Qed.

Lemma digit_char_facts d :
  0 <= d < 16 ->
  isspace (digit_char d) = false
  /\ digit_char d <> "-"%char /\ digit_char d <> "+"%char
  /\ Ascii.eqb (digit_char d) "x" = false /\ Ascii.eqb (digit_char d) "X" = false
  /\ Ascii.eqb (digit_char d) (ascii_of_nat 10) = false
  /\ digit_value (digit_char d) = Some d.
Proof.
  intros Hd.
  destruct (hex_digit_cases d Hd)
    as [-> | [-> | [-> | [-> | [-> | [-> | [-> | [-> | [-> | [-> | [-> | [-> | [-> | [-> | [-> | ->]]]]]]]]]]]]]]];
    repeat split; (reflexivity || discriminate).
Qed.

Lemma scan_digits_print base acc digits tail :
  base <= 16 -> Forall (fun d => 0 <= d < base) digits ->
  scan_digits base acc (print_digits digits ++ newline ++ tail)
  = fold_left (fun a d => a * base + d) digits acc.
Proof.
  intros Hbase Hall. revert acc. induction Hall as [| d digits Hd _ IH]; intros acc.
  - reflexivity.
  - cbn [print_digits fold_left]. rewrite SupervisorFacts.append_String. cbn [scan_digits].
    destruct (digit_char_facts d ltac:(lia)) as (_ & _ & _ & _ & _ & _ & ->).
    destruct (Z.ltb_spec d base); [apply IH | lia].
Qed.

Lemma skip_space_at_digit c s : isspace c = false -> skip_space (String c s) = String c s.
Proof. intros H. cbn. by rewrite H. Qed.

Lemma scan_sign_at_digit c s :
  c <> "-"%char -> c <> "+"%char -> scan_sign (String c s) = (false, String c s).
Proof.
  intros Hm Hp. destruct c as [[] [] [] [] [] [] [] []]; try reflexivity; congruence.
Qed.

Lemma has_hex_prefix_without_x c0 c1 s :
  Ascii.eqb c1 "x" = false -> Ascii.eqb c1 "X" = false ->
  has_hex_prefix (String c0 (String c1 s)) = None.
Proof.
  intros Hx HX. destruct c0 as [[] [] [] [] [] [] [] []]; try reflexivity.
  destruct s as [| h s]; [reflexivity |]. cbn. by rewrite Hx, HX.
Qed.

Lemma has_hex_prefix_of_digits digits tail :
  Forall (fun d => 0 <= d < 16) digits -> digits <> [] ->
  has_hex_prefix (print_digits digits ++ newline ++ tail) = None.
Proof.
  intros Hall Hne. destruct Hall as [| d digits Hd Hall]; [done |].
  cbn [print_digits]. rewrite SupervisorFacts.append_String.
  destruct Hall as [| d' digits' Hd' _].
  - apply has_hex_prefix_without_x; reflexivity.
  - cbn [print_digits]. rewrite SupervisorFacts.append_String.
    destruct (digit_char_facts d' Hd') as (_ & _ & _ & Hx & HX & _).
    by apply has_hex_prefix_without_x.
Qed.

(** A line of hexadecimal digits as ["%llx"] prints them, read by
    [strtoull(..., 16)]. *)
Lemma scan_number_hex_line digits tail :
  Forall (fun d => 0 <= d < 16) digits -> digits <> [] ->
  scan_number (print_digits digits ++ newline ++ tail) 16
  = (false, fold_left (fun a d => a * 16 + d) digits 0).
Proof.
  intros Hall Hne. unfold scan_number.
  pose proof (has_hex_prefix_of_digits digits tail Hall Hne) as Hprefix.
  pose proof (scan_digits_print 16 0 digits tail ltac:(lia) Hall) as Hscan.
  destruct digits as [| d digits]; [done |].
  apply Forall_cons in Hall as [Hd _].
  cbn [print_digits] in *. rewrite SupervisorFacts.append_String in *.
  destruct (digit_char_facts d Hd) as (Hsp & Hm & Hp & _).
  rewrite skip_space_at_digit by exact Hsp.
  rewrite scan_sign_at_digit by assumption.
  unfold scan_base. cbn [Z.eqb]. rewrite Hprefix.
  change (16 =? 16)%positive with true. cbv iota beta. rewrite Hscan. reflexivity.
Qed.

Lemma scan_number_after_space s base : scan_number (" " ++ s) base = scan_number s base.
Proof. reflexivity. Qed.

Lemma print_llx_digits h :
  0 <= h < 2 ^ 64 ->
  exists digits,
    print_llx h = print_digits digits
    /\ Forall (fun d => 0 <= d < 16) digits /\ digits <> []
    /\ (length digits <= 16)%nat
    /\ fold_left (fun a d => a * 16 + d) digits 0 = h.
Proof.
  intros Hh. unfold print_llx.
  replace (wrap64 h) with h by (unfold wrap64; rewrite Z.mod_small; lia).
  exists (digits_of 16 16 h []). split; [reflexivity |].
  split; [apply digits_of_range; [lia | lia | constructor] |].
  split.
  { destruct (digits_of_head 15 16 h ltac:(lia) ltac:(lia)) as (d & rest & -> & _). done. }
  split; [apply (digits_of_length 16 16 h []) |].
  apply (digits_of_value 16 16 h []); lia.
Qed.

Lemma strtoull_print_llx h tail :
  0 <= h < 2 ^ 64 ->
  strtoull (print_llx h ++ newline ++ tail) 16 = h
  /\ strtoull (" " ++ print_llx h ++ newline ++ tail) 16 = h
  /\ strtoull_out_of_range (print_llx h ++ newline ++ tail) 16 = false.
Proof.
  intros Hh. destruct (print_llx_digits h Hh) as (digits & -> & Hall & Hne & _ & Hvalue).
  unfold strtoull, strtoull_out_of_range.
  rewrite scan_number_after_space, (scan_number_hex_line digits tail Hall Hne), Hvalue.
  cbn [snd]. unfold ULLONG_MAX.
  destruct (Z.ltb_spec (2 ^ 64 - 1) h); [lia | done].
Qed.

(** *** The four kinds of message, as [parse] handles them *)

Lemma parse_crash new_timer tail st :
  parse new_timer ("CRASH" ++ tail) st = (set_timer_handle new_timer (fst st), snd st).
Proof.
  destruct st as [p g]. unfold parse.
  replace (starts_with "CRASH" ("CRASH" ++ tail)) with true
    by (unfold starts_with; rewrite !SupervisorFacts.append_String; cbn; by destruct tail).
  reflexivity.
Qed.

Lemma parse_graphics new_timer tail st :
  parse new_timer ("GRAPHICS" ++ tail) st
  = (set_graphics_progress (strtol tail 0) (fst st), snd st).
Proof.
  destruct st as [p g]. unfold parse.
  replace (starts_with "CRASH" ("GRAPHICS" ++ tail)) with false by reflexivity.
  replace (starts_with "GRAPHICS" ("GRAPHICS" ++ tail)) with true
    by (unfold starts_with; rewrite !SupervisorFacts.append_String; cbn; by destruct tail).
  reflexivity.
Qed.

Lemma parse_compute new_timer tail st :
  parse new_timer ("COMPUTE" ++ tail) st
  = (set_compute_progress (strtol tail 0) (fst st), snd st).
Proof.
  destruct st as [p g]. unfold parse.
  replace (starts_with "CRASH" ("COMPUTE" ++ tail)) with false by reflexivity.
  replace (starts_with "GRAPHICS" ("COMPUTE" ++ tail)) with false by reflexivity.
  replace (starts_with "COMPUTE" ("COMPUTE" ++ tail)) with true
    by (unfold starts_with; rewrite !SupervisorFacts.append_String; cbn; by destruct tail).
  reflexivity.
Qed.

Lemma parse_module new_timer tail st :
  parse new_timer ("MODULE" ++ tail) st
  = (fst st, record_faulty_module (strtoull tail 16) ("MODULE" ++ tail) (snd st)).
Proof.
  destruct st as [p g]. unfold parse.
  replace (starts_with "CRASH" ("MODULE" ++ tail)) with false by reflexivity.
  replace (starts_with "GRAPHICS" ("MODULE" ++ tail)) with false by reflexivity.
  replace (starts_with "COMPUTE" ("MODULE" ++ tail)) with false by reflexivity.
  replace (starts_with "MODULE" ("MODULE" ++ tail)) with true
    by (unfold starts_with; rewrite !SupervisorFacts.append_String; cbn; by destruct tail).
  reflexivity.
Qed.

(** A message shorter than the pipe buffer is parsed and the next read is
    started. *)
Lemma flush_messages_cons new_timer msg rest st :
  is_Some (crash_file_handle (fst st)) ->
  (String.length msg < 1024)%nat ->
  flush_messages new_timer (msg :: rest) st
  = flush_messages new_timer rest (parse new_timer msg st).
Proof.
  intros [pipe Hpipe] Hlen. cbn [flush_messages]. unfold process_once. rewrite Hpipe.
  unfold sizeof_async_pipe_buffer.
  destruct (Z.ltb_spec (Z.of_nat (String.length msg)) 1024); [reflexivity | lia].
Qed.

Lemma flush_messages_nil new_timer st : flush_messages new_timer [] st = st.
Proof. cbn. unfold process_once. by destruct (crash_file_handle (fst st)). Qed.

Lemma print_llx_length h : (String.length (print_llx h) <= 16)%nat.
Proof. unfold print_llx. rewrite print_digits_length. apply (digits_of_length 16 16 _ []). Qed.

Lemma print_u_length n : (String.length (print_u n) <= 10)%nat.
Proof. unfold print_u. rewrite print_digits_length. apply (digits_of_length 10 10 _ []). Qed.

(** The [MODULE] messages of a crash report put their hashes on the
    blacklist and leave the progress record alone. *)
Lemma flush_module_messages new_timer modules rest p g :
  is_Some (crash_file_handle p) ->
  Forall (fun h => 0 <= h < 2 ^ 64) modules ->
  exists g',
    flush_messages new_timer
      (map (fun hash => ("MODULE " ++ print_llx hash ++ newline)%string) modules ++ rest) (p, g)
    = flush_messages new_timer rest (p, g')
    /\ faulty_spirv_modules g' = list_to_set modules ∪ faulty_spirv_modules g
    /\ active_processes g' = active_processes g.
Proof.
  intros Hpipe Hall. revert g. induction Hall as [| h modules Hh _ IH]; intros g.
  - exists g. split; [reflexivity |]. split; [| reflexivity].
    cbn. by rewrite (left_id_L ∅ (∪)).
  - cbn [map app]. rewrite flush_messages_cons; [| exact Hpipe |].
    2: { rewrite !length_append_string. pose proof (print_llx_length h).
         unfold newline. cbn [String.length]. lia. }
    change ("MODULE " ++ print_llx h ++ newline)%string
      with ("MODULE" ++ (" " ++ print_llx h ++ newline ++ EmptyString))%string at 1.
    rewrite parse_module. cbn [fst snd].
    destruct (strtoull_print_llx h EmptyString Hh) as (_ & -> & _).
    destruct (IH (record_faulty_module h
                    ("MODULE" ++ " " ++ print_llx h ++ newline ++ EmptyString) g)) as (g' & E & Hf & Ha).
    exists g'. split; [exact E |]. split; [| by rewrite Ha].
    rewrite Hf. cbn. apply set_eq. intros x. rewrite !elem_of_union. tauto.
Qed.

(** The state the supervisor is left in once it has read a whole crash
    report. *)
Lemma crash_report_state new_timer modules graphics compute p g :
  is_Some (crash_file_handle p) ->
  Forall (fun h => 0 <= h < 2 ^ 64) modules ->
  0 <= graphics < 2 ^ 32 -> 0 <= compute < 2 ^ 32 ->
  exists g',
    flush_messages new_timer (crash_handler modules graphics compute) (p, g)
    = (set_compute_progress (Z.min compute LONG_MAX)
         (set_graphics_progress (Z.min graphics LONG_MAX) (set_timer_handle new_timer p)), g')
    /\ faulty_spirv_modules g' = list_to_set modules ∪ faulty_spirv_modules g
    /\ active_processes g' = active_processes g.
Proof.
  intros Hpipe Hall Hg Hc. unfold crash_handler.
  cbn [app]. rewrite flush_messages_cons; [| exact Hpipe |].
  2: { rewrite length_append_string. unfold newline. cbn [String.length]. lia. }
  rewrite parse_crash. cbn [fst snd].
  destruct (flush_module_messages new_timer modules
              [("GRAPHICS " ++ print_u graphics ++ newline)%string;
               ("COMPUTE " ++ print_u compute ++ newline)%string]
              (set_timer_handle new_timer p) g) as (g' & E & Hf & Ha); [exact Hpipe | exact Hall |].
  rewrite E. exists g'. split; [| done].
  rewrite flush_messages_cons; [| exact Hpipe |].
  2: { rewrite !length_append_string. pose proof (print_u_length graphics).
       unfold newline. cbn [String.length]. lia. }
  change ("GRAPHICS " ++ print_u graphics ++ newline)%string
    with ("GRAPHICS" ++ (" " ++ print_u graphics ++ newline))%string.
  rewrite parse_graphics, strtol_print_u by exact Hg. cbn [fst snd].
  rewrite flush_messages_cons; [| exact Hpipe |].
  2: { rewrite !length_append_string. pose proof (print_u_length compute).
       unfold newline. cbn [String.length]. lia. }
  change ("COMPUTE " ++ print_u compute ++ newline)%string
    with ("COMPUTE" ++ (" " ++ print_u compute ++ newline))%string.
  rewrite parse_compute, strtol_print_u by exact Hc. cbn [fst snd].
  apply flush_messages_nil.
Qed.

(** X6. The supervisor reads back what [crash_handler] reports, for every
    pair of [unsigned] indices: after the messages of a crash report the
    progress record holds each index as [strtol] into a 32-bit [long] scans
    it (the index itself when it is below [2^31], 2147483647 from there on),
    the timeout is armed and the reported modules are on the blacklist. *)
Theorem crash_report_is_read_back (new_timer : option HANDLE) (modules : list Z)
  (graphics compute : Z) (st : ProcessProgress * Global) :
  is_Some (crash_file_handle (fst st)) ->
  Forall (fun h => 0 <= h < 2 ^ 64) modules ->
  0 <= graphics < 2 ^ 32 -> 0 <= compute < 2 ^ 32 ->
  let st' := flush_messages new_timer (crash_handler modules graphics compute) st in
  graphics_progress (fst st') = Z.min graphics (2 ^ 31 - 1)
  /\ compute_progress (fst st') = Z.min compute (2 ^ 31 - 1)
  /\ (graphics < 2 ^ 31 -> graphics_progress (fst st') = graphics)
  /\ (compute < 2 ^ 31 -> compute_progress (fst st') = compute)
  /\ timer_handle (fst st') = new_timer
  /\ faulty_spirv_modules (snd st') = list_to_set modules ∪ faulty_spirv_modules (snd st).
Proof.
  intros Hpipe Hall Hg Hc st'. subst st'. destruct st as [p g]. cbn [fst snd] in *.
  destruct (crash_report_state new_timer modules graphics compute p g Hpipe Hall Hg Hc)
    as (g' & -> & Hf & _).
  cbn [fst snd graphics_progress compute_progress set_compute_progress set_graphics_progress].
  unfold LONG_MAX. repeat split; auto; lia.
Qed.

Lemma crash_report_example :
  graphics_progress
    (fst (flush_messages (Some 7) (crash_handler [3735928559] 1 3000000000) crashed_worker))
  = 1
  /\ compute_progress
       (fst (flush_messages (Some 7) (crash_handler [3735928559] 1 3000000000) crashed_worker))
     = 2147483647
  /\ timer_handle
       (fst (flush_messages (Some 7) (crash_handler [3735928559] 1 3000000000) crashed_worker))
     = Some 7
  /\ faulty_spirv_modules
       (snd (flush_messages (Some 7) (crash_handler [3735928559] 1 3000000000) crashed_worker))
     = list_to_set [3735928559] ∪ faulty_spirv_modules (snd crashed_worker).
Proof.
  destruct (crash_report_is_read_back (Some 7) [3735928559] 1 3000000000 crashed_worker)
    as (Hg & Hc & _ & _ & Ht & Hb).
  - eexists. reflexivity.
  - repeat constructor; lia.
  - lia.
  - lia.
  - split; [exact Hg |]. split; [exact Hc |]. split; [exact Ht | exact Hb].
Defined.

(** X7. A worker that crashes, reports through [crash_handler] and exits with
    a non-zero code is started again over what is left of its two ranges,
    from the indices the supervisor read (the reported index when it is
    below [2^31], 2147483647 from there on), and the new worker is sent the
    old blacklist together with the modules just reported. *)
Theorem crashed_worker_resumes_where_it_stopped (new_timer : option HANDLE)
  (modules : list Z) (graphics compute code : Z) (os : spawn_os)
  (st : ProcessProgress * Global) :
  is_Some (process (fst st)) -> is_Some (crash_file_handle (fst st)) ->
  Forall (fun h => 0 <= h < 2 ^ 64) modules ->
  0 <= graphics < 2 ^ 32 -> 0 <= compute < 2 ^ 32 ->
  code <> 0 ->
  let read_graphics := Z.min graphics (2 ^ 31 - 1) in
  let read_compute := Z.min compute (2 ^ 31 - 1) in
  ~ (end_graphics_index (fst st) <= read_graphics
     /\ end_compute_index (fst st) <= read_compute) ->
  os <> CreateFailed ->
  snd (on_process_exit new_timer (crash_handler modules graphics compute) (ExitCode code) os st)
  = Some {| graphics_pipeline_range := (read_graphics, end_graphics_index (fst st));
            compute_pipeline_range := (read_compute, end_compute_index (fst st));
            ignored_modules := list_to_set modules ∪ faulty_spirv_modules (snd st) |}.
Proof.
  intros [h Hproc] Hpipe Hall Hg Hc Hcode read_graphics read_compute Hleft Hos.
  destruct st as [p g]. cbn [fst snd] in *.
  destruct (crash_report_state new_timer modules graphics compute p g Hpipe Hall Hg Hc)
    as (g' & Eflush & Hf & _).
  change (Z.min graphics LONG_MAX) with read_graphics in Eflush.
  change (Z.min compute LONG_MAX) with read_compute in Eflush.
  assert (Hrg : 0 <= read_graphics < 2 ^ 32) by (subst read_graphics; lia).
  assert (Hrc : 0 <= read_compute < 2 ^ 32) by (subst read_compute; lia).
  clearbody read_graphics read_compute.
  unfold on_process_exit.
  rewrite (SupervisorFacts.process_shutdown_unfold new_timer _ code (p, g) h)
    by (rewrite Eflush; exact Hproc).
  rewrite Eflush. cbv zeta. cbn [fst snd].
  set (p1 := set_process None (close_handles _)).
  set (g1 := set_active_processes _ g').
  assert (Hgp : graphics_progress p1 = read_graphics) by reflexivity.
  assert (Hcp : compute_progress p1 = read_compute) by reflexivity.
  assert (Heg : end_graphics_index p1 = end_graphics_index p) by reflexivity.
  assert (Hec : end_compute_index p1 = end_compute_index p) by reflexivity.
  assert (Hbl : faulty_spirv_modules g1 = faulty_spirv_modules g') by reflexivity.
  clearbody p1 g1.
  rewrite SupervisorFacts.after_reap_with_progress by (rewrite ?Hgp, ?Hcp; lia).
  rewrite Hgp, Hcp, Heg, Hec.
  replace ((end_graphics_index p <=? read_graphics) && (end_compute_index p <=? read_compute))
    with false
    by (symmetry; apply andb_false_iff;
        destruct (Z.leb_spec (end_graphics_index p) read_graphics);
        destruct (Z.leb_spec (end_compute_index p) read_compute); auto;
        exfalso; apply Hleft; split; lia).
  cbn [negb].
  destruct (SupervisorFacts.start_child_process_launches os
              (set_start read_graphics read_compute p1) (add_clean_process_death g1))
    as [Hl _].
  - destruct p1; cbn in *. subst. exact Hleft.
  - exact Hos.
  - rewrite Hl. destruct p1; cbn in *. subst.
    replace (faulty_spirv_modules g1) with (faulty_spirv_modules g'). by rewrite Hf.
Qed.

Lemma crashed_worker_resumes_example :
  snd (on_process_exit (Some 7) (crash_handler [3735928559] 1 0) (ExitCode 2) (Started 4 5 6)
         crashed_worker)
  = Some {| graphics_pipeline_range := (1, 3);
            compute_pipeline_range := (0, 2);
            ignored_modules := list_to_set [3735928559] ∪ faulty_spirv_modules (snd crashed_worker) |}.
Proof.
  apply (crashed_worker_resumes_where_it_stopped (Some 7) [3735928559] 1 0 2 (Started 4 5 6)
           crashed_worker).
  - eexists. reflexivity.
  - eexists. reflexivity.
  - repeat constructor; lia.
  - lia.
  - lia.
  - lia.
  - cbn. lia.
  - discriminate.
Defined.

(** *** The blacklist on its way to a new worker *)

Lemma fgets_line n digits tail :
  Forall (fun d => 0 <= d < 16) digits -> (length digits < n)%nat ->
  fgets n (print_digits digits ++ newline ++ tail) = ((print_digits digits ++ newline)%string, tail).
Proof.
  intros Hall. revert n. induction Hall as [| d digits Hd _ IH]; intros n Hn.
  - destruct n as [| n]; [cbn in Hn; lia |]. reflexivity.
  - destruct n as [| n]; [cbn in Hn; lia |].
    cbn [print_digits]. rewrite !SupervisorFacts.append_String. cbn [fgets].
    destruct (digit_char_facts d Hd) as (_ & _ & _ & _ & _ & -> & _).
    rewrite IH by (cbn in Hn; lia). reflexivity.
Qed.

Lemma read_ignored_modules_line fuel h tail :
  0 <= h < 2 ^ 64 ->
  read_ignored_modules (S fuel) (print_llx h ++ newline ++ tail)
  = if h =? 0 then [] else h :: read_ignored_modules fuel tail.
Proof.
  intros Hh.
  destruct (strtoull_print_llx h EmptyString Hh) as (Hvalue & _ & Hrange).
  destruct (print_llx_digits h Hh) as (digits & E & Hall & Hne & Hlen & _).
  rewrite E in *. cbn [read_ignored_modules].
  rewrite (fgets_line 17 digits tail Hall) by lia.
  change (print_digits digits ++ newline)%string
    with (print_digits digits ++ newline ++ EmptyString)%string.
  rewrite Hvalue, Hrange.
  destruct digits as [| d digits]; [done |].
  cbn [print_digits]. rewrite SupervisorFacts.append_String.
  destruct (h =? 0); reflexivity.
Qed.

Lemma read_ignored_modules_all fuel modules :
  Forall (fun h => 0 < h < 2 ^ 64) modules -> (length modules < fuel)%nat ->
  read_ignored_modules fuel (send_faulty_modules modules) = modules
  /\ forall rest,
       read_ignored_modules fuel (send_faulty_modules (modules ++ 0 :: rest)) = modules.
Proof.
  intros Hall. revert fuel. induction Hall as [| h modules Hh _ IH]; intros fuel Hfuel.
  - destruct fuel as [| fuel]; [cbn in Hfuel; lia |]. split; [reflexivity |].
    intros rest. cbn [app send_faulty_modules fold_right].
    by rewrite (read_ignored_modules_line fuel 0 _ ltac:(lia)).
  - destruct fuel as [| fuel]; [cbn in Hfuel; lia |].
    destruct (IH fuel ltac:(cbn in Hfuel; lia)) as [IH1 IH2].
    assert (Hne : (h =? 0) = false) by (apply Z.eqb_neq; lia).
    split.
    + cbn [send_faulty_modules fold_right].
      rewrite (read_ignored_modules_line fuel h _ ltac:(lia)), Hne.
      f_equal. exact IH1.
    + intros rest. cbn [app send_faulty_modules fold_right].
      rewrite (read_ignored_modules_line fuel h _ ltac:(lia)), Hne.
      f_equal. apply IH2.
Qed.

Lemma send_faulty_modules_length modules :
  (length modules <= String.length (send_faulty_modules modules))%nat.
Proof.
  induction modules as [| h modules IH]; [cbn; lia |].
  cbn [send_faulty_modules fold_right length].
  rewrite !length_append_string. unfold newline at 1. cbn [String.length].
  fold (send_faulty_modules modules). lia.
Qed.

(** X8. The blacklist reaches the new worker: the hashes the master writes
    with ["%llx\n"] are the hashes the worker masks, in the same order.
    A hash 0 on the list ends the worker's reading: it and every hash
    written after it are not masked. *)
Theorem worker_masks_the_hashes_sent (modules rest : list Z) :
  Forall (fun h => 0 < h < 2 ^ 64) modules ->
  ignored_modules_of (send_faulty_modules modules) = modules
  /\ ignored_modules_of (send_faulty_modules (modules ++ 0 :: rest)) = modules.
Proof.
  intros Hall. unfold ignored_modules_of. split.
  - apply read_ignored_modules_all; [exact Hall |].
    pose proof (send_faulty_modules_length modules). lia.
  - apply read_ignored_modules_all; [exact Hall |].
    pose proof (send_faulty_modules_length (modules ++ 0 :: rest)) as H.
    rewrite length_app in H. cbn in H. lia.
Qed.

Lemma worker_masks_example :
  ignored_modules_of (send_faulty_modules [3735928559; 10]) = [3735928559; 10]
  /\ ignored_modules_of (send_faulty_modules ([3735928559; 10] ++ 0 :: [77]))
     = [3735928559; 10].
Proof.
  apply (worker_masks_the_hashes_sent [3735928559; 10] [77]).
  repeat constructor; lia.
Defined.

End WorkerFacts.

(** ** Respawning and shutting down *)

Module RespawnFacts.
Import Supervisor.

Lemma parse_keeps_graphics_progress new_timer cmd st :
  starts_with "GRAPHICS" cmd = false ->
  graphics_progress (fst (parse new_timer cmd st)) = graphics_progress (fst st).
Proof.
  intros H. destruct st as [p g]. unfold parse. rewrite H.
  repeat (match goal with |- context [if ?b then _ else _] => destruct b end); reflexivity.
Qed.

Lemma parse_keeps_compute_progress new_timer cmd st :
  starts_with "COMPUTE" cmd = false ->
  compute_progress (fst (parse new_timer cmd st)) = compute_progress (fst st).
Proof.
  intros H. destruct st as [p g]. unfold parse. rewrite H.
  repeat (match goal with |- context [if ?b then _ else _] => destruct b end); reflexivity.
Qed.

Lemma flush_messages_keeps_graphics_progress new_timer pending st :
  Forall (fun m => starts_with "GRAPHICS" m = false) pending ->
  graphics_progress (fst (flush_messages new_timer pending st)) = graphics_progress (fst st).
Proof.
  intros Hall. revert st. induction Hall as [| msg rest Hmsg _ IH]; intros st; cbn [flush_messages].
  - unfold process_once. by destruct (crash_file_handle (fst st)).
  - unfold process_once. destruct (crash_file_handle (fst st)); [| done].
    destruct (_ <? _); [| done].
    rewrite IH. by apply parse_keeps_graphics_progress.
Qed.

Lemma flush_messages_keeps_compute_progress new_timer pending st :
  Forall (fun m => starts_with "COMPUTE" m = false) pending ->
  compute_progress (fst (flush_messages new_timer pending st)) = compute_progress (fst st).
Proof.
  intros Hall. revert st. induction Hall as [| msg rest Hmsg _ IH]; intros st; cbn [flush_messages].
  - unfold process_once. by destruct (crash_file_handle (fst st)).
  - unfold process_once. destruct (crash_file_handle (fst st)); [| done].
    destruct (_ <? _); [| done].
    rewrite IH. by apply parse_keeps_compute_progress.
Qed.

Lemma after_reap_needs_both_markers code st :
  graphics_progress (fst st) < 0 \/ compute_progress (fst st) < 0 ->
  fst (after_reap code st) = false.
Proof.
  intros Hneg. destruct st as [p g]. unfold after_reap. cbn [fst] in Hneg.
  destruct (code =? 0); [reflexivity |].
  replace ((graphics_progress p <? 0) || (compute_progress p <? 0)) with true; [reflexivity |].
  symmetry. apply orb_true_iff. destruct Hneg; [left | right]; by apply Z.ltb_lt.
Qed.

Lemma process_shutdown_needs_both_markers new_timer pending r st :
  graphics_progress (fst (flush_messages new_timer pending st)) < 0
  \/ compute_progress (fst (flush_messages new_timer pending st)) < 0 ->
  fst (process_shutdown new_timer pending r st) = false.
Proof.
  intros Hneg. unfold process_shutdown.
  destruct (flush_messages new_timer pending st) as [p g]. cbn [fst] in Hneg.
  cbn [close_handles process].
  destruct (process p); [destruct r |]; try reflexivity;
    apply after_reap_needs_both_markers; exact Hneg.
Qed.

(** X9. A worker is started again only on the strength of markers received
    during its own run: [start_child_process] forgets the progress of the
    run before, and a worker that then goes away without a [GRAPHICS]
    message, or without a [COMPUTE] message, is not started again,
    whatever its exit code. *)
Theorem no_respawn_without_both_markers (new_timer : option HANDLE) (pending : list string)
  (r : reaped) (os os' : spawn_os) (st : ProcessProgress * Global) :
  Forall (fun m => starts_with "GRAPHICS" m = false) pending
  \/ Forall (fun m => starts_with "COMPUTE" m = false) pending ->
  let started := snd (fst (start_child_process os st)) in
  on_process_exit new_timer pending r os' started
  = (true, snd (process_shutdown new_timer pending r started), None).
Proof.
  intros Hpending started.
  assert (Hreset : graphics_progress (fst started) = -1 /\ compute_progress (fst started) = -1).
  { subst started. destruct st as [p g]. unfold start_child_process.
    destruct (_ && _); [done |]. destruct os; done. }
  destruct Hreset as [Hg Hc].
  unfold on_process_exit.
  pose proof (process_shutdown_needs_both_markers new_timer pending r started) as Hs.
  destruct (process_shutdown new_timer pending r started) as [again st1].
  cbn [fst snd] in *. rewrite Hs; [reflexivity |].
  destruct Hpending as [Hp | Hp].
  - left. rewrite flush_messages_keeps_graphics_progress by exact Hp. lia.
  - right. rewrite flush_messages_keeps_compute_progress by exact Hp. lia.
Qed.

Lemma no_respawn_example :
  on_process_exit None ["CRASH"%string; "GRAPHICS 5"%string] (ExitCode 2) (Started 7 8 9)
    (snd (fst (start_child_process (Started 4 5 6) Scenarios.crashed_worker)))
  = (true,
     snd (process_shutdown None ["CRASH"%string; "GRAPHICS 5"%string] (ExitCode 2)
            (snd (fst (start_child_process (Started 4 5 6) Scenarios.crashed_worker)))),
     None).
Proof.
  apply (no_respawn_without_both_markers None ["CRASH"%string; "GRAPHICS 5"%string]
           (ExitCode 2) (Started 4 5 6) (Started 7 8 9) Scenarios.crashed_worker).
  right. repeat constructor.
Defined.

Lemma flush_messages_keeps_ranges new_timer pending st :
  start_graphics_index (fst (flush_messages new_timer pending st)) = start_graphics_index (fst st)
  /\ start_compute_index (fst (flush_messages new_timer pending st)) = start_compute_index (fst st).
Proof.
  revert st. induction pending as [| msg rest IH]; intros st; cbn [flush_messages].
  - unfold process_once. destruct (crash_file_handle (fst st)); cbn; auto.
  - unfold process_once. destruct (crash_file_handle (fst st)); cbn; auto.
    destruct (_ <? _); cbn; auto.
    destruct (IH (parse new_timer msg st)) as [H1 H2]. rewrite H1, H2.
    destruct st as [p g]. unfold parse.
    repeat (match goal with |- context [if ?b then _ else _] => destruct b end); cbn; auto.
Qed.

(** X10. [process_shutdown] leaves no pipe, timer or event handle behind,
    whatever was read and however the reaping went; the process handle is
    released unless the wait on it failed; the ends of the two ranges are
    never moved; and the number of active processes goes down by one
    exactly when a process was reaped. *)
Theorem process_shutdown_releases_handles (new_timer : option HANDLE) (pending : list string)
  (r : reaped) (st : ProcessProgress * Global) :
  let st' := snd (process_shutdown new_timer pending r st) in
  crash_file_handle (fst st') = None
  /\ timer_handle (fst st') = None
  /\ pipe_event (fst st') = None
  /\ (r <> WaitFailed -> process (fst st') = None)
  /\ end_graphics_index (fst st') = end_graphics_index (fst st)
  /\ end_compute_index (fst st') = end_compute_index (fst st)
  /\ active_processes (snd st')
     = match process (fst st), r with
       | Some _, NoExitCode | Some _, ExitCode _ =>
           wrap32 (active_processes (snd (flush_messages new_timer pending st)) - 1)
       | _, _ => active_processes (snd (flush_messages new_timer pending st))
       end.
Proof.
  intros st'. subst st'. unfold process_shutdown.
  destruct (SupervisorFacts.flush_messages_keeps_process new_timer pending st) as (Kp & Kg & Kc).
  destruct (flush_messages new_timer pending st) as [p g]. cbn [fst snd] in *.
  cbn [close_handles process]. rewrite Kp.
  assert (Hreap : forall code p0 g0,
            let res := snd (after_reap code (p0, g0)) in
            crash_file_handle (fst res) = crash_file_handle p0
            /\ timer_handle (fst res) = timer_handle p0
            /\ pipe_event (fst res) = pipe_event p0
            /\ process (fst res) = process p0
            /\ end_graphics_index (fst res) = end_graphics_index p0
            /\ end_compute_index (fst res) = end_compute_index p0
            /\ active_processes (snd res) = active_processes g0).
  { intros code p0 g0. unfold after_reap.
    destruct (code =? 0); [cbn; auto 10 |].
    destruct (_ || _); [cbn; auto 10 |].
    cbn [set_start end_graphics_index end_compute_index start_graphics_index
         start_compute_index].
    destruct (_ && _); cbn; auto 10. }
  destruct (process (fst st)) as [h |] eqn:Hproc.
  - destruct r as [| | code].
    + cbn. repeat split; auto. congruence.
    + destruct (Hreap 0 (set_process None (close_handles p))
                  (set_active_processes (wrap32 (active_processes g - 1)) g))
        as (H1 & H2 & H3 & H4 & H5 & H6 & H7).
      cbv zeta in *. rewrite H1, H2, H3, H4, H5, H6, H7. cbn. auto 10.
    + destruct (Hreap code (set_process None (close_handles p))
                  (set_active_processes (wrap32 (active_processes g - 1)) g))
        as (H1 & H2 & H3 & H4 & H5 & H6 & H7).
      cbv zeta in *. rewrite H1, H2, H3, H4, H5, H6, H7. cbn. auto 10.
  - destruct (Hreap 0 (close_handles p) g) as (H1 & H2 & H3 & H4 & H5 & H6 & H7).
    cbv zeta in *. rewrite H1, H2, H3, H4, H5, H6, H7. cbn. rewrite Kp.
    destruct r; auto 10.
Qed.

End RespawnFacts.

(** ** Registering entities *)

Module RecordingFacts.
Import Recording.

Lemma get_hash_for_last {Info} (table : gmap Z nat) (registry : list (Hash * Info))
  (hash : Hash) (info : Info) (handle : Z) :
  get_hash_for (<[handle := length registry]> table) (registry ++ [(hash, info)]) handle
  = Ok hash.
Proof.
  unfold get_hash_for, read. rewrite lookup_insert_eq.
  rewrite lookup_app_r by lia. by rewrite Nat.sub_diag.
Qed.

Lemma get_hash_for_earlier {Info} (table : gmap Z nat) (registry : list (Hash * Info))
  (entry : Hash * Info) (handle other : Z) (index : nat) (x : Hash) :
  other <> handle ->
  get_hash_for table registry other = Ok x ->
  get_hash_for (<[handle := index]> table) (registry ++ [entry]) other = Ok x.
Proof.
  intros Hne. unfold get_hash_for, read. rewrite lookup_insert_ne by done.
  destruct (table !! other) as [i |]; [| done].
  destruct (registry !! i) as [e |] eqn:He; [| done].
  rewrite (lookup_app_l_Some _ _ _ _ He). done.
Qed.

Lemma next_index_length {A} (registry : list A) :
  Z.of_nat (length registry) < 2 ^ 32 -> next_index registry = length registry.
Proof.
  intros H. unfold next_index, wrap32. rewrite Z.mod_small by lia. lia.
Qed.

(** X11. A sampler registered and then named by a handle is found again by
    that handle, the handles named before keep their hashes, and
    [set_sampler_handle] takes any index: one beyond the registry makes
    the lookup read past its end. *)
Theorem registered_sampler_is_found_by_its_handle (r : StateRecorder) (hash : Hash)
  (create_info : VkSamplerCreateInfo) (sampler : Z) :
  Z.of_nat (length (samplers r)) < 2 ^ 32 ->
  let index := fst (register_sampler hash create_info r) in
  let r' := set_sampler_handle index sampler (snd (register_sampler hash create_info r)) in
  get_hash_for_sampler r' sampler = Ok hash
  /\ (forall other x, other <> sampler ->
        get_hash_for_sampler r other = Ok x -> get_hash_for_sampler r' other = Ok x)
  /\ (forall beyond, (length (samplers r) <= beyond)%nat ->
        get_hash_for_sampler (set_sampler_handle beyond sampler r) sampler = Fault).
Proof.
  intros Hlen index r'. subst index r'. unfold register_sampler. cbn [fst snd].
  rewrite next_index_length by exact Hlen.
  unfold get_hash_for_sampler, set_sampler_handle. cbn.
  split; [apply get_hash_for_last |].
  split; [intros other x Hne; by apply get_hash_for_earlier |].
  intros beyond Hb. unfold get_hash_for, read. rewrite lookup_insert_eq.
  rewrite (proj2 (lookup_ge_None _ _)) by lia. reflexivity.
Qed.

Lemma registered_sampler_example :
  get_hash_for_sampler
    (set_sampler_handle (fst (register_sampler 99 Scenarios.one_sampler Scenarios.one_sampler_recorder))
       8001 (snd (register_sampler 99 Scenarios.one_sampler Scenarios.one_sampler_recorder)))
    8001
  = Ok 99.
Proof.
  assert (Hlen : Z.of_nat (length (samplers Scenarios.one_sampler_recorder)) < 2 ^ 32)
    by (cbn; lia).
  pose proof (registered_sampler_is_found_by_its_handle Scenarios.one_sampler_recorder 99
                Scenarios.one_sampler 8001 Hlen) as H.
  cbv zeta in H. destruct H as [H _]. exact H.
Defined.

Lemma foldM_rewrite_set_layout_cons h0 handles (table : gmap Z nat) (acc : list Z) :
  foldM rewrite_set_layout (table, acc) (h0 :: handles)
  = foldM rewrite_set_layout
      (match table !! h0 with
       | Some i => (table, acc ++ [index_plus_one i])
       | None => (<[h0 := 0%nat]> table, acc ++ [index_plus_one 0])
       end) handles.
Proof.
  cbn [foldM].
  assert (E : rewrite_set_layout (table, acc) h0
              = Ok (match table !! h0 with
                    | Some i => (table, acc ++ [index_plus_one i])
                    | None => (<[h0 := 0%nat]> table, acc ++ [index_plus_one 0])
                    end)).
  { unfold rewrite_set_layout, index_of. cbn [fst snd]. destruct (table !! h0); reflexivity. }
  rewrite E. reflexivity.
Qed.

(** The table after the handles of the list have gone through
    [table[handle]]. *)
Lemma rewrite_set_layouts_all (handles : list Z) (table : gmap Z nat) (acc : list Z) :
  exists table',
    foldM rewrite_set_layout (table, acc) handles
    = Ok (table', acc ++ map (fun h => index_plus_one (default 0%nat (table !! h))) handles)
    /\ forall h, table' !! h
                = match table !! h with
                  | Some i => Some i
                  | None => if bool_decide (h ∈ handles) then Some 0%nat else None
                  end.
Proof.
  revert table acc. induction handles as [| h0 handles IH]; intros table acc.
  - exists table. split; [cbn; by rewrite app_nil_r |].
    intros h. destruct (table !! h); [done |]. rewrite bool_decide_eq_false_2; [done |].
    apply not_elem_of_nil.
  - rewrite foldM_rewrite_set_layout_cons.
    destruct (table !! h0) as [i |] eqn:Hh0.
    + destruct (IH table (acc ++ [index_plus_one i])) as (table' & E & Ht).
      exists table'. split.
      * rewrite E. cbn [map]. rewrite Hh0. cbn [default]. by rewrite <- app_assoc.
      * intros h. rewrite Ht. destruct (table !! h) eqn:Hh; [done |].
        assert (h <> h0) by congruence.
        destruct (bool_decide_reflect (h ∈ handles)).
        -- rewrite bool_decide_eq_true_2; [done | by apply list_elem_of_further].
        -- rewrite bool_decide_eq_false_2; [done |].
           rewrite elem_of_cons. tauto.
    + destruct (IH (<[h0 := 0%nat]> table) (acc ++ [index_plus_one 0])) as (table' & E & Ht).
      exists table'. split.
      * rewrite E. cbn [map]. rewrite Hh0. cbn [default]. rewrite <- app_assoc.
        cbn [app].
        assert (Hm : map (fun h => index_plus_one (default 0%nat (<[h0 := 0%nat]> table !! h)))
                       handles
                     = map (fun h => index_plus_one (default 0%nat (table !! h))) handles).
        { apply List.map_ext. intros h.
          destruct (decide (h = h0)) as [-> | Hne].
          - rewrite lookup_insert_eq, Hh0. reflexivity.
          - rewrite lookup_insert_ne by done. reflexivity. }
        rewrite Hm. reflexivity.
      * intros h. rewrite Ht.
        destruct (decide (h = h0)) as [-> | Hne].
        -- rewrite lookup_insert_eq, Hh0.
           rewrite bool_decide_eq_true_2; [done | apply list_elem_of_here].
        -- rewrite lookup_insert_ne by done. destruct (table !! h); [done |].
           destruct (bool_decide_reflect (h ∈ handles)).
           ++ rewrite bool_decide_eq_true_2; [done | by apply list_elem_of_further].
           ++ rewrite bool_decide_eq_false_2; [done |].
              rewrite elem_of_cons. tauto.
Qed.

Lemma copy_whole {A} (allocate : Z -> result ()) (src : list A) (count : Z) :
  count = Z.of_nat (length src) -> allocate count = Ok () -> copy allocate src count = Ok src.
Proof.
  intros -> Ha. unfold copy. rewrite Ha. cbn [mbind result_bind].
  rewrite read_n_spec, Nat2Z.id.
  rewrite decide_True by lia. by rewrite firstn_all.
Qed.

(** X12. When the arena serves its two arrays, [register_pipeline_layout]
    stores, for every set-layout handle of the create-info, the index the
    handle was given plus one. A handle that was never given an index
    ([VK_NULL_HANDLE] included) is stored as 1, the reference to set layout
    0, and is from then on a name of index 0 in the recorder's table. *)
Theorem register_pipeline_layout_stores_indices (allocate : Z -> result ())
  (r : StateRecorder) (hash : Hash) (layout_info : VkPipelineLayoutCreateInfo) :
  setLayoutCount layout_info = Z.of_nat (length (pSetLayouts layout_info)) ->
  pushConstantRangeCount layout_info = Z.of_nat (length (pPushConstantRanges layout_info)) ->
  allocate (setLayoutCount layout_info) = Ok () ->
  allocate (pushConstantRangeCount layout_info) = Ok () ->
  Z.of_nat (length (pipeline_layouts r)) < 2 ^ 32 ->
  let table := descriptor_set_layout_to_index r in
  exists r',
    register_pipeline_layout allocate hash layout_info r
    = Ok (length (pipeline_layouts r), r')
    /\ pipeline_layouts r'
       = pipeline_layouts r
         ++ [(hash,
              {| pl_flags := pl_flags layout_info;
                 setLayoutCount := setLayoutCount layout_info;
                 pSetLayouts :=
                   map (fun h => index_plus_one (default 0%nat (table !! h)))
                       (pSetLayouts layout_info);
                 pushConstantRangeCount := pushConstantRangeCount layout_info;
                 pPushConstantRanges := pPushConstantRanges layout_info |})]
    /\ forall h,
         descriptor_set_layout_to_index r' !! h
         = match table !! h with
           | Some i => Some i
           | None => if bool_decide (h ∈ pSetLayouts layout_info) then Some 0%nat else None
           end.
Proof.
  intros Hsets Hranges Hasets Haranges Hlen table. subst table.
  unfold register_pipeline_layout, copy_pipeline_layout.
  rewrite next_index_length by exact Hlen.
  rewrite (copy_whole _ _ _ Hranges Haranges), (copy_whole _ _ _ Hsets Hasets).
  cbn [mbind result_bind].
  destruct (rewrite_set_layouts_all (pSetLayouts layout_info)
              (descriptor_set_layout_to_index r) []) as (table' & E & Ht).
  rewrite E. cbn [mbind result_bind app].
  eexists. split; [reflexivity |]. split; [reflexivity |]. exact Ht.
Qed.

Lemma register_pipeline_layout_example :
  exists r',
    register_pipeline_layout Scenarios.arena 5
      {| pl_flags := 0; setLayoutCount := 2; pSetLayouts := [0; 4001];
         pushConstantRangeCount := 0; pPushConstantRanges := [] |}
      (set_descriptor_set_layout_handle 3 4001 Scenarios.layout_and_compute_recorder)
    = Ok (1%nat, r')
    /\ snd <$> last (pipeline_layouts r')
       = Some {| pl_flags := 0; setLayoutCount := 2; pSetLayouts := [1; 4];
                 pushConstantRangeCount := 0; pPushConstantRanges := [] |}
    /\ descriptor_set_layout_to_index r' !! 0 = Some 0%nat.
Proof.
  destruct (register_pipeline_layout_stores_indices Scenarios.arena
              (set_descriptor_set_layout_handle 3 4001 Scenarios.layout_and_compute_recorder) 5
              {| pl_flags := 0; setLayoutCount := 2; pSetLayouts := [0; 4001];
                 pushConstantRangeCount := 0; pPushConstantRanges := [] |})
    as (r' & E & Hl & Ht); [reflexivity | reflexivity | reflexivity | reflexivity | cbn; lia |].
  exists r'. split; [exact E |]. split.
  - rewrite Hl. reflexivity.
  - rewrite Ht. reflexivity.
Defined.

(** X13. Whatever the arena does, [register_compute_pipeline] comes back only
    for a create-info that has specialization info (a null
    [pSpecializationInfo] is read through). The entry it appends keeps the
    pipeline layout as the handle it was given, whereas the shader module is
    stored as an index plus one. *)
Theorem register_compute_pipeline_needs_specialization_info (allocate : Z -> result ())
  (r r' : StateRecorder) (hash : Hash) (create_info : VkComputePipelineCreateInfo)
  (index : nat) :
  register_compute_pipeline allocate hash create_info r = Ok (index, r') ->
  is_Some (pSpecializationInfo (cp_stage create_info))
  /\ exists stored,
       compute_pipelines r' = compute_pipelines r ++ [(hash, stored)]
       /\ cp_layout stored = cp_layout create_info
       /\ module (cp_stage stored)
          = index_plus_one (default 0%nat (shader_module_to_index r !! module (cp_stage create_info))).
Proof.
  unfold register_compute_pipeline, copy_compute_pipeline, copy_specialization_info,
    copy_one, copy_name.
  destruct (allocate 1) as [[] | w |]; [| discriminate | discriminate].
  cbn [mbind result_bind].
  destruct (pSpecializationInfo (cp_stage create_info)) as [spec |]; [| discriminate].
  cbn [mbind result_bind].
  destruct (copy allocate (pMapEntries spec) (mapEntryCount spec)) as [entries | w |];
    [| discriminate | discriminate].
  cbn [mbind result_bind].
  destruct (copy allocate (pData spec) (dataSize spec)) as [data | w |];
    [| discriminate | discriminate].
  cbn [mbind result_bind]. unfold index_of.
  destruct (shader_module_to_index r !! module (cp_stage create_info)) as [i |];
    (destruct (allocate (Z.of_nat (String.length (pName (cp_stage create_info))) + 1))
       as [[] | w |]; [| discriminate | discriminate]);
    destruct (negb (cp_basePipelineHandle create_info =? VK_NULL_HANDLE));
    cbn; try destruct (compute_pipeline_to_index r !! cp_basePipelineHandle create_info);
    cbn; intros H; injection H as <- <-; (split; [eauto |]); eexists; repeat split.
Qed.

Lemma register_compute_pipeline_example :
  exists index r',
    register_compute_pipeline Scenarios.arena 9
      {| cp_flags := 0;
         cp_stage := {| st_flags := 0; st_stage := 32; module := 6001; pName := "main";
                        pSpecializationInfo :=
                          Some {| mapEntryCount := 0; pMapEntries := [];
                                  dataSize := 0; pData := [] |} |};
         cp_layout := 5001; cp_basePipelineHandle := 0; cp_basePipelineIndex := 0 |}
      Scenarios.small_recorder = Ok (index, r')
    /\ exists stored,
         compute_pipelines r' = compute_pipelines Scenarios.small_recorder ++ [(9, stored)]
         /\ cp_layout stored = 5001
         /\ module (cp_stage stored)
            = index_plus_one
                (default 0%nat (shader_module_to_index Scenarios.small_recorder !! 6001)).
Proof.
  destruct (register_compute_pipeline Scenarios.arena 9
              {| cp_flags := 0;
                 cp_stage := {| st_flags := 0; st_stage := 32; module := 6001;
                                pName := "main";
                                pSpecializationInfo :=
                                  Some {| mapEntryCount := 0; pMapEntries := [];
                                          dataSize := 0; pData := [] |} |};
                 cp_layout := 5001; cp_basePipelineHandle := 0;
                 cp_basePipelineIndex := 0 |}
              Scenarios.small_recorder) as [[index r'] | w |] eqn:E; [| discriminate E ..].
  exists index, r'. split; [reflexivity |].
  exact (proj2 (register_compute_pipeline_needs_specialization_info Scenarios.arena
                  Scenarios.small_recorder r' 9 _ index E)).
Defined.

Lemma copy_Ok {A} (allocate : Z -> result ()) (src : list A) (count : Z) (l : list A) :
  copy allocate src count = Ok l -> l = take (Z.to_nat count) src.
Proof.
  unfold copy. destruct (allocate count) as [[] | w |]; [| discriminate | discriminate].
  cbn [mbind result_bind]. rewrite read_n_spec. destruct (decide _); [| discriminate].
  by intros [= <-].
Qed.

Lemma copy_one_Ok {A} (allocate : Z -> result ()) (p : option A) (a : A) :
  copy_one allocate p = Ok a -> p = Some a.
Proof.
  unfold copy_one. destruct (allocate 1) as [[] | w |]; [| discriminate | discriminate].
  cbn [mbind result_bind]. destruct p; [| discriminate]. by intros [= <-].
Qed.

Lemma copy_stages_need_specialization_info (allocate : Z -> result ()) stages :
  forall st st',
    foldM (copy_stage allocate) st stages = Ok st' ->
    Forall (fun stage => is_Some (pSpecializationInfo stage)) stages.
Proof.
  induction stages as [| stage stages IH]; intros st st' H; [constructor |].
  cbn [foldM] in H.
  destruct (copy_stage allocate st stage) as [st1 | w |] eqn:E; [| discriminate | discriminate].
  cbn [mbind result_bind] in H.
  constructor; [| eapply IH; exact H].
  unfold copy_stage, copy_specialization_info in E.
  destruct (copy_name allocate (pName stage)); [| discriminate | discriminate].
  cbn [mbind result_bind] in E.
  destruct (copy_one allocate (pSpecializationInfo stage)) as [spec | |] eqn:Es;
    [| discriminate | discriminate].
  apply copy_one_Ok in Es. rewrite Es. eauto.
Qed.

(** X14. Whatever the arena does, [register_graphics_pipeline] comes back only
    for a create-info in which all nine state blocks are present and every
    stage read has specialization info: each of these pointers is read
    through, null or not. *)
Theorem register_graphics_pipeline_needs_every_state_block (allocate : Z -> result ())
  (r r' : StateRecorder) (hash : Hash) (create_info : VkGraphicsPipelineCreateInfo)
  (index : nat) :
  register_graphics_pipeline allocate hash create_info r = Ok (index, r') ->
  is_Some (pTessellationState create_info)
  /\ is_Some (pColorBlendState create_info)
  /\ is_Some (pVertexInputState create_info)
  /\ is_Some (pMultisampleState create_info)
  /\ is_Some (pViewportState create_info)
  /\ is_Some (pInputAssemblyState create_info)
  /\ is_Some (pDepthStencilState create_info)
  /\ is_Some (pRasterizationState create_info)
  /\ is_Some (pDynamicState create_info)
  /\ Forall (fun stage => is_Some (pSpecializationInfo stage))
        (take (Z.to_nat (stageCount create_info)) (pStages create_info)).
Proof.
  unfold register_graphics_pipeline, copy_graphics_pipeline.
  destruct (copy allocate (pStages create_info) (stageCount create_info))
    as [stages | w |] eqn:Estages; [| discriminate | discriminate].
  apply copy_Ok in Estages. subst stages. cbn [mbind result_bind].
  destruct (copy_one allocate (pTessellationState create_info)) as [tess | |] eqn:E1;
    [| discriminate | discriminate].
  destruct (copy_one allocate (pColorBlendState create_info)) as [blend | |] eqn:E2;
    [| discriminate | discriminate].
  destruct (copy_one allocate (pVertexInputState create_info)) as [vs | |] eqn:E3;
    [| discriminate | discriminate].
  destruct (copy_one allocate (pMultisampleState create_info)) as [ms | |] eqn:E4;
    [| discriminate | discriminate].
  destruct (copy_one allocate (pViewportState create_info)) as [vp | |] eqn:E5;
    [| discriminate | discriminate].
  destruct (copy_one allocate (pInputAssemblyState create_info)) as [ia | |] eqn:E6;
    [| discriminate | discriminate].
  destruct (copy_one allocate (pDepthStencilState create_info)) as [ds | |] eqn:E7;
    [| discriminate | discriminate].
  destruct (copy_one allocate (pRasterizationState create_info)) as [rs | |] eqn:E8;
    [| discriminate | discriminate].
  destruct (copy_one allocate (pDynamicState create_info)) as [dyn | |] eqn:E9;
    [| discriminate | discriminate].
  apply copy_one_Ok in E1, E2, E3, E4, E5, E6, E7, E8, E9.
  rewrite E1, E2, E3, E4, E5, E6, E7, E8, E9.
  cbn [mbind result_bind].
  destruct (index_of (renderPass create_info) (render_pass_to_index r)) as [pass_index passes].
  intros H. repeat (split; [eauto |]).
  destruct (negb (basePipelineHandle create_info =? VK_NULL_HANDLE)).
  - destruct (index_of (basePipelineHandle create_info) _) as [base_index pipelines].
    cbn [with_render_pass_to_index with_graphics_pipeline_to_index shader_module_to_index] in H.
    match type of H with
    | (?m ≫= ?k) = _ =>
        match m with
        | (foldM (copy_stage allocate) ?st _ ≫= ?rest) =>
            destruct (foldM (copy_stage allocate) st
                        (take (Z.to_nat (stageCount create_info)) (pStages create_info)))
              as [st' | w |] eqn:E; [| discriminate H | discriminate H];
            eapply copy_stages_need_specialization_info; exact E
        end
    end.
  - cbn [with_render_pass_to_index shader_module_to_index] in H.
    match type of H with
    | (?m ≫= ?k) = _ =>
        match m with
        | (foldM (copy_stage allocate) ?st _ ≫= ?rest) =>
            destruct (foldM (copy_stage allocate) st
                        (take (Z.to_nat (stageCount create_info)) (pStages create_info)))
              as [st' | w |] eqn:E; [| discriminate H | discriminate H];
            eapply copy_stages_need_specialization_info; exact E
        end
    end.
Qed.

Lemma register_graphics_pipeline_example :
  exists index r',
    register_graphics_pipeline Scenarios.arena 21 full_pipeline Scenarios.small_recorder = Ok (index, r')
    /\ is_Some (pTessellationState full_pipeline)
    /\ Forall (fun stage => is_Some (pSpecializationInfo stage))
         (take (Z.to_nat (stageCount full_pipeline)) (pStages full_pipeline)).
Proof.
  destruct (register_graphics_pipeline Scenarios.arena 21 full_pipeline Scenarios.small_recorder)
    as [[index r'] | w |] eqn:E; [| discriminate E | discriminate E].
  exists index, r'. split; [reflexivity |].
  pose proof (register_graphics_pipeline_needs_every_state_block Scenarios.arena
                Scenarios.small_recorder r' 21 full_pipeline index E) as H.
  split; [apply H |]. apply H.
Defined.

End RecordingFacts.

(** ** Replaying: references, entities, edge documents *)

Module ReferenceFacts.
Import Replayer References.

Lemma for_each_all_ok {A B} (f : A -> result (list B)) (g : A -> B) (l : list A) :
  Forall (fun x => f x = Ok [g x]) l -> for_each f l = Ok (map g l).
Proof.
  induction 1 as [| x l Hx _ IH]; [reflexivity |].
  cbn [for_each map]. by rewrite Hx, IH.
Qed.

Lemma for_each_first_throw {A B} (f : A -> result (list B)) (g : A -> B)
  (before after : list A) (x : A) (what : string) :
  Forall (fun y => f y = Ok [g y]) before -> f x = Throw what ->
  for_each f (before ++ x :: after) = Throw what.
Proof.
  intros Hbefore Hx. induction Hbefore as [| y before Hy _ IH]; cbn [app for_each].
  - by rewrite Hx.
  - by rewrite Hy, IH.
Qed.

(** The bounds test of [resolve] covers its read. *)
Lemma resolve_spec (what : string) (handles : list Z) (index : Z) :
  resolve what handles index
  = if Z.of_nat (length handles) <? index then Throw what else Ok (resolved handles index).
Proof.
  unfold resolve, resolved.
  destruct (Z.ltb_spec (Z.of_nat (length handles)) index) as [| Hin]; [reflexivity |].
  destruct (Z.ltb_spec 0 index) as [Hpos |]; [| reflexivity].
  unfold read. destruct (handles !! Z.to_nat (index - 1)) as [h |] eqn:E; [reflexivity |].
  apply lookup_ge_None in E. lia.
Qed.

(** The first index that is out of range, if there is one. *)
Lemma first_out_of_range (bound : Z) (indices : list Z) :
  ~ Forall (fun i => i <= bound) indices ->
  exists before x after,
    indices = before ++ x :: after /\ Forall (fun i => i <= bound) before /\ bound < x.
Proof.
  induction indices as [| i indices IH]; intros Hnot.
  - exfalso. apply Hnot. constructor.
  - destruct (Z.le_gt_cases i bound) as [Hle | Hgt].
    + destruct IH as (before & x & after & -> & Hb & Hx).
      { intros Hall. apply Hnot. by constructor. }
      exists (i :: before), x, after. repeat split; [by constructor | done].
    + exists [], i, indices. repeat split; [constructor | lia].
Qed.

Lemma resolve_each (get : Value -> result Z) (what : string) (handles : list Z)
  (indices : list Z) :
  Forall (fun i => get (Num i) = Ok i) indices ->
  for_each (fun itr => index ← get itr; h ← resolve what handles index; Ok [h])
           (map Num indices)
  = if bool_decide (Forall (fun i => i <= Z.of_nat (length handles)) indices)
    then Ok (map (resolved handles) indices)
    else Throw what.
Proof.
  intros Hget.
  assert (Hstep : forall i, get (Num i) = Ok i ->
            (index ← get (Num i); h ← resolve what handles index; Ok [h])
            = if Z.of_nat (length handles) <? i then Throw what else Ok [resolved handles i]).
  { intros i Hi. rewrite Hi. cbn [mbind result_bind]. rewrite resolve_spec.
    by destruct (_ <? _). }
  destruct (bool_decide_reflect (Forall (fun i => i <= Z.of_nat (length handles)) indices))
    as [Hall | Hnot].
  - rewrite (for_each_all_ok _ (fun v => match v with Num i => resolved handles i | _ => 0 end)).
    + by rewrite map_map.
    + apply Forall_map. rewrite Forall_forall in *. intros i Hi. cbn.
      rewrite Hstep by auto.
      destruct (Z.ltb_spec (Z.of_nat (length handles)) i); [| done].
      specialize (Hall i Hi). cbn in Hall. lia.
  - destruct (first_out_of_range _ _ Hnot) as (before & x & after & -> & Hb & Hx).
    apply Forall_app in Hget as [Hgb Hgx]. apply Forall_cons in Hgx as [Hgx _].
    rewrite map_app. cbn [map].
    apply (for_each_first_throw _ (fun v => match v with Num i => resolved handles i | _ => 0 end)).
    + apply Forall_map. rewrite Forall_forall in *. intros i Hi. cbn.
      rewrite Hstep by auto.
      destruct (Z.ltb_spec (Z.of_nat (length handles)) i); [| done].
      specialize (Hb i Hi). cbn in Hb. lia.
    + rewrite Hstep by exact Hgx.
      destruct (Z.ltb_spec (Z.of_nat (length handles)) x); [done | lia].
Qed.

Lemma GetUint_Num i : is_u32 i -> GetUint (Num i) = Ok i.
Proof.
  intros [H0 H1]. cbn. destruct (Z.leb_spec 0 i); [| lia].
  destruct (Z.ltb_spec i (2 ^ 32)); [done | lia].
Qed.

Lemma GetUint64_Num i : is_u64 i -> GetUint64 (Num i) = Ok i.
Proof.
  intros [H0 H1]. cbn. destruct (Z.leb_spec 0 i); [| lia].
  destruct (Z.ltb_spec i (2 ^ 64)); [done | lia].
Qed.

Lemma parse_set_layouts_spec (allocate : Z -> result ()) (r : StateReplayer)
  (indices : list Z) :
  Forall is_u32 indices ->
  allocate (Z.of_nat (length indices)) = Ok () ->
  parse_set_layouts allocate r (Arr (map Num indices))
  = (if bool_decide (Forall (fun i => i <= Z.of_nat (length (replayed_descriptor_set_layouts r)))
                            indices)
     then Ok (map (resolved (replayed_descriptor_set_layouts r)) indices)
     else Throw "Descriptor set index out of range.").
Proof.
  intros Hrange Halloc. unfold parse_set_layouts.
  cbn [GetArray mbind result_bind]. rewrite length_map, Halloc. cbn [mbind result_bind].
  apply (resolve_each GetUint). eapply Forall_impl; [exact Hrange |].
  intros i Hi. by apply GetUint_Num.
Qed.

Lemma parse_immutable_samplers_spec (allocate : Z -> result ()) (r : StateReplayer)
  (indices : list Z) :
  Forall is_u32 indices ->
  allocate (Z.of_nat (length indices)) = Ok () ->
  parse_immutable_samplers allocate r (Arr (map Num indices))
  = (if bool_decide (Forall (fun i => i <= Z.of_nat (length (replayed_samplers r))) indices)
     then Ok (map (resolved (replayed_samplers r)) indices)
     else Throw "Sampler index out of range.").
Proof.
  intros Hrange Halloc. unfold parse_immutable_samplers.
  cbn [GetArray mbind result_bind]. rewrite length_map, Halloc. cbn [mbind result_bind].
  apply (resolve_each GetUint64). eapply Forall_impl; [exact Hrange |].
  intros i [H0 H1]. apply GetUint64_Num. split; [done |].
  transitivity (2 ^ 32); [done | lia].
Qed.

(** X15. References to set layouts and to samplers are checked before they are
    followed: an array of references either resolves element by element
    (0 to the null handle, [i] to the handle in slot [i - 1]) or, when some
    reference exceeds the number of handles replayed, raises the
    out-of-range exception; it never reads outside the handle table. *)
Theorem references_are_checked_before_use (allocate : Z -> result ()) (r : StateReplayer)
  (indices : list Z) :
  Forall is_u32 indices ->
  allocate (Z.of_nat (length indices)) = Ok () ->
  parse_set_layouts allocate r (Arr (map Num indices))
  = (if bool_decide (Forall (fun i => i <= Z.of_nat (length (replayed_descriptor_set_layouts r)))
                            indices)
     then Ok (map (resolved (replayed_descriptor_set_layouts r)) indices)
     else Throw "Descriptor set index out of range.")
  /\ parse_immutable_samplers allocate r (Arr (map Num indices))
     = (if bool_decide (Forall (fun i => i <= Z.of_nat (length (replayed_samplers r))) indices)
        then Ok (map (resolved (replayed_samplers r)) indices)
        else Throw "Sampler index out of range.").
Proof.
  intros Hrange Halloc. split.
  - by apply parse_set_layouts_spec.
  - by apply parse_immutable_samplers_spec.
Qed.

Lemma references_example :
  parse_set_layouts Scenarios.arena
    {| replayed_samplers := []; replayed_descriptor_set_layouts := [11; 12];
       replayed_pipeline_layouts := []; replayed_shader_modules := [];
       replayed_render_passes := [] |} (Arr (map Num [2; 0; 1]))
  = Ok [12; 0; 11]
  /\ parse_set_layouts Scenarios.arena
       {| replayed_samplers := []; replayed_descriptor_set_layouts := [11; 12];
          replayed_pipeline_layouts := []; replayed_shader_modules := [];
          replayed_render_passes := [] |} (Arr (map Num [2; 3; 1]))
     = Throw "Descriptor set index out of range.".
Proof.
  split.
  - apply (references_are_checked_before_use Scenarios.arena
             {| replayed_samplers := []; replayed_descriptor_set_layouts := [11; 12];
                replayed_pipeline_layouts := []; replayed_shader_modules := [];
                replayed_render_passes := [] |} [2; 0; 1]).
    + repeat constructor; unfold is_u32; lia.
    + reflexivity.
  - apply (references_are_checked_before_use Scenarios.arena
             {| replayed_samplers := []; replayed_descriptor_set_layouts := [11; 12];
                replayed_pipeline_layouts := []; replayed_shader_modules := [];
                replayed_render_passes := [] |} [2; 3; 1]).
    + repeat constructor; unfold is_u32; lia.
    + reflexivity.
Defined.

Lemma concat_map_singleton {A B} (g : A -> B) (l : list A) :
  concat (map (fun x => [g x]) l) = map g l.
Proof. induction l as [| a l IH]; [done |]. cbn. by rewrite IH. Qed.

Lemma for_range_whole_array {A B} (f : A -> list B) (l : list A) :
  for_range (Z.of_nat (length l)) (fun i => x ← read l i; Ok (f x))
  = Ok (concat (map f l)).
Proof.
  rewrite for_range_read, Nat2Z.id, decide_True by lia. by rewrite firstn_all.
Qed.

(** The object [serialize] writes for one push-constant range. *)
Lemma push_constant_ranges_read_back (allocate : Z -> result ())
  (ranges : list VkPushConstantRange) :
  Forall (fun range => is_u32 (pc_stageFlags range) /\ is_u32 (pc_offset range)
                       /\ is_u32 (pc_size range)) ranges ->
  allocate (Z.of_nat (length ranges)) = Ok () ->
  parse_push_constant_ranges allocate
    (Arr (map (fun r => Obj [("stageFlags", Num (pc_stageFlags r));
                             ("size", Num (pc_size r));
                             ("offset", Num (pc_offset r))]%string) ranges))
  = Ok ranges.
Proof.
  intros Hall Halloc. unfold parse_push_constant_ranges.
  cbn [GetArray mbind result_bind]. rewrite length_map, Halloc. cbn [mbind result_bind].
  clear Halloc. induction Hall as [| range ranges (Hs & Ho & Hz) _ IH]; [done |].
  cbn [map for_each]. rewrite IH.
  replace (uint_member "stageFlags" _) with (GetUint (Num (pc_stageFlags range)))
    by reflexivity.
  rewrite (GetUint_Num _ Hs). cbn [mbind result_bind].
  replace (uint_member "offset" _) with (GetUint (Num (pc_offset range))) by reflexivity.
  rewrite (GetUint_Num _ Ho). cbn [mbind result_bind].
  replace (uint_member "size" _) with (GetUint (Num (pc_size range))) by reflexivity.
  rewrite (GetUint_Num _ Hz). cbn [mbind result_bind app].
  by destruct range.
Qed.

(** X16. A pipeline layout written by [serialize] and read by
    [parse_pipeline_layout_info] comes back with its hash, flags, counts and
    push-constant ranges, and with every set-layout reference replaced by
    the handle replayed for that slot, provided the layout is well formed
    (counts equal to the array lengths, 32-bit fields), its references do
    not exceed the number of set layouts replayed, and the arena serves the
    two arrays. *)
Theorem pipeline_layout_round_trip (allocate : Z -> result ()) (r : StateReplayer)
  (hash : Hash) (info : VkPipelineLayoutCreateInfo) :
  well_formed_pipeline_layout info ->
  is_u64 hash ->
  Forall (fun i => i <= Z.of_nat (length (replayed_descriptor_set_layouts r)))
         (pSetLayouts info) ->
  allocate (Z.of_nat (length (pSetLayouts info))) = Ok () ->
  allocate (Z.of_nat (length (pPushConstantRanges info))) = Ok () ->
  exists doc,
    serialize_pipeline_layout (hash, info) = Ok doc
    /\ uint64_member "hash" doc = Ok hash
    /\ parse_pipeline_layout_info allocate r doc
       = Ok (pipeline_layout_info
               {| pl_flags := pl_flags info;
                  setLayoutCount := setLayoutCount info;
                  pSetLayouts := map (resolved (replayed_descriptor_set_layouts r))
                                     (pSetLayouts info);
                  pushConstantRangeCount := pushConstantRangeCount info;
                  pPushConstantRanges := pPushConstantRanges info |}).
Proof.
  intros (Hflags & Hsets & Hpush & Hrefs & Hranges) Hhash Hbound Hasets Hapush.
  unfold serialize_pipeline_layout. cbn [fst snd].
  rewrite Hpush, Hsets.
  rewrite (for_range_whole_array
             (fun r => [Obj [("stageFlags", Num (pc_stageFlags r));
                             ("size", Num (pc_size r));
                             ("offset", Num (pc_offset r))]%string])).
  cbn [mbind result_bind].
  rewrite (for_range_whole_array (fun l => [Num l])).
  cbn [mbind result_bind]. rewrite !concat_map_singleton.
  eexists. split; [reflexivity |]. split.
  - replace (uint64_member "hash" _) with (GetUint64 (Num hash)) by reflexivity.
    by apply GetUint64_Num.
  - unfold parse_pipeline_layout_info.
    replace (uint_member "flags" _) with (GetUint (Num (pl_flags info))) by reflexivity.
    rewrite (GetUint_Num _ Hflags). cbn [mbind result_bind].
    replace (HasMember "pushConstantRanges" _) with (Ok true : result bool) by reflexivity.
    cbn [mbind result_bind].
    match goal with
    | |- context [member "pushConstantRanges" ?d] =>
        replace (member "pushConstantRanges" d)
          with (Ok (Arr (map (fun r => Obj [("stageFlags", Num (pc_stageFlags r));
                                            ("size", Num (pc_size r));
                                            ("offset", Num (pc_offset r))]%string)
                             (pPushConstantRanges info)))) by reflexivity;
        replace (HasMember "setLayouts" d) with (Ok true : result bool) by reflexivity;
        replace (member "setLayouts" d)
          with (Ok (Arr (map Num (pSetLayouts info)))) by reflexivity
    end.
    cbn [mbind result_bind GetArray].
    rewrite (push_constant_ranges_read_back _ _ Hranges Hapush).
    cbn [mbind result_bind].
    rewrite (parse_set_layouts_spec _ _ _ Hrefs Hasets).
    rewrite bool_decide_eq_true_2 by exact Hbound.
    cbn [mbind result_bind fst snd]. by rewrite !length_map.
Qed.

Lemma pipeline_layout_round_trip_example :
  exists doc,
    serialize_pipeline_layout
      (77, {| pl_flags := 0; setLayoutCount := 2; pSetLayouts := [2; 0];
              pushConstantRangeCount := 1;
              pPushConstantRanges := [{| pc_stageFlags := 1; pc_offset := 0; pc_size := 16 |}] |})
    = Ok doc
    /\ uint64_member "hash" doc = Ok 77
    /\ parse_pipeline_layout_info Scenarios.arena
         {| replayed_samplers := []; replayed_descriptor_set_layouts := [11; 12];
            replayed_pipeline_layouts := []; replayed_shader_modules := [];
            replayed_render_passes := [] |} doc
       = Ok (pipeline_layout_info
               {| pl_flags := 0; setLayoutCount := 2; pSetLayouts := [12; 0];
                  pushConstantRangeCount := 1;
                  pPushConstantRanges :=
                    [{| pc_stageFlags := 1; pc_offset := 0; pc_size := 16 |}] |}).
Proof.
  apply (pipeline_layout_round_trip Scenarios.arena
           {| replayed_samplers := []; replayed_descriptor_set_layouts := [11; 12];
              replayed_pipeline_layouts := []; replayed_shader_modules := [];
              replayed_render_passes := [] |} 77
           {| pl_flags := 0; setLayoutCount := 2; pSetLayouts := [2; 0];
              pushConstantRangeCount := 1;
              pPushConstantRanges :=
                [{| pc_stageFlags := 1; pc_offset := 0; pc_size := 16 |}] |}).
  - unfold well_formed_pipeline_layout, is_u32. cbn.
    repeat split; try lia; repeat constructor; cbn; lia.
  - unfold is_u64. lia.
  - repeat constructor; cbn; lia.
  - reflexivity.
  - reflexivity.
Defined.

End ReferenceFacts.

(** ** Hashing of the other entity kinds *)

Module EntityHashingFacts.
Import Hashing EntityHashing.

Lemma for_range_whole {A B} (f : A -> result (list B)) (l : list A) :
  for_range (Z.of_nat (length l)) (fun i => x ← read l i; f x) = for_each f l.
Proof.
  unfold for_range. rewrite Nat2Z.id.
  assert (H : forall pre, for_each (fun i => x ← read (pre ++ l) i; f x)
                            (seq (length pre) (length l)) = for_each f l).
  { induction l as [| a l IH]; intros pre; [done |].
    cbn [length seq for_each]. unfold read at 1.
    rewrite lookup_app_r by lia. rewrite Nat.sub_diag. cbn [lookup list_lookup mbind result_bind].
    specialize (IH (pre ++ [a])). rewrite <- app_assoc in IH. cbn [app] in IH.
    rewrite length_app in IH. cbn [length] in IH. rewrite Nat.add_1_r in IH.
    by rewrite IH. }
  apply (H []).
Qed.

Lemma for_each_Ok_pure {A B} (f : A -> list B) (l : list A) :
  for_each (fun x => Ok (f x)) l = Ok (concat (map f l)).
Proof.
  induction l as [| a l IH]; [done |]. cbn [for_each map concat]. by rewrite IH.
Qed.

Lemma hash_set_layout_key recorder layout :
  hash_set_layout recorder layout
  = (k ← set_layout_key recorder layout;
     Ok [match k with Some hash => h_u64 hash | None => h_u32 0 end]).
Proof.
  unfold hash_set_layout, set_layout_key. destruct (negb _); [| done].
  by destruct (get_hash_for_descriptor_set_layout recorder layout).
Qed.

Lemma set_tokens recorder (l : list Z) (tokens : list Token) :
  for_each (hash_set_layout recorder) l = Ok tokens ->
  exists keys, Forall2 (fun layout k => set_layout_key recorder layout = Ok k) l keys
               /\ tokens = map (fun k => match k with Some hash => h_u64 hash | None => h_u32 0 end)
                               keys.
Proof.
  revert tokens. induction l as [| a l IH]; intros tokens; cbn [for_each].
  - intros [= <-]. exists []. by split; [constructor |].
  - rewrite hash_set_layout_key.
    destruct (set_layout_key recorder a) as [k | |] eqn:Hk; cbn [mbind result_bind]; [| done..].
    destruct (for_each (hash_set_layout recorder) l) as [rest | |]; [| done..].
    intros [= <-]. destruct (IH rest eq_refl) as (keys & Hkeys & ->).
    exists (k :: keys). split; [by constructor | done].
Qed.

Lemma key_token_inj (k1 k2 : option Hash) :
  match k1 with Some hash => h_u64 hash | None => h_u32 0 end
  = match k2 with Some hash => h_u64 hash | None => h_u32 0 end -> k1 = k2.
Proof. destruct k1, k2; intros H; by inversion H. Qed.

Lemma push_tokens_inj (l1 l2 : list VkPushConstantRange) (t1 t2 : list Token) :
  length l1 = length l2 ->
  concat (map hash_push_constant_range l1) ++ t1
  = concat (map hash_push_constant_range l2) ++ t2 ->
  l1 = l2 /\ t1 = t2.
Proof.
  revert l2. induction l1 as [| a l1 IH]; intros [| b l2]; cbn [length]; try done.
  intros [= Hlen]. cbn [map concat]. rewrite <- !app_assoc.
  unfold hash_push_constant_range at 1 3. cbn [app].
  intros [= Hs Hz Ho H]. destruct (IH l2 Hlen H) as [-> ->].
  split; [| done]. f_equal. destruct a, b. cbn in *. congruence.
Qed.

Lemma map_app_inj {A B} (f : A -> B) (l1 l2 : list A) (t1 t2 : list B) :
  (forall x y, f x = f y -> x = y) ->
  length l1 = length l2 ->
  map f l1 ++ t1 = map f l2 ++ t2 -> l1 = l2 /\ t1 = t2.
Proof.
  intros Hinj. revert l2. induction l1 as [| a l1 IH]; intros [| b l2]; cbn [length]; try done.
  intros [= Hlen]. cbn [map app]. intros [= Hab H].
  destruct (IH l2 Hlen H) as [-> ->]. by rewrite (Hinj _ _ Hab).
Qed.

(** X17. The tokens [compute_hash_pipeline_layout] feeds its hasher tell two
    pipeline layouts apart: layouts whose counts are the lengths of their
    arrays and that feed the same tokens have the same flags, the same
    push-constant ranges, and set layouts that are pairwise both null or
    both registered with the same hash. *)
Theorem pipeline_layout_tokens_tell_layouts_apart (recorder : StateRecorder)
  (l1 l2 : VkPipelineLayoutCreateInfo) (tokens : list Token) :
  setLayoutCount l1 = Z.of_nat (length (pSetLayouts l1)) ->
  setLayoutCount l2 = Z.of_nat (length (pSetLayouts l2)) ->
  pushConstantRangeCount l1 = Z.of_nat (length (pPushConstantRanges l1)) ->
  pushConstantRangeCount l2 = Z.of_nat (length (pPushConstantRanges l2)) ->
  pipeline_layout_tokens recorder l1 = Ok tokens ->
  pipeline_layout_tokens recorder l2 = Ok tokens ->
  pl_flags l1 = pl_flags l2
  /\ pPushConstantRanges l1 = pPushConstantRanges l2
  /\ Forall2 (fun a b => set_layout_key recorder a = set_layout_key recorder b)
             (pSetLayouts l1) (pSetLayouts l2).
Proof.
  intros Hs1 Hs2 Hp1 Hp2. unfold pipeline_layout_tokens.
  rewrite Hs1, Hs2, Hp1, Hp2, !for_range_whole, !for_each_Ok_pure.
  destruct (for_each _ (pSetLayouts l1)) as [sets1 | |] eqn:E1; [| done..].
  destruct (for_each _ (pSetLayouts l2)) as [sets2 | |] eqn:E2; [| done..].
  cbn [mbind result_bind].
  destruct (set_tokens _ _ _ E1) as (keys1 & Hk1 & ->).
  destruct (set_tokens _ _ _ E2) as (keys2 & Hk2 & ->).
  intros [= <-]. cbn [app]. intros [= Hn H].
  apply Nat2Z.inj in Hn.
  pose proof (Forall2_length _ _ _ Hk1) as Hl1.
  pose proof (Forall2_length _ _ _ Hk2) as Hl2.
  apply map_app_inj in H as [Hkeys H];
    [| apply key_token_inj
     | exact (eq_trans (eq_sym Hl2) (eq_trans Hn Hl1))].
  cbn [app] in H. injection H as Hm H. apply Nat2Z.inj in Hm.
  apply push_tokens_inj in H as [Hpush H]; [| done].
  injection H as Hflags. subst keys2.
  split; [done |]. split; [done |].
  clear -Hk1 Hk2. revert Hk2. generalize (pSetLayouts l2).
  induction Hk1 as [| a k l keys Ha Hl IH]; intros l2' Hk2; inversion Hk2; subst.
  - constructor.
  - constructor; [congruence | by apply IH].
Qed.

Lemma pipeline_layout_tokens_example :
  pl_flags (one_set_layout 4001) = pl_flags (one_set_layout 4002)
  /\ pPushConstantRanges (one_set_layout 4001) = pPushConstantRanges (one_set_layout 4002)
  /\ Forall2 (fun a b => set_layout_key twice_named_recorder a
                         = set_layout_key twice_named_recorder b) [4001] [4002].
Proof.
  apply (pipeline_layout_tokens_tell_layouts_apart twice_named_recorder
           (one_set_layout 4001) (one_set_layout 4002)
           [h_u32 1; h_u64 42; h_u32 1; h_u32 1; h_u32 16; h_u32 0; h_u32 0]);
    reflexivity.
Defined.

Lemma for_each_ext {A B} (f g : A -> result (list B)) (l : list A) :
  (forall x, f x = g x) -> for_each f l = for_each g l.
Proof.
  intros H. induction l as [| a l IH]; [done |]. cbn [for_each]. by rewrite H, IH.
Qed.

Lemma read_map {A B} (f : A -> B) (l : list A) (i : nat) :
  read (map f l) i = f <$> read l i.
Proof. unfold read. rewrite list_lookup_fmap. by destruct (l !! i). Qed.

(** X18. The hash of a descriptor set layout does not look at the immutable
    samplers of a binding whose type is neither [SAMPLER] nor
    [COMBINED_IMAGE_SAMPLER]: with or without those arrays the same tokens
    are fed, and the same failure is met. *)
Theorem other_descriptor_types_ignore_immutable_samplers (recorder : StateRecorder)
  (layout : VkDescriptorSetLayoutCreateInfo) :
  descriptor_set_layout_tokens recorder
    {| dsl_flags := dsl_flags layout; bindingCount := bindingCount layout;
       pBindings := map without_unused_samplers (pBindings layout) |}
  = descriptor_set_layout_tokens recorder layout.
Proof.
  unfold descriptor_set_layout_tokens. cbn [dsl_flags bindingCount pBindings].
  unfold for_range at 1 3.
  rewrite (for_each_ext _ (fun i =>
             binding ← read (pBindings layout) i;
             immutable ←
               match pImmutableSamplers binding with
               | Some p =>
                   if (descriptorType binding =? VK_DESCRIPTOR_TYPE_COMBINED_IMAGE_SAMPLER)
                      || (descriptorType binding =? VK_DESCRIPTOR_TYPE_SAMPLER)
                   then for_range (descriptorCount binding) (fun j =>
                          s ← read p j;
                          hash ← get_hash_for_sampler recorder s;
                          Ok [h_u64 hash])
                   else Ok []
               | None => Ok []
               end;
             Ok ([h_u32 (b_binding binding); h_u32 (descriptorCount binding);
                  h_u32 (descriptorType binding); h_u32 (b_stageFlags binding)]
                 ++ immutable))); [done |].
  intros i. rewrite read_map. destruct (read (pBindings layout) i) as [b | |]; [| done..].
  cbn [fmap result_fmap mbind result_bind]. unfold without_unused_samplers.
  destruct ((descriptorType b =? _) || (descriptorType b =? _)) eqn:Ht;
    cbn [pImmutableSamplers descriptorType descriptorCount b_binding b_stageFlags];
    rewrite ?Ht; [done |].
  by destruct (pImmutableSamplers b).
Qed.

Lemma read_cases {A} (l : list A) (i : nat) :
  (exists a, read l i = Ok a) \/ read l i = Fault.
Proof. unfold read. destruct (l !! i); eauto. Qed.

Lemma spec_tokens_cases (info : option VkSpecializationInfo) :
  let tokens := match info with
                | Some info => hash_specialization_info info
                | None => Ok [h_u32 0]
                end in
  (exists t, tokens = Ok t) \/ tokens = Fault.
Proof.
  destruct info as [info |]; cbn; [| eauto].
  unfold hash_specialization_info. rewrite read_n_spec.
  destruct (decide _); cbn; [| eauto].
  rewrite (for_range_read (fun e => [h_u32 (me_offset e); h_u32 (wrap32 (me_size e));
                                      h_u32 (constantID e)])).
  destruct (decide _); cbn; eauto.
Qed.

(** X19. The hash of a compute pipeline is computed only when the pipeline
    layout, the shader module and a non-null base pipeline it names have
    been given handles in the recorder; otherwise the only exception it
    raises is the recorder's ["Handle is not registered."]. *)
Theorem compute_pipeline_hash_needs_registered_handles (recorder : StateRecorder)
  (create_info : VkComputePipelineCreateInfo) :
  match compute_pipeline_tokens recorder create_info with
  | Ok _ =>
      is_Some (pipeline_layout_to_index recorder !! cp_layout create_info)
      /\ is_Some (shader_module_to_index recorder !! module (cp_stage create_info))
      /\ (cp_basePipelineHandle create_info <> VK_NULL_HANDLE ->
          is_Some (compute_pipeline_to_index recorder !! cp_basePipelineHandle create_info))
  | Throw what => what = "Handle is not registered."%string
  | Fault => True
  end.
Proof.
  unfold compute_pipeline_tokens, get_hash_for_pipeline_layout, get_hash_for_shader_module,
    get_hash_for_compute_pipeline_handle, get_hash_for.
  destruct (pipeline_layout_to_index recorder !! cp_layout create_info) as [i |];
    [| reflexivity].
  destruct (read_cases (pipeline_layouts recorder) i) as [[l ->] | ->]; cbn; [| done].
  destruct (Z.eqb_spec (cp_basePipelineHandle create_info) VK_NULL_HANDLE) as [Heq | Hne];
    cbn [negb mbind result_bind].
  - destruct (shader_module_to_index recorder !! module (cp_stage create_info)) as [k |];
      [| reflexivity].
    destruct (read_cases (shader_modules recorder) k) as [[m ->] | ->]; cbn; [| done].
    destruct (spec_tokens_cases (pSpecializationInfo (cp_stage create_info)))
      as [[spec ->] | ->]; cbn; [| done].
    repeat split; eauto. intros Hne. by destruct Hne.
  - destruct (compute_pipeline_to_index recorder !! cp_basePipelineHandle create_info)
      as [j |]; [| reflexivity].
    destruct (read_cases (compute_pipelines recorder) j) as [[b ->] | ->]; cbn; [| done].
    destruct (shader_module_to_index recorder !! module (cp_stage create_info)) as [k |];
      [| reflexivity].
    destruct (read_cases (shader_modules recorder) k) as [[m ->] | ->]; cbn; [| done].
    destruct (spec_tokens_cases (pSpecializationInfo (cp_stage create_info)))
      as [[spec ->] | ->]; cbn; [| done].
    repeat split; eauto.
Qed.

(** X20. [compute_hash_render_pass] gives two different render passes the same
    hash, whatever the hasher: a first subpass with a depth-stencil
    attachment [ref] and no resolve attachments, followed by an empty
    subpass with depth-stencil attachment [(a, 0)], feeds the same tokens as
    a first subpass with [ref] as its resolve attachment and no
    depth-stencil attachment, followed by an empty subpass with bind point
    [a] and no depth-stencil attachment. *)
Theorem render_pass_hash_confuses_resolve_and_depth_stencil
  (Digest : Type) (Hasher_get : list Token -> Digest) (recorder : StateRecorder)
  (flags bind_point a : Z) (color ref : VkAttachmentReference) :
  depth_stencil_pass flags bind_point color ref a <> resolve_pass flags bind_point color ref a
  /\ (exists digest,
        compute_hash_render_pass Digest Hasher_get recorder
          (depth_stencil_pass flags bind_point color ref a) = Ok digest
        /\ compute_hash_render_pass Digest Hasher_get recorder
             (resolve_pass flags bind_point color ref a) = Ok digest).
Proof.
  split.
  - intros H. apply (f_equal (fun p => pSubpasses p)) in H. cbn in H.
    by inversion H.
  - eexists. split; reflexivity.
Qed.

End EntityHashingFacts.

(** ** Documents written by [serialize] and read by [parse] *)

Module DocumentFacts.
Import Replayer Documents.

Lemma push_each_Arr {A} (f : A -> result Value) (registry : list A) (acc : list Value)
  (v : Value) :
  push_each f registry (Arr acc) = Ok v ->
  exists vs, Forall2 (fun x y => f x = Ok y) registry vs /\ v = Arr (acc ++ vs).
Proof.
  unfold push_each. revert acc. induction registry as [| x registry IH]; intros acc; cbn [foldM].
  - intros [= <-]. exists []. split; [constructor | by rewrite app_nil_r].
  - destruct (f x) as [y | |] eqn:Hy; cbn [mbind result_bind PushBack]; [| done..].
    intros H. destruct (IH _ H) as (vs & Hvs & ->).
    exists (y :: vs). split; [by constructor | by rewrite <- app_assoc].
Qed.

Lemma push_each_Null {A} (f : A -> result Value) (registry : list A) (v : Value) :
  push_each f registry Null = Ok v -> registry = [].
Proof.
  unfold push_each. destruct registry as [| x registry]; [done |]. cbn [foldM].
  by destruct (f x).
Qed.

Lemma Forall2_pure {A} (g : A -> Value) (l : list A) (vs : list Value) :
  Forall2 (fun x y => Ok (g x) = Ok y) l vs -> vs = map g l.
Proof. induction 1 as [| x y l vs [= <-] _ IH]; [done |]. cbn. by rewrite IH. Qed.

(** X21. [serialize] comes back with a document only for a recorder that holds
    no descriptor set layout and no render pass; the document then has the
    seven members in the order of [document], with ["setLayouts"] and
    ["renderPasses"] empty, one sampler object per sampler, and one element
    per pipeline layout, shader module, compute and graphics pipeline. *)
Theorem serialize_needs_no_set_layouts_and_no_render_passes (b64_encode : list Z -> string)
  (r : StateRecorder) (doc : Value) :
  serialize b64_encode r = Ok doc ->
  descriptor_sets r = [] /\ render_passes r = []
  /\ exists pl sm cp gp,
       doc = document (map (fun s => serialize_sampler (snd s)) (samplers r)) pl sm cp gp
       /\ Forall2 (fun x v => serialize_pipeline_layout x = Ok v) (pipeline_layouts r) pl
       /\ Forall2 (fun x v => serialize_shader_module b64_encode x = Ok v) (shader_modules r) sm
       /\ Forall2 (fun x v => serialize_compute_pipeline b64_encode x = Ok v)
                  (compute_pipelines r) cp
       /\ Forall2 (fun x v => serialize_graphics_pipeline b64_encode x = Ok v)
                  (graphics_pipelines r) gp.
Proof.
  unfold serialize. intros H.
  destruct (push_each _ (samplers r) (Arr [])) as [sv | |] eqn:Es; [| done..].
  apply push_each_Arr in Es as (svs & Hsvs & ->). apply Forall2_pure in Hsvs as ->.
  cbn [mbind result_bind AddMember app] in H.
  destruct (push_each _ (descriptor_sets r) Null) as [dv | |] eqn:Ed; [| done..].
  apply push_each_Null in Ed.
  cbn [mbind result_bind AddMember app] in H.
  destruct (push_each _ (pipeline_layouts r) (Arr [])) as [pv | |] eqn:Ep; [| done..].
  apply push_each_Arr in Ep as (pl & Hpl & ->).
  cbn [mbind result_bind AddMember app] in H.
  destruct (push_each _ (shader_modules r) (Arr [])) as [mv | |] eqn:Em; [| done..].
  apply push_each_Arr in Em as (sm & Hsm & ->).
  cbn [mbind result_bind AddMember app] in H.
  destruct (push_each _ (render_passes r) Null) as [rv | |] eqn:Er; [| done..].
  apply push_each_Null in Er.
  cbn [mbind result_bind AddMember app] in H.
  destruct (push_each _ (compute_pipelines r) (Arr [])) as [cv | |] eqn:Ec; [| done..].
  apply push_each_Arr in Ec as (cp & Hcp & ->).
  cbn [mbind result_bind AddMember app] in H.
  destruct (push_each _ (graphics_pipelines r) (Arr [])) as [gv | |] eqn:Eg; [| done..].
  apply push_each_Arr in Eg as (gp & Hgp & ->).
  cbn [mbind result_bind AddMember app] in H.
  injection H as <-.
  split; [done |]. split; [done |]. by exists pl, sm, cp, gp.
Qed.

Lemma serialize_example :
  descriptor_sets Scenarios.layout_and_compute_recorder = []
  /\ render_passes Scenarios.layout_and_compute_recorder = []
  /\ exists pl sm cp gp,
       Scenarios.layout_and_compute_document
       = document (map (fun s => serialize_sampler (snd s))
                       (samplers Scenarios.layout_and_compute_recorder)) pl sm cp gp
       /\ Forall2 (fun x v => serialize_pipeline_layout x = Ok v)
                  (pipeline_layouts Scenarios.layout_and_compute_recorder) pl
       /\ Forall2 (fun x v => serialize_shader_module (fun _ => EmptyString) x = Ok v)
                  (shader_modules Scenarios.layout_and_compute_recorder) sm
       /\ Forall2 (fun x v => serialize_compute_pipeline (fun _ => EmptyString) x = Ok v)
                  (compute_pipelines Scenarios.layout_and_compute_recorder) cp
       /\ Forall2 (fun x v => serialize_graphics_pipeline (fun _ => EmptyString) x = Ok v)
                  (graphics_pipelines Scenarios.layout_and_compute_recorder) gp.
Proof.
  apply (serialize_needs_no_set_layouts_and_no_render_passes (fun _ => EmptyString)
           Scenarios.layout_and_compute_recorder Scenarios.layout_and_compute_document).
  vm_compute. reflexivity.
Defined.

Lemma shape_of_document (b64_encode : list Z -> string) (r : StateRecorder) (doc : Value) :
  serialize b64_encode r = Ok doc ->
  exists pl sm cp gp,
    doc = document (map (fun s => serialize_sampler (snd s)) (samplers r)) pl sm cp gp
    /\ Forall2 (fun x v => serialize_shader_module b64_encode x = Ok v) (shader_modules r) sm.
Proof.
  unfold serialize. intros H.
  destruct (push_each _ (samplers r) (Arr [])) as [sv | |] eqn:Es; [| done..].
  apply push_each_Arr in Es as (svs & Hsvs & ->). apply Forall2_pure in Hsvs as ->.
  cbn [mbind result_bind AddMember app] in H.
  destruct (push_each _ (descriptor_sets r) Null) as [dv | |] eqn:Ed; [| done..].
  cbn [mbind result_bind AddMember app] in H.
  destruct (push_each _ (pipeline_layouts r) (Arr [])) as [pv | |] eqn:Ep; [| done..].
  apply push_each_Arr in Ep as (pl & Hpl & ->).
  cbn [mbind result_bind AddMember app] in H.
  destruct (push_each _ (shader_modules r) (Arr [])) as [mv | |] eqn:Em; [| done..].
  apply push_each_Arr in Em as (sm & Hsm & ->).
  cbn [mbind result_bind AddMember app] in H.
  destruct (push_each _ (render_passes r) Null) as [rv | |] eqn:Er; [| done..].
  cbn [mbind result_bind AddMember app] in H.
  destruct (push_each _ (compute_pipelines r) (Arr [])) as [cv | |] eqn:Ec; [| done..].
  apply push_each_Arr in Ec as (cp & Hcp & ->).
  cbn [mbind result_bind AddMember app] in H.
  destruct (push_each _ (graphics_pipelines r) (Arr [])) as [gv | |] eqn:Eg; [| done..].
  apply push_each_Arr in Eg as (gp & Hgp & ->).
  cbn [mbind result_bind AddMember app] in H.
  injection H as <-. by exists pl, sm, cp, gp.
Qed.

Section Replaying.

Variable created : Kind -> Hash -> nat -> Z.
Variable b64_decode : string -> list Z.
Variable allocate : Z -> result ().
Variable float_of_integer : Z -> Z.

Lemma bind_failed_l {A B} (m : M A) (k : A -> M B) (s : State) :
  failed (m s) -> failed ((m ≫= k) s).
Proof.
  unfold failed, mbind, M_bind. destruct (m s) as [[a | w |] s1]; cbn; intros H b; try done.
  by destruct (H a).
Qed.

Lemma bind_failed_r {A B} (m : M A) (k : A -> M B) (s : State) :
  (forall a s1, m s = (Ok a, s1) -> failed (k a s1)) -> failed ((m ≫= k) s).
Proof.
  unfold failed, mbind, M_bind. destruct (m s) as [[a | w |] s1]; cbn; intros H b; try done.
  by apply (H a s1).
Qed.

(** A registry whose first element cannot give both its create-info and
    its hash stops there. *)
Lemma parse_registry_stops_at_first (k : Kind)
  (parse_info : StateReplayer -> Value -> result CreateInfo) (v : Value) (vs : list Value)
  (s : State) :
  (forall r info hash, parse_info r v = Ok info -> uint64_member "hash" v = Ok hash -> False) ->
  failed (parse_registry created allocate k parse_info (Arr (v :: vs)) s).
Proof.
  intros Hbad. unfold parse_registry.
  unfold failed, mbind, M_bind, lift, call, get_replayer, put_replayer.
  cbn [GetArray fst snd for_indexed].
  destruct (allocate _) as [[] | w |]; cbn [fst snd]; try done.
  unfold mbind, M_bind. cbn [fst snd].
  match goal with
  | |- context [parse_info ?r v] => destruct (parse_info r v) as [info | w |] eqn:Ei
  end; cbn [fst snd]; try done.
  destruct (uint64_member "hash" v) as [hash | w |] eqn:Eh; cbn [fst snd]; try done.
  destruct (Hbad _ _ _ Ei eq_refl).
Qed.

Lemma sampler_object_has_no_hash (info : VkSamplerCreateInfo) :
  uint64_member "hash" (serialize_sampler info) = Fault.
Proof. reflexivity. Qed.

Lemma shader_module_object_has_no_code_size (b64_encode : list Z -> string)
  (m : Hash * VkShaderModuleCreateInfo) (v : Value) (r : StateReplayer) :
  serialize_shader_module b64_encode m = Ok v ->
  parse_shader_module_info b64_decode allocate r v = Fault.
Proof.
  unfold serialize_shader_module. destruct (encode_base64 _ _ _) as [code | |]; [| done..].
  cbn [mbind result_bind]. intros [= <-]. unfold parse_shader_module_info.
  replace (uint_member "flags" _) with (GetUint (Num (sm_flags (snd m)))) by reflexivity.
  cbn [GetUint]. destruct (_ && _); reflexivity.
Qed.

Lemma parse_top_level_document (name : string) (k : Kind) (parse_kind : Value -> M unit)
  (ms : list (string * Value)) (v : Value) (s : State) :
  FindMember name ms = Some v ->
  parse_top_level name k parse_kind (Obj ms) s = parse_kind v s.
Proof.
  intros H. unfold parse_top_level, mbind, M_bind, lift. cbn [HasMember member fst snd].
  rewrite H. rewrite bool_decide_eq_true_2 by eauto. reflexivity.
Qed.

(** X22. A document written by [serialize] for a recorder that holds a sampler
    or a shader module is never replayed: the sampler objects carry no
    ["hash"] and the shader-module objects no ["codeSize"], so [parse] does
    not return [true] on it, whatever the engine and the arena do. *)
Theorem serialized_samplers_and_shader_modules_are_not_replayed
  (b64_encode : list Z -> string) (r : StateRecorder) (doc : Value) (s : State) :
  serialize b64_encode r = Ok doc ->
  samplers r <> [] \/ shader_modules r <> [] ->
  fst (parse created b64_decode allocate float_of_integer (Parsed doc) s) <> Returns true.
Proof.
  intros Hdoc Hsome.
  assert (Hfailed : failed (parse_document created b64_decode allocate float_of_integer doc s)).
  { destruct (shape_of_document _ _ _ Hdoc) as (pl & sm & cp & gp & -> & Hsm).
    unfold parse_document, document.
    destruct (shader_modules r) as [| m ms] eqn:Em.
    - destruct Hsome as [Hs | Hs]; [| done].
      apply bind_failed_r. intros _ s1 _. apply bind_failed_l.
      rewrite (parse_top_level_document _ _ _ _
                 (Arr (map (fun x => serialize_sampler (snd x)) (samplers r))))
        by reflexivity.
      destruct (samplers r) as [| x xs]; [done |]. cbn [map].
      apply parse_registry_stops_at_first. intros r0 info hash _.
      by rewrite sampler_object_has_no_hash.
    - apply bind_failed_l.
      rewrite (parse_top_level_document _ _ _ _ (Arr sm)) by reflexivity.
      inversion Hsm as [| m0 v ms0 vs Hv Hvs]; subst.
      apply parse_registry_stops_at_first. intros r0 info hash Hinfo _.
      by rewrite (shader_module_object_has_no_code_size _ _ _ _ Hv) in Hinfo. }
  unfold parse. unfold failed in Hfailed.
  destruct (parse_document _ _ _ _ doc s) as [[[] | w |] s1]; cbn [fst] in *; try done.
  by destruct (Hfailed ()).
Qed.

(** X23. A document whose root is not an object makes [parse] stop in
    [doc.HasMember]: it neither returns nor calls the engine. *)
Theorem parse_of_a_root_that_is_no_object_aborts (root : Value) (s : State) :
  (forall members, root <> Obj members) ->
  parse created b64_decode allocate float_of_integer (Parsed root) s = (Aborts, s).
Proof.
  intros Hroot. unfold parse, parse_document, parse_top_level, mbind, M_bind, lift.
  destruct root as [| z | bits | str | elems | members]; try reflexivity.
  by destruct (Hroot members).
Qed.

(** X24. For an object that has none of the five members [parse] looks for, the
    engine is told of zero entities of each of the five kinds, in the order
    shader modules, samplers, descriptor set layouts, pipeline layouts,
    render passes; [parse] returns [true] and the replayer is unchanged. *)
Theorem parse_without_registries_reports_zero_of_each (members : list (string * Value))
  (s : State) :
  Forall (fun name => FindMember name members = None) parsed_members ->
  parse created b64_decode allocate float_of_integer (Parsed (Obj members)) s
  = (Returns true,
     (fst s, snd s ++ [set_num ShaderModule 0; set_num Sampler 0;
                       set_num DescriptorSetLayout 0; set_num PipelineLayout 0;
                       set_num RenderPass 0])).
Proof.
  unfold parsed_members. intros H.
  apply Forall_cons in H as [H1 H]. apply Forall_cons in H as [H2 H].
  apply Forall_cons in H as [H3 H]. apply Forall_cons in H as [H4 H].
  apply Forall_cons in H as [H5 _].
  unfold parse, parse_document, parse_top_level, mbind, M_bind, lift, call.
  cbn [HasMember]. rewrite H1, H2, H3, H4, H5.
  rewrite bool_decide_eq_false_2 by (intros [x Hx]; done).
  cbn [fst snd]. by rewrite <- !app_assoc.
Qed.

End Replaying.

Lemma serialized_sampler_example :
  fst (Scenarios.replay (Parsed Scenarios.one_sampler_document)) <> Returns true.
Proof.
  apply (serialized_samplers_and_shader_modules_are_not_replayed
           Scenarios.numbering_engine Scenarios.no_bytes Scenarios.arena Scenarios.zero_float
           (fun _ => EmptyString) Scenarios.one_sampler_recorder).
  - vm_compute. reflexivity.
  - left. vm_compute. discriminate.
Defined.

Lemma parse_of_an_array_example :
  Scenarios.replay (Parsed (Arr [])) = (Aborts, (StateReplayer_new, [])).
Proof.
  apply (parse_of_a_root_that_is_no_object_aborts
           Scenarios.numbering_engine Scenarios.no_bytes Scenarios.arena Scenarios.zero_float
           (Arr []) (StateReplayer_new, [])).
  intros members. discriminate.
Defined.

Lemma parse_without_registries_example :
  Scenarios.replay (Parsed (Obj [("computePipelines", Arr [])]%string))
  = (Returns true,
     (StateReplayer_new,
      [set_num ShaderModule 0; set_num Sampler 0; set_num DescriptorSetLayout 0;
       set_num PipelineLayout 0; set_num RenderPass 0])).
Proof.
  apply (parse_without_registries_reports_zero_of_each
           Scenarios.numbering_engine Scenarios.no_bytes Scenarios.arena Scenarios.zero_float
           [("computePipelines", Arr [])]%string (StateReplayer_new, [])).
  repeat constructor.
Defined.

End DocumentFacts.
